(** * mod_evasive: the Named Timestamp Tree and the access checker

    A shallow embedding of [mod_evasive24.c]: the chained hash table
    ([ntt_*]), the two whitelist checks and [access_checker], followed by
    the properties of the specification that are about them.

    Conventions of the embedding.
    - [size_t] is the 64-bit unsigned type: a [Z] in [0, 2^64), every
      arithmetic result reduced with [size_t_wrap].
    - [time_t] and [int] values are [Z]; timestamps are seconds.
    - A C string is a [string] (its bytes up to the terminating NUL).
    - A [struct ntt *] that may be [NULL] is an [option ntt_t].
    - A [struct ntt_node *] is a [node_ref]: the bucket the node hangs from
      and the number of [next] links to follow from the head of the chain.
      [ntt_insert] links new nodes behind the last node of a chain, so a
      reference stays valid across insertions.
    - [malloc], [calloc] and [strdup] may fail.  Their outcomes are read
      from an [allocator], the list of the results of the allocations still
      to come ([true]: success); past its end every allocation succeeds. *)

From Stdlib Require Import ZArith String Ascii List Bool Lia.
From stdpp Require Import base option list.

Open Scope string_scope.
Open Scope Z_scope.

(** ** Machine integers *)

Definition SIZE_MAX : Z := 2 ^ 64 - 1.

Definition size_t_wrap (z : Z) : Z := z mod 2 ^ 64.

(** Conversion of a [char] to [size_t], as in [5 * val + *key]: [char] is
    signed on the platforms the module is built for, so a byte above 127 is
    sign-extended before the unsigned addition. *)
Definition char_to_size_t (c : ascii) : Z :=
  let b := Z.of_N (N_of_ascii c) in
  if b <? 128 then b else size_t_wrap (b - 256).

(** ** Allocation *)

Definition allocator := list bool.

Definition Alloc (A : Type) : Type := allocator -> A * allocator.

#[global] Instance Alloc_ret : MRet Alloc := fun A x a => (x, a).

#[global] Instance Alloc_bind : MBind Alloc :=
  fun A B f m a => let '(x, a') := m a in f x a'.

(** One allocation request ([malloc], [calloc], [strdup],
    [pcre2_match_data_create_from_pattern]): [true] when it returns a
    non-NULL pointer. *)
Definition malloc : Alloc bool :=
  fun a => match a with
           | [] => (true, [])
           | ok :: a' => (ok, a')
           end.

(** ** NTT (Named Timestamp Tree) *)

Definition ntt_num_primes : nat := 28.

(** [struct ntt_node]; the [next] field is the rest of the chain. *)
Record ntt_node := Node {
  node_key : string;
  node_timestamp : Z;
  node_count : Z
}.

(** [struct ntt]; [ntt_tbl] is the bucket array, each bucket the chain of
    nodes reached from it through [next]. *)
Record ntt_t := Ntt {
  ntt_size : Z;
  ntt_items : Z;
  ntt_tbl : list (list ntt_node)
}.

(** A [struct ntt_node *]. *)
Record node_ref := NodeRef {
  ref_bucket : nat;
  ref_depth : nat
}.

#[global] Instance node_ref_eq_dec : EqDecision node_ref.
Proof. solve_decision. Defined.

Definition ntt_prime_list : list Z :=
  [ 53;         97;         193;       389;       769;
    1543;       3079;       6151;      12289;     24593;
    49157;      98317;      196613;    393241;    786433;
    1572869;    3145739;    6291469;   12582917;  25165843;
    50331653;   100663319;  201326611; 402653189; 805306457;
    1610612741; 3221225473; 4294967291 ].

(** [for (; *key; ++key) val = 5 * val + *key;] *)
Fixpoint ntt_hash_loop (key : string) (val : Z) : Z :=
  match key with
  | EmptyString => val
  | String c key' => ntt_hash_loop key' (size_t_wrap (5 * val + char_to_size_t c))
  end.

Definition ntt_hashcode (ntt : ntt_t) (key : string) : Z :=
  ntt_hash_loop key 0 mod ntt_size ntt.

(** [ntt->tbl[hash_code]]: the chain hanging from a bucket. *)
Definition ntt_bucket (ntt : ntt_t) (hash_code : nat) : list ntt_node :=
  default [] (ntt_tbl ntt !! hash_code).

(** The chain walk shared by [ntt_find], [ntt_insert] and [ntt_delete]:
    follow [next] from [node], [depth] links from the head, until a node
    whose key compares equal with [strcmp]; [None] when the walk reaches
    the end of the chain. *)
Fixpoint ntt_chain_walk (key : string) (node : list ntt_node) (depth : nat)
  : option nat :=
  match node with
  | [] => None
  | n :: next =>
      if String.eqb key (node_key n) then Some depth
      else ntt_chain_walk key next (S depth)
  end.

(** [ntt_node_create]: [malloc] of the node, then [strdup] of the key. *)
Definition ntt_node_create (key : string) (timestamp : Z)
  : Alloc (option ntt_node) :=
  node ← malloc;
  if negb node then mret None
  else
    node_key ← malloc;
    if negb node_key then mret None
    else mret (Some (Node key timestamp 0)).

(** The loop of [ntt_create]:
    [while (i < (ntt_num_primes - 1) && ntt_prime_list[i] < size) { i++; }].
    [fuel] bounds the number of iterations. *)
Fixpoint ntt_prime_scan (fuel : nat) (i : nat) (size : Z) : nat :=
  match fuel with
  | O => i
  | S fuel' =>
      if (i <? ntt_num_primes - 1)%nat && (nth i ntt_prime_list 0 <? size)
      then ntt_prime_scan fuel' (S i) size
      else i
  end.

Definition ntt_create (size : Z) : Alloc (option ntt_t) :=
  ntt ← malloc;
  if negb ntt then mret None
  else
    let i := ntt_prime_scan ntt_num_primes 0 size in
    let size' := nth i ntt_prime_list 0 in
    tbl ← malloc;
    if negb tbl then mret None
    else mret (Some (Ntt size' 0 (replicate (Z.to_nat size') []))).

Definition ntt_find (ntt : option ntt_t) (key : string) : option node_ref :=
  match ntt with
  | None => None
  | Some s =>
      let hash_code := Z.to_nat (ntt_hashcode s key) in
      match ntt_chain_walk key (ntt_bucket s hash_code) 0 with
      | Some depth => Some (NodeRef hash_code depth)
      | None => None
      end
  end.

(** [p != NULL] *)
Definition non_null {A : Type} (p : option A) : bool :=
  match p with
  | Some _ => true
  | None => false
  end.

(** Reading and writing through a node pointer. *)
Definition node_get (ntt : option ntt_t) (n : node_ref) : option ntt_node :=
  match ntt with
  | None => None
  | Some s => ntt_bucket s (ref_bucket n) !! ref_depth n
  end.

Definition node_upd (f : ntt_node -> ntt_node) (ntt : option ntt_t)
    (n : node_ref) : option ntt_t :=
  match ntt with
  | None => None
  | Some s =>
      Some (Ntt (ntt_size s) (ntt_items s)
              (alter (alter f (ref_depth n)) (ref_bucket n) (ntt_tbl s)))
  end.

Definition set_timestamp (timestamp : Z) (n : ntt_node) : ntt_node :=
  Node (node_key n) timestamp (node_count n).

Definition set_count (count : Z) (n : ntt_node) : ntt_node :=
  Node (node_key n) (node_timestamp n) count.

(** [n->timestamp] and [n->count] for a pointer obtained from [ntt_find]. *)
Definition timestamp_of (ntt : option ntt_t) (n : node_ref) : Z :=
  from_option node_timestamp 0 (node_get ntt n).

Definition count_of (ntt : option ntt_t) (n : node_ref) : Z :=
  from_option node_count 0 (node_get ntt n).

(** [ntt_insert].  When the key is absent the walk ends with [parent] on
    the last node of the chain ([NULL] for an empty bucket): the new node
    becomes [parent->next], or the head of the bucket.  [ntt->items] is
    incremented before the result of [ntt_node_create] is looked at, and a
    [NULL] result is stored and returned like any other. *)
Definition ntt_insert (ntt : option ntt_t) (key : string) (timestamp : Z)
  : Alloc (option node_ref * option ntt_t) :=
  match ntt with
  | None => mret (None, None)
  | Some s =>
      if ntt_items s =? SIZE_MAX then mret (None, Some s)
      else
        let hash_code := Z.to_nat (ntt_hashcode s key) in
        let chain := ntt_bucket s hash_code in
        match ntt_chain_walk key chain 0 with
        | Some depth =>
            let new_node := NodeRef hash_code depth in
            mret (Some new_node,
                  node_upd (set_count 0)
                    (node_upd (set_timestamp timestamp) (Some s) new_node)
                    new_node)
        | None =>
            new_node ← ntt_node_create key timestamp;
            let items := size_t_wrap (ntt_items s + 1) in
            match new_node with
            | None => mret (None, Some (Ntt (ntt_size s) items (ntt_tbl s)))
            | Some node =>
                mret (Some (NodeRef hash_code (length chain)),
                      Some (Ntt (ntt_size s) items
                              (<[hash_code := (chain ++ [node])%list]> (ntt_tbl s))))
            end
        end
  end.

(** [ntt_delete]: [0] when the node was unlinked and freed, [-5] when no
    node has the key, [-1] for a [NULL] tree. *)
Definition ntt_delete (ntt : option ntt_t) (key : string)
  : Z * option ntt_t :=
  match ntt with
  | None => (-1, None)
  | Some s =>
      let hash_code := Z.to_nat (ntt_hashcode s key) in
      let chain := ntt_bucket s hash_code in
      match ntt_chain_walk key chain 0 with
      | Some depth =>
          (0, Some (Ntt (ntt_size s) (size_t_wrap (ntt_items s - 1))
                      (<[hash_code := delete depth chain]> (ntt_tbl s))))
      | None => (-5, Some s)
      end
  end.

(** ** Configuration and requests *)

Definition OK : Z := 0.
Definition HTTP_FORBIDDEN : Z := 403.

Definition DEFAULT_HASH_TBL_SIZE : Z := 3097.
Definition DEFAULT_PAGE_COUNT : Z := 2.
Definition DEFAULT_SITE_COUNT : Z := 50.
Definition DEFAULT_PAGE_INTERVAL : Z := 1.
Definition DEFAULT_SITE_INTERVAL : Z := 1.
Definition DEFAULT_BLOCKING_PERIOD : Z := 10.
Definition DEFAULT_HTTP_REPLY : Z := HTTP_FORBIDDEN.

(** A compiled pattern, seen through [pcre2_match] with the options the
    module passes: the return code for a subject (negative: no match). *)
Definition pcre2_code : Type := string -> Z.

(** [evasive_config], without the three strings that only the notification
    code reads ([email_notify], [log_dir], [system_command]). *)
Record evasive_config := Config {
  enabled : Z;
  hit_list : option ntt_t;
  hash_table_size : Z;
  uri_whitelist : list pcre2_code;
  page_count : Z;
  page_interval : Z;
  site_count : Z;
  site_interval : Z;
  blocking_period : Z;
  http_reply : Z
}.

Definition set_hit_list (cfg : evasive_config) (hl : option ntt_t)
  : evasive_config :=
  Config (enabled cfg) hl (hash_table_size cfg) (uri_whitelist cfg)
    (page_count cfg) (page_interval cfg) (site_count cfg) (site_interval cfg)
    (blocking_period cfg) (http_reply cfg).

(** The fields of [request_rec] the module reads. *)
#[warnings="-register-all"]
Inductive request_rec := Request {
  useragent_ip : string;
  uri : string;
  prev : option request_rec;
  main : option request_rec
}.

(** [snprintf(buf, size, ...)] keeps the first [size - 1] bytes of the
    formatted text. *)
Definition snprintf (size : nat) (text : string) : string :=
  substring 0 (size - 1) text.

(** Conversions of the [long] that [strtol] returns to the field types. *)
Definition to_uint (n : Z) : Z := n mod 2 ^ 32.
Definition to_int (n : Z) : Z := (n + 2 ^ 31) mod 2 ^ 32 - 2 ^ 31.

(** [create_dir_conf]; [apr_pcalloc] zeroes the fields it does not set,
    [blocking_period] among them. *)
Definition create_dir_conf : Alloc evasive_config :=
  hl ← ntt_create DEFAULT_HASH_TBL_SIZE;
  mret (Config 0 hl DEFAULT_HASH_TBL_SIZE [] DEFAULT_PAGE_COUNT
          DEFAULT_PAGE_INTERVAL DEFAULT_SITE_COUNT DEFAULT_SITE_INTERVAL
          0 DEFAULT_HTTP_REPLY).

(** The directive handlers, applied to the number [strtol] parsed. *)
Definition get_enabled (cfg : evasive_config) (value : string)
  : evasive_config :=
  Config (if String.eqb "true" value then 1 else 0) (hit_list cfg)
    (hash_table_size cfg) (uri_whitelist cfg) (page_count cfg)
    (page_interval cfg) (site_count cfg) (site_interval cfg)
    (blocking_period cfg) (http_reply cfg).

Definition get_hash_tbl_size (cfg : evasive_config) (n : Z)
  : Alloc evasive_config :=
  let size := if n <=? 0 then DEFAULT_HASH_TBL_SIZE else n in
  hl ← ntt_create size;
  mret (Config (enabled cfg) hl size (uri_whitelist cfg) (page_count cfg)
          (page_interval cfg) (site_count cfg) (site_interval cfg)
          (blocking_period cfg) (http_reply cfg)).

Definition get_page_count (cfg : evasive_config) (n : Z) : evasive_config :=
  Config (enabled cfg) (hit_list cfg) (hash_table_size cfg)
    (uri_whitelist cfg)
    (if n <=? 0 then DEFAULT_PAGE_COUNT else to_uint n)
    (page_interval cfg) (site_count cfg) (site_interval cfg)
    (blocking_period cfg) (http_reply cfg).

Definition get_site_count (cfg : evasive_config) (n : Z) : evasive_config :=
  Config (enabled cfg) (hit_list cfg) (hash_table_size cfg)
    (uri_whitelist cfg) (page_count cfg) (page_interval cfg)
    (if n <=? 0 then DEFAULT_SITE_COUNT else to_uint n)
    (site_interval cfg) (blocking_period cfg) (http_reply cfg).

Definition get_page_interval (cfg : evasive_config) (n : Z)
  : evasive_config :=
  Config (enabled cfg) (hit_list cfg) (hash_table_size cfg)
    (uri_whitelist cfg) (page_count cfg)
    (if n <=? 0 then DEFAULT_PAGE_INTERVAL else to_int n)
    (site_count cfg) (site_interval cfg) (blocking_period cfg)
    (http_reply cfg).

Definition get_site_interval (cfg : evasive_config) (n : Z)
  : evasive_config :=
  Config (enabled cfg) (hit_list cfg) (hash_table_size cfg)
    (uri_whitelist cfg) (page_count cfg) (page_interval cfg)
    (site_count cfg)
    (if n <=? 0 then DEFAULT_SITE_INTERVAL else to_int n)
    (blocking_period cfg) (http_reply cfg).

Definition get_blocking_period (cfg : evasive_config) (n : Z)
  : evasive_config :=
  Config (enabled cfg) (hit_list cfg) (hash_table_size cfg)
    (uri_whitelist cfg) (page_count cfg) (page_interval cfg)
    (site_count cfg) (site_interval cfg)
    (if n <=? 0 then DEFAULT_BLOCKING_PERIOD else to_int n)
    (http_reply cfg).

(** The [DOSWhitelist] handler; [now] is [time(NULL)]. *)
Definition whitelist (cfg : evasive_config) (ip : string) (now : Z)
  : Alloc evasive_config :=
  let entry := snprintf 128 ("WHITELIST_" ++ ip) in
  '(_, hl) ← ntt_insert (hit_list cfg) entry now;
  mret (set_hit_list cfg hl).

(** The [DOSWhitelistUri] handler for a pattern that compiled to [re]: the
    node is linked in front of the list.  A failed [malloc] of the node
    leaves the list as it is. *)
Definition whitelist_uri (cfg : evasive_config) (re : pcre2_code)
  : Alloc evasive_config :=
  node ← malloc;
  if negb node then mret cfg
  else
    mret (Config (enabled cfg) (hit_list cfg) (hash_table_size cfg)
            (re :: uri_whitelist cfg) (page_count cfg) (page_interval cfg)
            (site_count cfg) (site_interval cfg) (blocking_period cfg)
            (http_reply cfg)).

(** ** The whitelist checks *)

(** The tokens [strtok] returns for the delimiter ["."]: the maximal runs of
    other bytes, in order; [cur] is the run being read. *)
Fixpoint strtok_dot (s : string) (cur : string) : list string :=
  match s with
  | EmptyString => if String.eqb cur "" then [] else [cur]
  | String c s' =>
      if Ascii.eqb c "."%char
      then (if String.eqb cur "" then strtok_dot s' ""
            else cur :: strtok_dot s' "")
      else strtok_dot s' (cur ++ String c "")
  end.

(** The loop of [is_whitelisted] over the tokens:
    [while (oct != NULL && i < 4) { if (strlen(oct) <= 3) strcpy(octet[i], oct); i++; ... }] *)
Fixpoint octet_loop (toks : list string) (i : nat) (octet : list string)
  : list string :=
  match toks with
  | [] => octet
  | oct :: toks' =>
      if (i <? 4)%nat
      then octet_loop toks' (S i)
             (if (String.length oct <=? 3)%nat then <[i := oct]> octet
              else octet)
      else octet
  end.

(** The four lookups of [is_whitelisted], after the octets are cut. *)
Definition whitelist_lookups (ip : string) (hl : option ntt_t) : bool :=
  let octet := octet_loop (strtok_dot ip "") 0 [""; ""; ""; ""] in
  let o0 := nth 0 octet "" in
  let o1 := nth 1 octet "" in
  let o2 := nth 2 octet "" in
  if non_null (ntt_find hl (snprintf 128 ("WHITELIST_" ++ ip))) then true
  else if non_null (ntt_find hl (snprintf 128 ("WHITELIST_" ++ o0 ++ ".*.*.*")))
  then true
  else if non_null
            (ntt_find hl
               (snprintf 128 ("WHITELIST_" ++ o0 ++ "." ++ o1 ++ ".*.*")))
  then true
  else if non_null
            (ntt_find hl
               (snprintf 128
                  ("WHITELIST_" ++ o0 ++ "." ++ o1 ++ "." ++ o2 ++ ".*")))
  then true
  else false.

(** [is_whitelisted]: [0] at once when [strdup] fails. *)
Definition is_whitelisted (ip : string) (cfg : evasive_config) : Alloc bool :=
  dip ← malloc;
  if negb dip then mret false
  else mret (whitelist_lookups ip (hit_list cfg)).

(** The loop of [is_uri_whitelisted] over the pattern list: a pattern whose
    match data cannot be allocated is skipped. *)
Fixpoint uri_whitelist_loop (uri : string) (node : list pcre2_code)
  : Alloc bool :=
  match node with
  | [] => mret false
  | re :: next =>
      match_data ← malloc;
      if negb match_data then uri_whitelist_loop uri next
      else if 0 <=? re uri then mret true
      else uri_whitelist_loop uri next
  end.

Definition is_uri_whitelisted (uri : string) (cfg : evasive_config)
  : Alloc bool :=
  uri_whitelist_loop uri (uri_whitelist cfg).

(** ** The access checker *)

(** [n != NULL && t - n->timestamp < cfg->blocking_period] *)
Definition on_hold (cfg : evasive_config) (hl : option ntt_t)
    (n : option node_ref) (t : Z) : bool :=
  match n with
  | None => false
  | Some n => t - timestamp_of hl n <? blocking_period cfg
  end.

(** The two hit checks of [access_checker] ("Has URI been hit too much?",
    "Has site been hit too much?") are the same statements for a different
    key, interval and count; [hit_check] is that block.  [ret] is the
    verdict so far, the result is the verdict and the table after it. *)
Definition hit_check (cfg : evasive_config) (ip hash_key : string)
    (interval count t : Z) (ret : Z) (hl : option ntt_t)
  : Alloc (Z * option ntt_t) :=
  match ntt_find hl hash_key with
  | Some n =>
      '(ret, hl) ←
        (if (t - timestamp_of hl n <? interval) && (count <=? count_of hl n)
         then
           '(_, hl) ← ntt_insert hl ip t;
           mret (http_reply cfg, hl)
         else
           mret (ret,
                 if interval <=? t - timestamp_of hl n
                 then node_upd (set_count 0) hl n
                 else hl)) : Alloc (Z * option ntt_t);
      let hl := node_upd (set_timestamp t) hl n in
      let hl := node_upd (set_count (size_t_wrap (count_of hl n + 1))) hl n in
      mret (ret, hl)
  | None =>
      '(_, hl) ← ntt_insert hl hash_key t;
      mret (ret, hl)
  end.

(** The [else] branch of the hold test, "Not on hold, check hit stats":
    the URI whitelist, then the hit check of the page and the one of the
    site. *)
Definition check_hit_stats (cfg : evasive_config) (r : request_rec) (t : Z)
    (ret : Z) (hl : option ntt_t) : Alloc (Z * option ntt_t) :=
  uw ← is_uri_whitelisted (uri r) cfg;
  if (uw : bool) then mret (OK, hl)
  else
    '(ret, hl) ←
      hit_check cfg (useragent_ip r)
        (snprintf 2048 (useragent_ip r ++ "_" ++ uri r))
        (page_interval cfg) (page_count cfg) t ret hl;
    '(ret, hl) ←
      hit_check cfg (useragent_ip r)
        (snprintf 2048 (useragent_ip r ++ "_SITE"))
        (site_interval cfg) (site_count cfg) t ret hl;
    mret (ret, hl).

(** [access_checker] at time [t = time(NULL)]: the status it returns and
    the table [cfg->hit_list] points to afterwards.  The marker file, the
    mail, the system command and the log line that follow a denial change
    neither and are left out. *)
Definition access_checker (cfg : evasive_config) (r : request_rec) (t : Z)
  : Alloc (Z * option ntt_t) :=
  let ret := OK in
  let hl := hit_list cfg in
  if negb (enabled cfg =? 0) && negb (non_null (prev r))
     && negb (non_null (main r)) && non_null hl
  then
    wl ← is_whitelisted (useragent_ip r) cfg;
    if (wl : bool) then mret (OK, hl)
    else
      let n := ntt_find hl (useragent_ip r) in
      if on_hold cfg hl n t
      then
        mret (http_reply cfg,
              from_option (node_upd (set_timestamp t) hl) hl n)
      else check_hit_stats cfg r t ret hl
  else mret (ret, hl).

(** A run of requests against one configuration: each request is checked at
    its own time against the table the previous one left. *)
Fixpoint serve (cfg : evasive_config) (reqs : list (request_rec * Z))
  : Alloc (list Z * evasive_config) :=
  match reqs with
  | [] => mret ([], cfg)
  | (r, t) :: reqs' =>
      '(ret, hl) ← access_checker cfg r t;
      '(rets, cfg') ← serve (set_hit_list cfg hl) reqs';
      mret (ret :: rets, cfg')
  end.

(** ** The invariant of the table *)

(** The bucket array has [ntt_size] buckets. *)
Definition ntt_shape (s : ntt_t) : Prop :=
  0 < ntt_size s /\ length (ntt_tbl s) = Z.to_nat (ntt_size s).

(** Every node hangs from the bucket its key hashes to. *)
Definition ntt_hashed (s : ntt_t) : Prop :=
  forall p n, node_get (Some s) p = Some n ->
    ref_bucket p = Z.to_nat (ntt_hashcode s (node_key n)).

(** No two nodes of the table have the same key. *)
Definition ntt_unique_keys (s : ntt_t) : Prop :=
  forall p q n m, node_get (Some s) p = Some n -> node_get (Some s) q = Some m ->
    node_key n = node_key m -> p = q.

Definition ntt_inv (s : ntt_t) : Prop :=
  ntt_shape s /\ ntt_hashed s /\ ntt_unique_keys s.

(** The number of nodes reachable from the bucket array. *)
Definition ntt_entries (s : ntt_t) : Z :=
  Z.of_nat (length (concat (ntt_tbl s))).

(** The item count is a [size_t] and is not below the number of nodes. *)
Definition ntt_items_ok (s : ntt_t) : Prop :=
  0 <= ntt_items s <= SIZE_MAX /\ ntt_entries s <= ntt_items s.

(** ** Predicates and tables used in the statements *)

(** The test that opens [access_checker]. *)
Definition checked (cfg : evasive_config) (r : request_rec) : Prop :=
  enabled cfg <> 0 /\ prev r = None /\ main r = None
  /\ is_Some (hit_list cfg).

(** The times of a run of requests that keeps a hold alive: each comes less
    than [period] seconds after the one before, the first one after [last]. *)
Fixpoint hold_kept (period last : Z) (times : list Z) : bool :=
  match times with
  | [] => true
  | t :: times' => (t - last <? period) && hold_kept period t times'
  end.

(** The table [ntt_create] returns for a capacity hint of 50 when both
    allocations succeed. *)
Definition ntt_53 : ntt_t := Ntt 53 0 (replicate 53 []).

(** [ntt_53] after ["a"] was inserted at time 0. *)
Definition ntt_53_a : ntt_t :=
  Ntt 53 1 (<[44%nat := [Node "a" 0 0]]> (replicate 53 [])).

(** What the last two statements of the hit check, [n->timestamp = t;
    n->count++;], leave in the table. *)
Definition stamp_and_count (t : Z) (hl : option ntt_t) (n : node_ref)
  : option ntt_t :=
  node_upd (set_count (size_t_wrap (count_of (node_upd (set_timestamp t) hl n) n + 1)))
    (node_upd (set_timestamp t) hl n) n.

(** An octet as [is_whitelisted] keeps it: one to three bytes, none of them
    a dot. *)
Fixpoint no_dot (s : string) : bool :=
  match s with
  | EmptyString => true
  | String c s' => negb (Ascii.eqb c "."%char) && no_dot s'
  end.

Definition octet_ok (s : string) : bool :=
  no_dot s && negb (String.eqb s "") && (String.length s <=? 3)%nat.

(** A configuration for the scenarios: [create_dir_conf] with every
    allocation successful, then [DOSEnabled true], [DOSPageCount 2],
    [DOSPageInterval 1] and [DOSBlockingPeriod 10]. *)
Definition cfg_2_1 : evasive_config :=
  get_blocking_period
    (get_page_interval
       (get_page_count (get_enabled (create_dir_conf []).1 "true") 2) 1) 10.

Definition req_x : request_rec := Request "1.2.3.4" "/x" None None.

(** [cfg_2_1] after four requests of [req_x] at time 0: the fourth was
    denied and put the client on hold. *)
Definition cfg_held : evasive_config :=
  (serve cfg_2_1 [(req_x, 0); (req_x, 0); (req_x, 0); (req_x, 0)] []).1.2.

(** [cfg_2_1] after [DOSWhitelist 1.2.*.*]. *)
Definition cfg_wl : evasive_config := (whitelist cfg_2_1 "1.2.*.*" 0 []).1.


(** A pattern that matches the paths under [/static]. *)
Definition re_static : pcre2_code :=
  fun subject => if String.prefix "/static" subject then 1 else -1.

Definition cfg_uri : evasive_config := (whitelist_uri cfg_2_1 re_static []).1.

Definition req_static : request_rec :=
  Request "1.2.3.4" "/static/a" None None.



(** ** The cursor and the destructor *)

(** [struct ntt_c] *)
Record ntt_c := Cursor {
  iter_index : Z;
  iter_next : option node_ref
}.

(** [n->next]: the node one link further down the chain, [NULL] behind
    the last one. *)
Definition node_next (ntt : option ntt_t) (n : node_ref) : option node_ref :=
  let next := NodeRef (ref_bucket n) (S (ref_depth n)) in
  if non_null (node_get ntt next) then Some next else None.

(** [ntt->tbl[index]] as a node pointer: the head of the chain, [NULL] for
    an empty bucket. *)
Definition bucket_head (ntt : option ntt_t) (index : nat) : option node_ref :=
  let head := NodeRef index 0 in
  if non_null (node_get ntt head) then Some head else None.

(** The loop of [c_ntt_next],
    [while (c->iter_index < ntt->size) { index = c->iter_index++; if (ntt->tbl[index]) { ... return } }].
    [fuel] bounds the number of iterations; [c_ntt_next] passes the number
    of buckets that are left. *)
Fixpoint c_ntt_scan (fuel : nat) (s : ntt_t) (iter_index : Z)
  : option node_ref * ntt_c :=
  match fuel with
  | O => (None, Cursor iter_index None)
  | S fuel' =>
      if iter_index <? ntt_size s then
        let index := Z.to_nat iter_index in
        let iter_index := size_t_wrap (iter_index + 1) in
        match bucket_head (Some s) index with
        | Some head =>
            (Some head, Cursor iter_index (node_next (Some s) head))
        | None => c_ntt_scan fuel' s iter_index
        end
      else (None, Cursor iter_index None)
  end.

(** [c_ntt_next]: the node returned and the cursor afterwards. *)
Definition c_ntt_next (ntt : option ntt_t) (c : ntt_c)
  : option node_ref * ntt_c :=
  let node := iter_next c in
  match ntt with
  | None => (None, c)
  | Some s =>
      match node with
      | Some n => (Some n, Cursor (iter_index c) (node_next ntt n))
      | None =>
          c_ntt_scan (Z.to_nat (ntt_size s - iter_index c)) s (iter_index c)
      end
  end.

(** [c_ntt_first]: the cursor is reset, whatever it held. *)
Definition c_ntt_first (ntt : option ntt_t) : option node_ref * ntt_c :=
  c_ntt_next ntt (Cursor 0 None).

(** A traversal as [ntt_destroy] writes it,
    [node = c_ntt_first(ntt, &c); while (node != NULL) { next = c_ntt_next(ntt, &c); ...; node = next; }],
    with nothing done to the nodes: the pointers visited, in order.  [fuel]
    bounds the number of iterations. *)
Fixpoint c_ntt_walk (fuel : nat) (ntt : option ntt_t) (c : ntt_c)
    (node : option node_ref) : list node_ref :=
  match fuel, node with
  | S fuel', Some n =>
      let '(next, c) := c_ntt_next ntt c in
      n :: c_ntt_walk fuel' ntt c next
  | _, _ => []
  end.

(** [n->key] *)
Definition key_of (ntt : option ntt_t) (n : node_ref) : string :=
  from_option node_key "" (node_get ntt n).

(** A [node_ref] names a node by its place in the chain.  When [ntt_delete]
    unlinks the node [del], the nodes behind it in that chain move one link
    closer to the head; a pointer held across the call still means the same
    node, which is now one place earlier. *)
Definition ref_after_delete (del : option node_ref) (p : node_ref)
  : node_ref :=
  match del with
  | Some d =>
      if decide (ref_bucket p = ref_bucket d /\ (ref_depth d < ref_depth p)%nat)
      then NodeRef (ref_bucket p) (pred (ref_depth p))
      else p
  | None => p
  end.

(** The loop of [ntt_destroy].  The codes [ntt_delete] returns, which the
    source drops, are collected; the result also has the table and [node]
    as the loop leaves them.  [fuel] bounds the number of iterations. *)
Fixpoint ntt_destroy_loop (fuel : nat) (ntt : option ntt_t) (c : ntt_c)
    (node : option node_ref) : list Z * option ntt_t * option node_ref :=
  match fuel, node with
  | S fuel', Some n =>
      let '(next, c) := c_ntt_next ntt c in
      let key := key_of ntt n in
      let del := ntt_find ntt key in
      let '(code, ntt) := ntt_delete ntt key in
      let '(codes, ntt, node) :=
        ntt_destroy_loop fuel' ntt
          (Cursor (iter_index c) (ref_after_delete del <$> iter_next c))
          (ref_after_delete del <$> next) in
      (code :: codes, ntt, node)
  | _, _ => ([], ntt, node)
  end.

(** [ntt_destroy]: the value returned, the codes of the [ntt_delete] calls
    and the table as it is when the bucket array and the [struct ntt] are
    freed. *)
Definition ntt_destroy (ntt : option ntt_t) : Z * list Z * option ntt_t :=
  match ntt with
  | None => (-1, [], None)
  | Some s =>
      let '(node, c) := c_ntt_first ntt in
      let '(codes, ntt, _) :=
        ntt_destroy_loop (S (Z.to_nat (ntt_entries s))) ntt c node in
      (0, codes, ntt)
  end.

(** [get_http_reply], applied to the number [strtol] parsed. *)
Definition get_http_reply (cfg : evasive_config) (reply : Z)
  : evasive_config :=
  Config (enabled cfg) (hit_list cfg) (hash_table_size cfg)
    (uri_whitelist cfg) (page_count cfg) (page_interval cfg)
    (site_count cfg) (site_interval cfg) (blocking_period cfg)
    (if reply <=? 0 then HTTP_FORBIDDEN else to_int reply).

(** The node positions of a bucket from depth [d] on, and of the buckets
    from [i] on, in the order of the bucket array. *)
Definition refs_bucket (s : ntt_t) (b d : nat) : list node_ref :=
  NodeRef b <$> seq d (length (ntt_bucket s b) - d).

Definition refs_from (s : ntt_t) (i : nat) : list node_ref :=
  flat_map (fun b => refs_bucket s b 0) (seq i (length (ntt_tbl s) - i)).

(** [m] hit checks of the same key one after the other, all at time [t]:
    the verdicts, then the table and the allocator. *)
Fixpoint hit_checks (m : nat) (cfg : evasive_config) (ip hash_key : string)
    (interval count t : Z) (hl : option ntt_t)
  : Alloc (list Z * option ntt_t) :=
  match m with
  | O => mret ([], hl)
  | S m' =>
      '(ret, hl) ← hit_check cfg ip hash_key interval count t OK hl;
      '(rets, hl) ← hit_checks m' cfg ip hash_key interval count t hl;
      mret (ret :: rets, hl)
  end.

(** [cfg_wl] after three requests of the whitelisted [req_x] at time 0
    during which the [strdup] of [is_whitelisted] failed each time while the
    nodes of the first request could be allocated. *)
Definition cfg_wl_counted : evasive_config :=
  (serve cfg_wl [(req_x, 0); (req_x, 0); (req_x, 0)]
     [false; true; true; true; true; false; false]).1.2.

(** [ntt_53_a] after the colliding key ["0E"] was inserted at time 7. *)
Definition ntt_53_a0E : ntt_t :=
  Ntt 53 2 (<[44%nat := [Node "a" 0 0; Node "0E" 7 0]]> (replicate 53 [])).

(** The table of [create_dir_conf] when its allocations succeed: 6151
    buckets for the default size of 3097. *)
Definition ntt_6151 : ntt_t := Ntt 6151 0 (replicate (Z.to_nat 6151) []).




(** [create_dir_conf] with every allocation successful, then
    [DOSEnabled true] and nothing else: the blocking period is the one
    [apr_pcalloc] left. *)
Definition cfg_unset : evasive_config :=
  get_enabled (create_dir_conf []).1 "true".

(** [cfg_unset] after four requests of [req_x] at time 0. *)
Definition cfg_unset_denied : evasive_config :=
  (serve cfg_unset [(req_x, 0); (req_x, 0); (req_x, 0); (req_x, 0)] []).1.2.

Definition req_y : request_rec := Request "1.2.3.4" "/y" None None.

(** * Properties *)

(** ** The allocation monad *)

Lemma Alloc_bind_unfold {A B : Type} (m : Alloc A) (f : A -> Alloc B)
    (a : allocator) :
  (m ≫= f) a = f (m a).1 (m a).2.
Proof. unfold mbind, Alloc_bind. destruct (m a); reflexivity. Qed.

Lemma Alloc_ret_unfold {A : Type} (x : A) (a : allocator) :
  (mret x : Alloc A) a = (x, a).
Proof. reflexivity. Qed.

Ltac alloc_simpl :=
  repeat (rewrite ?Alloc_bind_unfold, ?Alloc_ret_unfold; cbn [fst snd]).

(** ** Chains *)

Section chains.
Implicit Types (key : string) (chain : list ntt_node) (n : ntt_node).

Lemma ntt_chain_walk_shift key chain depth :
  ntt_chain_walk key chain depth
  = Nat.add depth <$> ntt_chain_walk key chain 0.
Proof.
  revert depth. induction chain as [|n next IH]; intros depth; simpl.
  - reflexivity.
  - destruct (String.eqb key (node_key n)).
    + simpl. f_equal. lia.
    + rewrite (IH (S depth)), (IH 1%nat).
      destruct (ntt_chain_walk key next 0); simpl; [f_equal; lia | reflexivity].
Qed.

(** The walk stops on a node with the key, and on the first one. *)
Lemma ntt_chain_walk_Some key chain i :
  ntt_chain_walk key chain 0 = Some i ->
  (exists n, chain !! i = Some n /\ node_key n = key)
  /\ (forall j m, (j < i)%nat -> chain !! j = Some m -> node_key m <> key).
Proof.
  revert i. induction chain as [|n next IH]; intros i; simpl; [discriminate|].
  destruct (String.eqb_spec key (node_key n)) as [Heq|Hne].
  - intros [= <-]. split; [exists n; auto | intros; lia].
  - rewrite ntt_chain_walk_shift.
    destruct (ntt_chain_walk key next 0) as [i'|] eqn:Hw; [|discriminate].
    simpl. intros [= <-]. destruct (IH i' eq_refl) as [Hn Hfirst].
    split; [exact Hn|].
    intros [|j] m Hj; simpl.
    + intros [= <-]. congruence.
    + apply Hfirst. lia.
Qed.

Lemma ntt_chain_walk_None key chain :
  ntt_chain_walk key chain 0 = None <->
  (forall i n, chain !! i = Some n -> node_key n <> key).
Proof.
  induction chain as [|n next IH]; simpl.
  - split; [intros _ i n; rewrite lookup_nil; discriminate | reflexivity].
  - destruct (String.eqb_spec key (node_key n)) as [Heq|Hne].
    + split; [discriminate|]. intros H. exfalso. apply (H 0%nat n); auto.
    + rewrite ntt_chain_walk_shift.
      destruct (ntt_chain_walk key next 0) as [i'|] eqn:Hw; simpl.
      * split; [discriminate|]. intros H.
        destruct (ntt_chain_walk_Some _ _ _ Hw) as [(m & Hm & Hk) _].
        exfalso. apply (H (S i') m); auto.
      * split; [|reflexivity]. intros _ [|i] m; simpl.
        -- intros [= <-]. congruence.
        -- apply IH. reflexivity.
Qed.

(** The walk reads the keys only. *)
Lemma ntt_chain_walk_keys key chain chain' depth :
  node_key <$> chain = node_key <$> chain' ->
  ntt_chain_walk key chain depth = ntt_chain_walk key chain' depth.
Proof.
  revert chain' depth.
  induction chain as [|n next IH]; intros [|n' next'] depth; simpl;
    try discriminate; [reflexivity|].
  intros [= Hk Hrest]. rewrite Hk.
  destruct (String.eqb key (node_key n')); [reflexivity|]. auto.
Qed.

Lemma alter_keys (f : ntt_node -> ntt_node) chain i :
  (forall n, node_key (f n) = node_key n) ->
  node_key <$> alter f i chain = node_key <$> chain.
Proof.
  intros Hf. revert i.
  induction chain as [|n next IH]; intros [|i]; try reflexivity.
  - cbn. rewrite Hf. reflexivity.
  - cbn. f_equal. apply IH.
Qed.

(** A node linked behind the chain is found only when nothing before it
    has the key. *)
Lemma ntt_chain_walk_app key chain n :
  ntt_chain_walk key (chain ++ [n]) 0
  = match ntt_chain_walk key chain 0 with
    | Some i => Some i
    | None => if String.eqb key (node_key n) then Some (length chain)
              else None
    end.
Proof.
  induction chain as [|m next IH]; simpl.
  - destruct (String.eqb key (node_key n)); reflexivity.
  - destruct (String.eqb key (node_key m)); [reflexivity|].
    rewrite (ntt_chain_walk_shift _ (next ++ [n])),
      (ntt_chain_walk_shift _ next), IH.
    destruct (ntt_chain_walk key next 0); simpl; [reflexivity|].
    destruct (String.eqb key (node_key n)); reflexivity.
Qed.
End chains.

(** ** Reading and writing nodes *)

Section nodes.
Implicit Types (s : ntt_t) (hl : option ntt_t) (p q : node_ref)
  (f : ntt_node -> ntt_node).

Lemma ntt_hashcode_same_size s s' key :
  ntt_size s = ntt_size s' -> ntt_hashcode s key = ntt_hashcode s' key.
Proof. unfold ntt_hashcode. intros ->. reflexivity. Qed.

Lemma ntt_bucket_alter s (g : list ntt_node -> list ntt_node) b b' :
  ntt_bucket (Ntt (ntt_size s) (ntt_items s) (alter g b (ntt_tbl s))) b'
  = if decide (b = b') then
      match ntt_tbl s !! b with
      | Some chain => g chain
      | None => []
      end
    else ntt_bucket s b'.
Proof.
  unfold ntt_bucket. simpl. rewrite list_lookup_alter.
  destruct (decide (b = b')) as [->|]; [|reflexivity].
  destruct (ntt_tbl s !! b'); reflexivity.
Qed.

Lemma node_get_node_upd f hl p q :
  node_get (node_upd f hl p) q
  = if decide (p = q) then f <$> node_get hl q else node_get hl q.
Proof.
  destruct hl as [s|]; simpl; [|destruct (decide (p = q)); reflexivity].
  rewrite ntt_bucket_alter.
  destruct p as [b d], q as [b' d']; simpl.
  destruct (decide (b = b')) as [->|Hb].
  - unfold ntt_bucket.
    destruct (ntt_tbl s !! b') as [chain|]; simpl.
    + rewrite list_lookup_alter.
      destruct (decide (d = d')) as [->|Hd].
      * rewrite decide_True by reflexivity. reflexivity.
      * rewrite decide_False by congruence. reflexivity.
    + rewrite lookup_nil. destruct (decide _); reflexivity.
  - rewrite decide_False by congruence. reflexivity.
Qed.

Lemma node_get_node_upd_eq f hl p n :
  node_get hl p = Some n -> node_get (node_upd f hl p) p = Some (f n).
Proof.
  intros H. rewrite node_get_node_upd, decide_True by reflexivity.
  rewrite H. reflexivity.
Qed.

Lemma node_get_node_upd_ne f hl p q :
  p <> q -> node_get (node_upd f hl p) q = node_get hl q.
Proof. intros H. rewrite node_get_node_upd, decide_False; auto. Qed.

(** Writing a field that is not the key changes no lookup. *)
Lemma ntt_find_node_upd f hl p key :
  (forall n, node_key (f n) = node_key n) ->
  ntt_find (node_upd f hl p) key = ntt_find hl key.
Proof.
  intros Hf. destruct hl as [s|]; simpl; [|reflexivity].
  rewrite ntt_bucket_alter.
  set (h := Z.to_nat (ntt_hashcode _ key)).
  replace (Z.to_nat (ntt_hashcode s key)) with h by reflexivity.
  destruct (decide (ref_bucket p = h)) as [Hb|Hb]; [|reflexivity].
  unfold ntt_bucket. rewrite <- Hb.
  destruct (ntt_tbl s !! ref_bucket p) as [chain|]; simpl; [|reflexivity].
  rewrite (ntt_chain_walk_keys key _ chain); [reflexivity|].
  apply alter_keys, Hf.
Qed.

Lemma ntt_find_set_timestamp t hl p key :
  ntt_find (node_upd (set_timestamp t) hl p) key = ntt_find hl key.
Proof. apply ntt_find_node_upd. reflexivity. Qed.

Lemma ntt_find_set_count c hl p key :
  ntt_find (node_upd (set_count c) hl p) key = ntt_find hl key.
Proof. apply ntt_find_node_upd. reflexivity. Qed.

(** [ntt_find] returns a pointer to a node that has the key. *)
Lemma ntt_find_get hl key p :
  ntt_find hl key = Some p ->
  exists n, node_get hl p = Some n /\ node_key n = key.
Proof.
  destruct hl as [s|]; simpl; [|discriminate].
  destruct (ntt_chain_walk key _ 0) as [d|] eqn:Hw; [|discriminate].
  intros [= <-]. simpl.
  apply ntt_chain_walk_Some in Hw. apply Hw.
Qed.

Lemma ntt_find_bucket s key p :
  ntt_find (Some s) key = Some p ->
  ref_bucket p = Z.to_nat (ntt_hashcode s key).
Proof.
  simpl. destruct (ntt_chain_walk key _ 0); [|discriminate].
  intros [= <-]. reflexivity.
Qed.

Lemma timestamp_of_node_upd_eq t hl p n :
  node_get hl p = Some n ->
  timestamp_of (node_upd (set_timestamp t) hl p) p = t.
Proof.
  intros H. unfold timestamp_of.
  rewrite (node_get_node_upd_eq _ _ _ _ H). reflexivity.
Qed.

Lemma count_of_node_upd_eq c hl p n :
  node_get hl p = Some n ->
  count_of (node_upd (set_count c) hl p) p = c.
Proof.
  intros H. unfold count_of.
  rewrite (node_get_node_upd_eq _ _ _ _ H). reflexivity.
Qed.
End nodes.

(** ** The table *)

Section table.
Implicit Types (s : ntt_t) (hl : option ntt_t) (p q : node_ref)
  (key : string).

Lemma ntt_hashcode_lt s key :
  ntt_shape s -> (Z.to_nat (ntt_hashcode s key) < length (ntt_tbl s))%nat.
Proof.
  intros [Hpos Hlen]. rewrite Hlen. unfold ntt_hashcode.
  pose proof (Z.mod_pos_bound (ntt_hash_loop key 0) (ntt_size s) Hpos). lia.
Qed.

Lemma ntt_bucket_insert s items b chain b' :
  ntt_bucket (Ntt (ntt_size s) items (<[b := chain]> (ntt_tbl s))) b'
  = if decide (b = b' /\ (b < length (ntt_tbl s))%nat) then chain
    else ntt_bucket s b'.
Proof.
  unfold ntt_bucket. simpl. rewrite list_lookup_insert.
  destruct (decide _); reflexivity.
Qed.

Lemma ntt_bucket_items s items b :
  ntt_bucket (Ntt (ntt_size s) items (ntt_tbl s)) b = ntt_bucket s b.
Proof. reflexivity. Qed.

(** The invariant does not read [ntt_items]. *)
Lemma ntt_inv_items s items :
  ntt_inv s -> ntt_inv (Ntt (ntt_size s) items (ntt_tbl s)).
Proof. intros H. exact H. Qed.

Lemma ntt_inv_node_upd f s p s' :
  (forall n, node_key (f n) = node_key n) ->
  ntt_inv s -> node_upd f (Some s) p = Some s' -> ntt_inv s'.
Proof.
  intros Hf (Hshape & Hhash & Huniq) Hupd.
  assert (Hget : forall q, node_get (Some s') q
                 = if decide (p = q) then f <$> node_get (Some s) q
                   else node_get (Some s) q).
  { intros q. rewrite <- Hupd. apply node_get_node_upd. }
  injection Hupd as <-.
  split; [|split].
  - destruct Hshape as [Hpos Hlen]. split; [exact Hpos|]. simpl.
    rewrite length_alter. exact Hlen.
  - intros q n. rewrite Hget. unfold ntt_hashcode. simpl ntt_size.
    destruct (decide (p = q)) as [_|_].
    + destruct (node_get (Some s) q) as [m|] eqn:Hm; [|discriminate].
      intros [= <-]. rewrite Hf. apply (Hhash q m Hm).
    + apply Hhash.
  - assert (Hkey : forall q n,
               (if decide (p = q) then f <$> node_get (Some s) q
                else node_get (Some s) q) = Some n ->
               exists m, node_get (Some s) q = Some m
                         /\ node_key m = node_key n).
    { intros q n. destruct (decide (p = q)).
      - destruct (node_get (Some s) q) as [m|]; [|discriminate].
        simpl. intros [= <-]. exists m. auto.
      - intros H. exists n. auto. }
    intros q1 q2 n1 n2. rewrite !Hget. intros H1 H2 Hk.
    destruct (Hkey _ _ H1) as (m1 & Hm1 & Hk1).
    destruct (Hkey _ _ H2) as (m2 & Hm2 & Hk2).
    apply (Huniq q1 q2 m1 m2 Hm1 Hm2). congruence.
Qed.

(** The nodes of the table after a node was linked behind the chain of
    bucket [b]. *)
Lemma node_get_append s items b node q :
  (b < length (ntt_tbl s))%nat ->
  node_get
    (Some (Ntt (ntt_size s) items
             (<[b := (ntt_bucket s b ++ [node])%list]> (ntt_tbl s)))) q
  = if decide (q = NodeRef b (length (ntt_bucket s b))) then Some node
    else node_get (Some s) q.
Proof.
  intros Hb. unfold node_get. rewrite ntt_bucket_insert.
  destruct q as [b' d]. simpl.
  destruct (decide (b = b' /\ _)) as [[<- _]|Hne].
  - destruct (decide (d = length (ntt_bucket s b))) as [->|Hd].
    + rewrite decide_True by reflexivity.
      rewrite lookup_app_r, Nat.sub_diag by lia. reflexivity.
    + rewrite decide_False by congruence.
      destruct (decide (d < length (ntt_bucket s b))%nat).
      * apply lookup_app_l. lia.
      * rewrite !lookup_ge_None_2; [reflexivity|lia|].
        rewrite length_app. simpl. lia.
  - rewrite decide_False; [reflexivity|].
    intros [= -> _]. apply Hne. auto.
Qed.

(** The nodes of the table after the node at depth [d] of bucket [b] was
    unlinked: the nodes behind it move one link closer to the head. *)
Lemma node_get_unlink s items b d q :
  node_get
    (Some (Ntt (ntt_size s) items
             (<[b := delete d (ntt_bucket s b)]> (ntt_tbl s)))) q
  = node_get (Some s)
      (if decide (ref_bucket q = b /\ (d <= ref_depth q)%nat)
       then NodeRef b (S (ref_depth q)) else q).
Proof.
  unfold node_get. rewrite ntt_bucket_insert.
  destruct q as [b' j]. simpl.
  destruct (decide (b = b' /\ _)) as [[<- Hlt]|Hne].
  - rewrite list_lookup_delete.
    destruct (decide (j < d)%nat).
    + rewrite decide_False by lia. reflexivity.
    + rewrite decide_True by (split; [reflexivity|lia]). reflexivity.
  - destruct (decide (b' = b /\ _)) as [[-> Hle]|]; [|reflexivity].
    simpl. unfold ntt_bucket.
    rewrite (lookup_ge_None_2 (ntt_tbl s) b) by (apply Nat.nlt_ge; tauto).
    simpl. rewrite !lookup_nil. reflexivity.
Qed.
End table.

(** ** [ntt_insert], case by case *)

Section insert.
Implicit Types (s : ntt_t) (hl : option ntt_t) (p q : node_ref)
  (key : string) (a : allocator).

Lemma ntt_node_create_cases key t a :
  (exists a', ntt_node_create key t a = (Some (Node key t 0), a'))
  \/ (exists a', ntt_node_create key t a = (None, a')).
Proof.
  unfold ntt_node_create. alloc_simpl.
  destruct (malloc a) as [[] a1]; simpl; alloc_simpl; [|right; eauto].
  destruct (malloc a1) as [[] a2]; simpl; alloc_simpl; eauto.
Qed.

Lemma ntt_node_create_Some key t a node a' :
  ntt_node_create key t a = (Some node, a') -> node = Node key t 0.
Proof.
  destruct (ntt_node_create_cases key t a) as [[a1 H]|[a1 H]];
    rewrite H; congruence.
Qed.

Lemma ntt_find_walk s key :
  ntt_find (Some s) key
  = NodeRef (Z.to_nat (ntt_hashcode s key))
    <$> ntt_chain_walk key (ntt_bucket s (Z.to_nat (ntt_hashcode s key))) 0.
Proof. simpl. destruct (ntt_chain_walk _ _ _); reflexivity. Qed.

Lemma ntt_insert_full s key t a :
  ntt_items s = SIZE_MAX ->
  ntt_insert (Some s) key t a = (None, Some s, a).
Proof. intros H. unfold ntt_insert. rewrite H. reflexivity. Qed.

Lemma ntt_insert_touch s key t a p :
  ntt_items s <> SIZE_MAX ->
  ntt_find (Some s) key = Some p ->
  ntt_insert (Some s) key t a
  = (Some p,
     node_upd (set_count 0) (node_upd (set_timestamp t) (Some s) p) p, a).
Proof.
  intros Hitems. rewrite ntt_find_walk. unfold ntt_insert.
  rewrite (proj2 (Z.eqb_neq _ _) Hitems).
  destruct (ntt_chain_walk _ _ _) as [d|]; [|discriminate].
  intros [= <-]. reflexivity.
Qed.

Lemma ntt_insert_new s key t a :
  ntt_items s <> SIZE_MAX ->
  ntt_find (Some s) key = None ->
  ntt_insert (Some s) key t a
  = let h := Z.to_nat (ntt_hashcode s key) in
    let items := size_t_wrap (ntt_items s + 1) in
    match ntt_node_create key t a with
    | (None, a') => (None, Some (Ntt (ntt_size s) items (ntt_tbl s)), a')
    | (Some node, a') =>
        (Some (NodeRef h (length (ntt_bucket s h))),
         Some (Ntt (ntt_size s) items
                 (<[h := (ntt_bucket s h ++ [node])%list]> (ntt_tbl s))),
         a')
    end.
Proof.
  intros Hitems. rewrite ntt_find_walk. unfold ntt_insert.
  rewrite (proj2 (Z.eqb_neq _ _) Hitems).
  destruct (ntt_chain_walk _ _ _) as [d|]; [discriminate|].
  intros _. alloc_simpl.
  destruct (ntt_node_create key t a) as [[node|] a']; reflexivity.
Qed.

(** Whatever [ntt_insert] does, a lookup of another key gives what it
    gave before. *)
Lemma ntt_find_insert_ne hl key t a key' :
  key <> key' ->
  ntt_find (ntt_insert hl key t a).1.2 key' = ntt_find hl key'.
Proof.
  intros Hne. destruct hl as [s|]; [|reflexivity].
  destruct (Z.eq_dec (ntt_items s) SIZE_MAX) as [Hfull|Hfull].
  { rewrite ntt_insert_full by assumption. reflexivity. }
  destruct (ntt_find (Some s) key) as [p|] eqn:Hfind.
  { rewrite (ntt_insert_touch _ _ _ _ _ Hfull Hfind). cbn [fst snd].
    rewrite ntt_find_set_count, ntt_find_set_timestamp. reflexivity. }
  rewrite (ntt_insert_new _ _ _ _ Hfull Hfind). cbn zeta.
  destruct (ntt_node_create key t a) as [[node|] a'] eqn:Hnode;
    cbn [fst snd]; [|reflexivity].
  apply ntt_node_create_Some in Hnode. subst node.
  rewrite !ntt_find_walk.
  rewrite (ntt_hashcode_same_size _ s) by reflexivity.
  rewrite ntt_bucket_insert.
  destruct (decide _) as [[Heq _]|_]; [|reflexivity].
  rewrite Heq, ntt_chain_walk_app. simpl.
  destruct (ntt_chain_walk key' _ 0); [reflexivity|].
  destruct (String.eqb_spec key' key); [congruence|reflexivity].
Qed.

(** The pointer [ntt_insert] returns is the one a lookup of the key
    returns afterwards. *)
Lemma ntt_find_insert_eq s key t a p :
  ntt_shape s ->
  (ntt_insert (Some s) key t a).1.1 = Some p ->
  ntt_find (ntt_insert (Some s) key t a).1.2 key = Some p.
Proof.
  intros Hshape.
  destruct (Z.eq_dec (ntt_items s) SIZE_MAX) as [Hfull|Hfull].
  { rewrite ntt_insert_full by assumption. discriminate. }
  destruct (ntt_find (Some s) key) as [p0|] eqn:Hfind.
  { rewrite (ntt_insert_touch _ _ _ _ _ Hfull Hfind). cbn [fst snd].
    intros <-.
    rewrite ntt_find_set_count, ntt_find_set_timestamp. exact Hfind. }
  rewrite (ntt_insert_new _ _ _ _ Hfull Hfind). cbn zeta.
  destruct (ntt_node_create key t a) as [[node|] a1] eqn:Hnode;
    cbn [fst snd]; [|discriminate].
  apply ntt_node_create_Some in Hnode. subst node.
  intros <-.
  rewrite ntt_find_walk in *.
  rewrite (ntt_hashcode_same_size _ s) by reflexivity.
  rewrite ntt_bucket_insert.
  rewrite decide_True by (split; [reflexivity|apply ntt_hashcode_lt, Hshape]).
  rewrite ntt_chain_walk_app.
  destruct (ntt_chain_walk key _ 0); [discriminate|].
  simpl. rewrite String.eqb_refl. reflexivity.
Qed.

Lemma ntt_insert_shape s key t a :
  ntt_shape s ->
  exists s', (ntt_insert (Some s) key t a).1.2 = Some s' /\ ntt_shape s'
             /\ ntt_size s' = ntt_size s.
Proof.
  intros Hshape.
  destruct (Z.eq_dec (ntt_items s) SIZE_MAX) as [Hfull|Hfull].
  { rewrite ntt_insert_full by assumption. eauto. }
  destruct (ntt_find (Some s) key) as [p0|] eqn:Hfind.
  { rewrite (ntt_insert_touch _ _ _ _ _ Hfull Hfind). cbn.
    eexists. split; [reflexivity|]. split; [|reflexivity].
    destruct Hshape as [Hpos Hlen]. split; [exact Hpos|].
    cbn. rewrite !length_alter. exact Hlen. }
  rewrite (ntt_insert_new _ _ _ _ Hfull Hfind). cbn zeta.
  destruct (ntt_node_create key t a) as [[node|] a1]; cbn [fst snd];
    (eexists; split; [reflexivity|]; split; [|reflexivity]);
    destruct Hshape as [Hpos Hlen]; (split; [exact Hpos|]); cbn.
  - rewrite length_insert. exact Hlen.
  - exact Hlen.
Qed.

(** [ntt_insert] keeps the invariant, whether it touches a node, links a
    new one, fails to allocate or refuses a full table. *)
Lemma ntt_insert_inv s key t a :
  ntt_inv s ->
  exists s', (ntt_insert (Some s) key t a).1.2 = Some s' /\ ntt_inv s'.
Proof.
  intros Hinv.
  destruct (Z.eq_dec (ntt_items s) SIZE_MAX) as [Hfull|Hfull].
  { rewrite ntt_insert_full by assumption. eauto. }
  destruct (ntt_find (Some s) key) as [p0|] eqn:Hfind.
  { rewrite (ntt_insert_touch _ _ _ _ _ Hfull Hfind). cbn [fst snd].
    destruct (node_upd (set_timestamp t) (Some s) p0) as [s1|] eqn:H1;
      [|discriminate].
    destruct (node_upd (set_count 0) (Some s1) p0) as [s2|] eqn:H2;
      [|discriminate].
    exists s2. split; [reflexivity|].
    eapply ntt_inv_node_upd; [| |exact H2]; [reflexivity|].
    eapply ntt_inv_node_upd; [| |exact H1]; [reflexivity|exact Hinv]. }
  rewrite (ntt_insert_new _ _ _ _ Hfull Hfind). cbn zeta.
  destruct (ntt_node_create key t a) as [[node|] a1] eqn:Hnode;
    cbn [fst snd]; (eexists; split; [reflexivity|]);
    [|apply ntt_inv_items, Hinv].
  apply ntt_node_create_Some in Hnode. subst node.
  destruct Hinv as (Hshape & Hhash & Huniq).
  pose proof (ntt_hashcode_lt s key Hshape) as Hlt.
  set (h := Z.to_nat (ntt_hashcode s key)) in *.
  rewrite ntt_find_walk in Hfind. fold h in Hfind.
  assert (Habsent : forall q n, node_get (Some s) q = Some n ->
                                node_key n <> key).
  { intros q n Hq Hk. pose proof (Hhash q n Hq) as Hb.
    rewrite Hk in Hb. fold h in Hb.
    destruct (ntt_chain_walk key (ntt_bucket s h) 0) eqn:Hw; [discriminate|].
    apply (proj1 (ntt_chain_walk_None _ _) Hw (ref_depth q) n); [|exact Hk].
    rewrite <- Hb. exact Hq. }
  split; [|split].
  - destruct Hshape as [Hpos Hlen]. split; [exact Hpos|]. cbn.
    rewrite length_insert. exact Hlen.
  - intros q n. rewrite node_get_append by exact Hlt.
    unfold ntt_hashcode. cbn [ntt_size].
    destruct (decide _) as [->|_]; [|apply Hhash].
    intros [= <-]. reflexivity.
  - intros q1 q2 n1 n2. rewrite !node_get_append by exact Hlt.
    destruct (decide (q1 = _)) as [->|_], (decide (q2 = _)) as [->|_].
    + reflexivity.
    + intros [= <-] H2 Hk. exfalso. apply (Habsent _ _ H2). auto.
    + intros H1 [= <-] Hk. exfalso. apply (Habsent _ _ H1). auto.
    + apply Huniq.
Qed.
End insert.

(** ** The item count *)

Section items.
Implicit Types (s : ntt_t) (tbl : list (list ntt_node)) (key : string).

Lemma concat_insert_length tbl h chain chain' :
  tbl !! h = Some chain ->
  (length (concat (<[h := chain']> tbl)) + length chain
   = length (concat tbl) + length chain')%nat.
Proof.
  revert h. induction tbl as [|c tbl IH]; intros [|h]; cbn;
    try discriminate.
  - intros [= ->]. rewrite !length_app. lia.
  - intros Hh. specialize (IH h Hh). rewrite !length_app.
    rewrite <- !Nat.add_assoc. f_equal. exact IH.
Qed.

Lemma concat_alter_length (g : list ntt_node -> list ntt_node) tbl h :
  (forall chain, length (g chain) = length chain) ->
  length (concat (alter g h tbl)) = length (concat tbl).
Proof.
  intros Hg. revert h. induction tbl as [|c tbl IH]; intros [|h]; cbn;
    try reflexivity.
  - rewrite !length_app, Hg. reflexivity.
  - rewrite !length_app. f_equal. apply IH.
Qed.

Lemma ntt_entries_node_upd f s n s' :
  node_upd f (Some s) n = Some s' ->
  ntt_entries s' = ntt_entries s /\ ntt_items s' = ntt_items s.
Proof.
  intros [= <-]. unfold ntt_entries. cbn [ntt_tbl ntt_items].
  split; [|reflexivity]. f_equal. apply concat_alter_length.
  intros chain. apply length_alter.
Qed.

(** [ntt_insert] keeps the item count at or above the number of nodes:
    both grow by one when a node is linked, and only the count grows when
    the node could not be allocated. *)
Lemma ntt_insert_items_ok s key t a :
  ntt_shape s -> ntt_items_ok s ->
  exists s', (ntt_insert (Some s) key t a).1.2 = Some s' /\ ntt_items_ok s'.
Proof.
  intros Hshape [Hrange Hle].
  destruct (Z.eq_dec (ntt_items s) SIZE_MAX) as [Hfull|Hfull].
  { rewrite ntt_insert_full by assumption. exists s. split; [reflexivity|].
    split; assumption. }
  assert (Hwrap : size_t_wrap (ntt_items s + 1) = ntt_items s + 1).
  { unfold size_t_wrap, SIZE_MAX in *. apply Z.mod_small. lia. }
  destruct (ntt_find (Some s) key) as [p0|] eqn:Hfind.
  { rewrite (ntt_insert_touch _ _ _ _ _ Hfull Hfind). cbn [fst snd].
    destruct (node_upd (set_timestamp t) (Some s) p0) as [s1|] eqn:H1;
      [|discriminate].
    destruct (node_upd (set_count 0) (Some s1) p0) as [s2|] eqn:H2;
      [|discriminate].
    apply ntt_entries_node_upd in H1 as [He1 Hi1].
    apply ntt_entries_node_upd in H2 as [He2 Hi2].
    exists s2. split; [reflexivity|]. unfold ntt_items_ok.
    rewrite He2, Hi2, He1, Hi1. split; assumption. }
  rewrite (ntt_insert_new _ _ _ _ Hfull Hfind). cbn zeta.
  destruct (ntt_node_create key t a) as [[node|] a1]; cbn [fst snd];
    (eexists; split; [reflexivity|]); unfold ntt_items_ok, ntt_entries in *;
    cbn [ntt_items ntt_tbl]; rewrite Hwrap.
  - pose proof (ntt_hashcode_lt s key Hshape) as Hlt.
    destruct (lookup_lt_is_Some_2 _ _ Hlt) as [chain Hchain].
    pose proof (concat_insert_length _ _ _
                  (ntt_bucket s (Z.to_nat (ntt_hashcode s key)) ++ [node])
                  Hchain) as Hlen.
    unfold ntt_bucket in Hlen. rewrite Hchain in Hlen. cbn [default] in Hlen.
    rewrite length_app in Hlen. cbn [length] in Hlen.
    unfold ntt_bucket. rewrite Hchain. cbn [default].
    unfold id, SIZE_MAX in *. lia.
  - unfold SIZE_MAX in *. lia.
Qed.
End items.

(** ** [ntt_delete] and [ntt_create] *)

Section delete_create.
Implicit Types (s : ntt_t) (key : string) (a : allocator).

Lemma ntt_delete_inv s key :
  ntt_inv s ->
  exists s', (ntt_delete (Some s) key).2 = Some s' /\ ntt_inv s'.
Proof.
  intros Hinv. unfold ntt_delete.
  set (h := Z.to_nat (ntt_hashcode s key)).
  destruct (ntt_chain_walk key (ntt_bucket s h) 0) as [d|]; cbn [snd];
    [|eauto].
  eexists. split; [reflexivity|].
  destruct Hinv as (Hshape & Hhash & Huniq).
  split; [|split].
  - destruct Hshape as [Hpos Hlen]. split; [exact Hpos|]. cbn.
    rewrite length_insert. exact Hlen.
  - intros q n. rewrite node_get_unlink. intros Hq.
    pose proof (Hhash _ _ Hq) as Hb.
    unfold ntt_hashcode in *. cbn [ntt_size]. rewrite <- Hb.
    destruct (decide _) as [[-> _]|_]; reflexivity.
  - intros q1 q2 n1 n2. rewrite !node_get_unlink. intros H1 H2 Hk.
    pose proof (Huniq _ _ _ _ H1 H2 Hk) as Heq.
    destruct q1 as [b1 d1], q2 as [b2 d2]. cbn [ref_bucket ref_depth] in Heq.
    destruct (decide (b1 = h /\ _)) as [[-> ?]|?],
             (decide (b2 = h /\ _)) as [[-> ?]|?];
      simplify_eq; first [reflexivity | exfalso; intuition lia].
Qed.

Lemma ntt_prime_scan_spec fuel i size :
  let r := ntt_prime_scan fuel i size in
  (i <= r)%nat /\ (r <= Nat.max i 27)%nat
  /\ (forall j, (i <= j < r)%nat -> nth j ntt_prime_list 0 < size)
  /\ ((27 <= fuel + i)%nat ->
      (27 <= r)%nat \/ size <= nth r ntt_prime_list 0).
Proof.
  revert i. induction fuel as [|fuel IH]; intros i; cbn zeta.
  - cbn [ntt_prime_scan]. repeat split; intros; lia.
  - cbn [ntt_prime_scan]. unfold ntt_num_primes.
    destruct (Nat.ltb_spec i (28 - 1)) as [Hi|Hi]; cbn [andb].
    + destruct (Z.ltb_spec (nth i ntt_prime_list 0) size) as [Hp|Hp].
      * destruct (IH (S i)) as (H1 & H2 & H3 & H4).
        split; [lia|]. split; [lia|]. split.
        -- intros j Hj. destruct (decide (j = i)) as [->|]; [exact Hp|].
           apply H3. lia.
        -- intros Hf. apply H4. lia.
      * repeat split; intros; lia.
    + repeat split; intros; lia.
Qed.

Lemma ntt_prime_list_positive i :
  (i <= 27)%nat -> 53 <= nth i ntt_prime_list 0.
Proof.
  intros Hi. do 28 (destruct i as [|i]; [cbn; lia|]). lia.
Qed.

Lemma ntt_create_Some size a s a' :
  ntt_create size a = (Some s, a') ->
  s = let size' := nth (ntt_prime_scan ntt_num_primes 0 size)
                     ntt_prime_list 0 in
      Ntt size' 0 (replicate (Z.to_nat size') []).
Proof.
  unfold ntt_create. alloc_simpl.
  destruct (malloc a) as [[] a1]; cbn [negb fst snd]; alloc_simpl;
    [|discriminate].
  destruct (malloc a1) as [[] a2]; cbn [negb fst snd]; alloc_simpl;
    [|discriminate].
  intros [= <- _]. reflexivity.
Qed.

(** A table fresh from [ntt_create] is empty and satisfies the
    invariant. *)
Lemma ntt_create_inv size a s a' :
  ntt_create size a = (Some s, a') ->
  ntt_inv s /\ ntt_items s = 0 /\ ntt_entries s = 0
  /\ (forall key, ntt_find (Some s) key = None).
Proof.
  intros Hs. apply ntt_create_Some in Hs. cbn zeta in Hs.
  destruct (ntt_prime_scan_spec ntt_num_primes 0 size) as (_ & Hr & _).
  pose proof (ntt_prime_list_positive _ Hr) as Hpos.
  set (size' := nth _ ntt_prime_list 0) in *.
  assert (Hbucket : forall b, ntt_bucket s b = []).
  { intros b. subst s. unfold ntt_bucket. cbn [ntt_tbl].
    destruct (replicate _ _ !! b) as [chain|] eqn:Hb; [|reflexivity].
    apply lookup_replicate in Hb. cbn. tauto. }
  assert (Hget : forall q, node_get (Some s) q = None).
  { intros q. cbn. rewrite Hbucket. apply lookup_nil. }
  repeat split.
  - subst s. cbn [ntt_size]. lia.
  - subst s. cbn [ntt_size ntt_tbl]. apply length_replicate.
  - intros p n. rewrite Hget. discriminate.
  - intros p q n m. rewrite Hget. discriminate.
  - subst s. reflexivity.
  - subst s. unfold ntt_entries. cbn [ntt_tbl].
    generalize (Z.to_nat size'). intros k.
    induction k as [|k IHk]; [reflexivity|exact IHk].
  - intros key. rewrite ntt_find_walk, Hbucket. reflexivity.
Qed.
End delete_create.

(** ** The access checker, branch by branch *)

Section access.
Implicit Types (cfg : evasive_config) (r : request_rec) (t : Z)
  (a : allocator) (hl : option ntt_t) (n : node_ref).

Lemma is_whitelisted_unfold ip cfg a :
  is_whitelisted ip cfg a
  = ((malloc a).1 && whitelist_lookups ip (hit_list cfg), (malloc a).2).
Proof.
  unfold is_whitelisted. alloc_simpl.
  destruct (malloc a) as [[] a1]; reflexivity.
Qed.

(** The lookups of [is_whitelisted] see the table through [ntt_find]. *)
Lemma whitelist_lookups_ext ip hl hl' :
  (forall key, ntt_find hl' key = ntt_find hl key) ->
  whitelist_lookups ip hl' = whitelist_lookups ip hl.
Proof. intros H. unfold whitelist_lookups. rewrite !H. reflexivity. Qed.

Lemma access_checker_unchecked cfg r t a :
  enabled cfg = 0 \/ is_Some (prev r) \/ is_Some (main r)
  \/ hit_list cfg = None ->
  access_checker cfg r t a = (OK, hit_list cfg, a).
Proof.
  unfold access_checker.
  intros [->|[[? ->]|[[? ->]| ->]]]; cbn;
    rewrite ?andb_false_r; reflexivity.
Qed.

Lemma access_checker_checked cfg r t a :
  checked cfg r ->
  access_checker cfg r t a
  = if (is_whitelisted (useragent_ip r) cfg a).1
    then (OK, hit_list cfg, (malloc a).2)
    else if on_hold cfg (hit_list cfg)
              (ntt_find (hit_list cfg) (useragent_ip r)) t
    then (http_reply cfg,
          from_option (node_upd (set_timestamp t) (hit_list cfg))
            (hit_list cfg) (ntt_find (hit_list cfg) (useragent_ip r)),
          (malloc a).2)
    else check_hit_stats cfg r t OK (hit_list cfg) (malloc a).2.
Proof.
  intros (Hen & Hprev & Hmain & [s Hs]). unfold access_checker.
  rewrite Hprev, Hmain, Hs, (proj2 (Z.eqb_neq _ _) Hen). cbn [non_null negb andb].
  alloc_simpl. rewrite <- Hs, is_whitelisted_unfold. cbn [fst snd].
  destruct (_ && _); [reflexivity|].
  destruct (on_hold _ _ _ _); reflexivity.
Qed.

(** A client on hold: the request is denied and the hold entry gets the
    time of the request; one allocation (the [strdup] of
    [is_whitelisted]) was asked for, nothing else of the table or of the
    configuration was read. *)
Lemma access_checker_on_hold cfg r t a n :
  checked cfg r ->
  whitelist_lookups (useragent_ip r) (hit_list cfg) = false ->
  ntt_find (hit_list cfg) (useragent_ip r) = Some n ->
  t - timestamp_of (hit_list cfg) n < blocking_period cfg ->
  access_checker cfg r t a
  = (http_reply cfg, node_upd (set_timestamp t) (hit_list cfg) n,
     (malloc a).2).
Proof.
  intros Hc Hwl Hn Ht. rewrite (access_checker_checked _ _ _ _ Hc).
  rewrite is_whitelisted_unfold. cbn [fst]. rewrite Hwl, andb_false_r, Hn.
  cbn [on_hold from_option]. rewrite (proj2 (Z.ltb_lt _ _) Ht). reflexivity.
Qed.

Lemma access_checker_not_on_hold cfg r t a :
  checked cfg r ->
  whitelist_lookups (useragent_ip r) (hit_list cfg) = false ->
  on_hold cfg (hit_list cfg) (ntt_find (hit_list cfg) (useragent_ip r)) t
  = false ->
  access_checker cfg r t a
  = check_hit_stats cfg r t OK (hit_list cfg) (malloc a).2.
Proof.
  intros Hc Hwl Hh. rewrite (access_checker_checked _ _ _ _ Hc).
  rewrite is_whitelisted_unfold. cbn [fst]. rewrite Hwl, andb_false_r, Hh.
  reflexivity.
Qed.

Lemma serve_cons cfg r t reqs a :
  serve cfg ((r, t) :: reqs) a
  = let '(ret, hl, a1) := access_checker cfg r t a in
    let '(rets, cfg', a2) := serve (set_hit_list cfg hl) reqs a1 in
    (ret :: rets, cfg', a2).
Proof.
  cbn [serve]. alloc_simpl.
  destruct (access_checker cfg r t a) as [[ret hl] a1]. cbn [fst snd].
  alloc_simpl.
  destruct (serve (set_hit_list cfg hl) reqs a1) as [[rets cfg'] a2].
  reflexivity.
Qed.

End access.

(** ** Cutting the address into octets *)

Section octets.
Implicit Types (s cur o rest : string).

Lemma string_app_nil_r s : s ++ "" = s.
Proof. induction s as [|c s IH]; cbn; [reflexivity|]. rewrite IH. reflexivity. Qed.

Lemma string_app_assoc s1 s2 s3 : (s1 ++ s2) ++ s3 = s1 ++ (s2 ++ s3).
Proof.
  induction s1 as [|c s1 IH]; cbn; [reflexivity|]. rewrite IH. reflexivity.
Qed.

Lemma string_app_nonempty cur c o : String.eqb (cur ++ String c o) "" = false.
Proof. destruct cur; reflexivity. Qed.

(** [strtok] over an octet that is followed by a dot. *)
Lemma strtok_dot_octet o rest cur :
  no_dot o = true -> String.eqb (cur ++ o) "" = false ->
  strtok_dot (o ++ String "." rest) cur = (cur ++ o) :: strtok_dot rest "".
Proof.
  revert cur. induction o as [|c o IH]; intros cur Hdot Hne; cbn.
  - rewrite string_app_nil_r in Hne. rewrite Hne, string_app_nil_r. reflexivity.
  - cbn in Hdot. apply andb_true_iff in Hdot as [Hc Hdot].
    apply negb_true_iff in Hc. rewrite Hc.
    rewrite (IH (cur ++ String c "")).
    + rewrite string_app_assoc. reflexivity.
    + exact Hdot.
    + rewrite string_app_assoc. apply string_app_nonempty.
Qed.

(** [strtok] over the last octet. *)
Lemma strtok_dot_last o cur :
  no_dot o = true -> String.eqb (cur ++ o) "" = false ->
  strtok_dot o cur = [cur ++ o].
Proof.
  revert cur. induction o as [|c o IH]; intros cur Hdot Hne; cbn.
  - rewrite string_app_nil_r in Hne. rewrite Hne, string_app_nil_r. reflexivity.
  - cbn in Hdot. apply andb_true_iff in Hdot as [Hc Hdot].
    apply negb_true_iff in Hc. rewrite Hc.
    rewrite (IH (cur ++ String c "")).
    + rewrite string_app_assoc. reflexivity.
    + exact Hdot.
    + rewrite string_app_assoc. apply string_app_nonempty.
Qed.

(** The octets of a dotted quad are its four parts. *)
Lemma octet_loop_dotted_quad o0 o1 o2 o3 :
  octet_ok o0 = true -> octet_ok o1 = true -> octet_ok o2 = true ->
  octet_ok o3 = true ->
  octet_loop (strtok_dot (o0 ++ "." ++ o1 ++ "." ++ o2 ++ "." ++ o3) "") 0
    [""; ""; ""; ""]
  = [o0; o1; o2; o3].
Proof.
  unfold octet_ok. intros H0 H1 H2 H3.
  repeat match goal with
         | H : _ && _ = true |- _ => apply andb_true_iff in H as [? ?]
         | H : negb _ = true |- _ => apply negb_true_iff in H
         end.
  cbn [String.append].
  rewrite !strtok_dot_octet, strtok_dot_last by (cbn; assumption).
  cbn [octet_loop String.append Nat.ltb Nat.leb].
  repeat match goal with
         | H : (String.length _ <=? 3)%nat = true |- _ => rewrite H; clear H
         end.
  reflexivity.
Qed.
End octets.

(** ** Whitelisted clients *)

Lemma malloc_all_true (a : allocator) :
  Forall (fun ok => ok = true) a ->
  (malloc a).1 = true /\ Forall (fun ok => ok = true) (malloc a).2.
Proof.
  destruct a as [|ok a]; cbn; [auto|].
  intros H. apply Forall_cons in H as [-> H]. auto.
Qed.

Lemma access_checker_whitelisted (cfg : evasive_config) (r : request_rec)
    (t : Z) (a : allocator) :
  (is_whitelisted (useragent_ip r) cfg a).1 = true ->
  exists a', access_checker cfg r t a = (OK, hit_list cfg, a')
             /\ (a' = a \/ a' = (malloc a).2).
Proof.
  intros Hwl. unfold access_checker.
  destruct (negb _ && _ && _ && _); [|eauto].
  alloc_simpl. rewrite Hwl, is_whitelisted_unfold. cbn [snd]. eauto.
Qed.

Lemma whitelist_lookups_orb (ip : string) (hl : option ntt_t) :
  whitelist_lookups ip hl
  = let octet := octet_loop (strtok_dot ip "") 0 [""; ""; ""; ""] in
    let o0 := nth 0 octet "" in
    let o1 := nth 1 octet "" in
    let o2 := nth 2 octet "" in
    non_null (ntt_find hl (snprintf 128 ("WHITELIST_" ++ ip)))
    || non_null (ntt_find hl (snprintf 128 ("WHITELIST_" ++ o0 ++ ".*.*.*")))
    || non_null
         (ntt_find hl (snprintf 128 ("WHITELIST_" ++ o0 ++ "." ++ o1 ++ ".*.*")))
    || non_null
         (ntt_find hl
            (snprintf 128
               ("WHITELIST_" ++ o0 ++ "." ++ o1 ++ "." ++ o2 ++ ".*"))).
Proof.
  unfold whitelist_lookups. cbn zeta.
  repeat match goal with
         | |- context [if ?b then true else _] => destruct b; cbn [orb]
         end; reflexivity.
Qed.

(** ** The hit check *)

Section hit_check.
Implicit Types (cfg : evasive_config) (t : Z) (a : allocator)
  (hl : option ntt_t) (n q : node_ref).

Lemma count_of_set_timestamp t hl n q :
  count_of (node_upd (set_timestamp t) hl n) q = count_of hl q.
Proof.
  unfold count_of. rewrite node_get_node_upd.
  destruct (decide (n = q)); [|reflexivity].
  destruct (node_get hl q); reflexivity.
Qed.

Lemma timestamp_of_set_count c hl n q :
  timestamp_of (node_upd (set_count c) hl n) q = timestamp_of hl q.
Proof.
  unfold timestamp_of. rewrite node_get_node_upd.
  destruct (decide (n = q)); [|reflexivity].
  destruct (node_get hl q); reflexivity.
Qed.

Lemma stamp_and_count_spec t hl n m :
  node_get hl n = Some m ->
  count_of (stamp_and_count t hl n) n = size_t_wrap (node_count m + 1)
  /\ timestamp_of (stamp_and_count t hl n) n = t
  /\ (forall q, q <> n ->
        node_get (stamp_and_count t hl n) q = node_get hl q)
  /\ (forall key, ntt_find (stamp_and_count t hl n) key = ntt_find hl key).
Proof.
  intros Hm. unfold stamp_and_count.
  pose proof (node_get_node_upd_eq (set_timestamp t) _ _ _ Hm) as Hm1.
  split; [|split; [|split]].
  - rewrite (count_of_node_upd_eq _ _ _ _ Hm1), count_of_set_timestamp.
    unfold count_of. rewrite Hm. reflexivity.
  - rewrite timestamp_of_set_count.
    apply (timestamp_of_node_upd_eq _ _ _ _ Hm).
  - intros q Hq. rewrite !node_get_node_upd_ne by congruence. reflexivity.
  - intros key. rewrite ntt_find_set_count, ntt_find_set_timestamp.
    reflexivity.
Qed.

(** The hit check on a key that is in the table. *)
Lemma hit_check_found cfg ip key interval count t ret hl a n :
  ntt_find hl key = Some n ->
  hit_check cfg ip key interval count t ret hl a
  = if (t - timestamp_of hl n <? interval) && (count <=? count_of hl n)
    then (http_reply cfg,
          stamp_and_count t (ntt_insert hl ip t a).1.2 n,
          (ntt_insert hl ip t a).2)
    else (ret,
          stamp_and_count t
            (if interval <=? t - timestamp_of hl n
             then node_upd (set_count 0) hl n else hl) n,
          a).
Proof.
  intros Hn. unfold hit_check. rewrite Hn.
  destruct (_ && _).
  - alloc_simpl. destruct (ntt_insert hl ip t a) as [[p hl1] a1].
    reflexivity.
  - reflexivity.
Qed.

(** The hit check on a key that is not in the table. *)
Lemma hit_check_absent cfg ip key interval count t ret hl a :
  ntt_find hl key = None ->
  hit_check cfg ip key interval count t ret hl a
  = (ret, (ntt_insert hl key t a).1.2, (ntt_insert hl key t a).2).
Proof.
  intros Hn. unfold hit_check. rewrite Hn. alloc_simpl.
  destruct (ntt_insert hl key t a) as [[p hl1] a1]. reflexivity.
Qed.

End hit_check.

Lemma check_hit_stats_unfold (cfg : evasive_config) (r : request_rec) (t : Z)
    (ret : Z) (hl : option ntt_t) (a : allocator) :
  check_hit_stats cfg r t ret hl a
  = let uw := is_uri_whitelisted (uri r) cfg a in
    if uw.1 then (OK, hl, uw.2)
    else
      let page :=
        hit_check cfg (useragent_ip r)
          (snprintf 2048 (useragent_ip r ++ "_" ++ uri r))
          (page_interval cfg) (page_count cfg) t ret hl uw.2 in
      hit_check cfg (useragent_ip r)
        (snprintf 2048 (useragent_ip r ++ "_SITE"))
        (site_interval cfg) (site_count cfg) t page.1.1 page.1.2 page.2.
Proof.
  unfold check_hit_stats. alloc_simpl. cbn zeta.
  destruct (is_uri_whitelisted (uri r) cfg a) as [[] a1]; cbn [fst snd];
    [reflexivity|].
  alloc_simpl.
  destruct (hit_check _ _ _ (page_interval cfg) _ _ _ _ _) as [[ret1 hl1] a2].
  cbn [fst snd]. alloc_simpl.
  destruct (hit_check _ _ _ (site_interval cfg) _ _ _ _ _) as [[ret2 hl2] a3].
  reflexivity.
Qed.

(** ** Failures *)

(** An [ntt_insert] that returns [NULL] for a key that is absent leaves
    every chain as it was. *)
Lemma ntt_insert_failed (hl : option ntt_t) (key : string) (t : Z)
    (a : allocator) :
  ntt_find hl key = None ->
  (ntt_insert hl key t a).1.1 = None ->
  (forall q, node_get (ntt_insert hl key t a).1.2 q = node_get hl q)
  /\ (forall k, ntt_find (ntt_insert hl key t a).1.2 k = ntt_find hl k).
Proof.
  intros Hfind. destruct hl as [s|]; [|split; reflexivity].
  destruct (Z.eq_dec (ntt_items s) SIZE_MAX) as [Hfull|Hfull].
  { rewrite ntt_insert_full by assumption. split; reflexivity. }
  rewrite (ntt_insert_new _ _ _ _ Hfull Hfind). cbn zeta.
  destruct (ntt_node_create key t a) as [[node|] a1]; cbn [fst snd];
    [discriminate|].
  intros _. split; reflexivity.
Qed.

(** ** Tables used in the statements *)

Lemma ntt_create_50 : ntt_create 50 [] = (Some ntt_53, []).
Proof. reflexivity. Qed.

(** [ntt_create] returns a table whenever its two allocations succeed. *)
Lemma ntt_create_total (size : Z) :
  exists s, ntt_create size [] = (Some s, []).
Proof.
  eexists. unfold ntt_create. alloc_simpl. cbn [malloc negb fst snd].
  alloc_simpl. cbn [malloc negb fst snd]. reflexivity.
Qed.

Ltac in_prime_list := cbn; repeat first [left; reflexivity | right].

(** Two keys of the same bucket of a table of 53 buckets. *)
Lemma ntt_hashcode_collision :
  ntt_hashcode ntt_53 "a" = 44 /\ ntt_hashcode ntt_53 "0E" = 44.
Proof. split; reflexivity. Qed.

Lemma ntt_53_inv : ntt_inv ntt_53.
Proof. apply (ntt_create_inv 50 [] ntt_53 []). reflexivity. Qed.

Lemma ntt_53_a_insert :
  ntt_insert (Some ntt_53) "a" 0 [] = (Some (NodeRef 44 0), Some ntt_53_a, []).
Proof. reflexivity. Qed.

Lemma ntt_53_a_inv : ntt_inv ntt_53_a.
Proof.
  destruct (ntt_insert_inv ntt_53 "a" 0 [] ntt_53_inv) as (s' & Hs' & Hinv).
  rewrite ntt_53_a_insert in Hs'. injection Hs' as <-. exact Hinv.
Qed.

(** * The statements of the specification *)

(** C1 at its scenario: with [DOSPageCount 2] and [DOSPageInterval 1], the
    third request of a client the table has never seen passes, and the
    fourth is the first one denied; the first request leaves the page count
    at 0.  In a window opened by a rollover the first request leaves the
    count at 1 and the third request of the window is denied. *)
Theorem fresh_client_third_request_passes :
  page_count cfg_2_1 = 2 /\ page_interval cfg_2_1 = 1
  /\ (serve cfg_2_1 [(req_x, 0); (req_x, 0); (req_x, 0)] []).1.1
     = [OK; OK; OK]
  /\ (serve cfg_2_1 [(req_x, 0); (req_x, 0); (req_x, 0); (req_x, 0)] []).1.1
     = [OK; OK; OK; HTTP_FORBIDDEN]
  /\ count_of (hit_list (serve cfg_2_1 [(req_x, 0)] []).1.2) (NodeRef 1366 0)
     = 0
  /\ count_of (hit_list (serve cfg_2_1 [(req_x, 0); (req_x, 5)] []).1.2)
       (NodeRef 1366 0) = 1
  /\ (serve cfg_2_1 [(req_x, 0); (req_x, 5); (req_x, 5); (req_x, 5)] []).1.1
     = [OK; OK; OK; HTTP_FORBIDDEN].
Proof. repeat split; vm_compute; reflexivity. Qed.

(** C2: for a checked request of a client that is not on the IP whitelist
    and whose own entry is less than [blocking_period] seconds old, the
    answer is [http_reply] and the entry's timestamp becomes the time of the
    request; the only allocation asked for is the [strdup] of the IP
    whitelist check, so neither the URI whitelist nor a hit check ran.
    Hence a run of requests each less than [blocking_period] after the one
    before is denied throughout, and a request that comes [blocking_period]
    seconds or more after the last one goes to the hit statistics instead. *)
Theorem hold_renewed_by_traffic (cfg : evasive_config) (ip : string)
    (n : node_ref) :
  enabled cfg <> 0 ->
  whitelist_lookups ip (hit_list cfg) = false ->
  ntt_find (hit_list cfg) ip = Some n ->
  (forall r t a,
      useragent_ip r = ip -> prev r = None -> main r = None ->
      t - timestamp_of (hit_list cfg) n < blocking_period cfg ->
      access_checker cfg r t a
      = (http_reply cfg, node_upd (set_timestamp t) (hit_list cfg) n,
         (malloc a).2)
      /\ timestamp_of (node_upd (set_timestamp t) (hit_list cfg) n) n = t)
  /\ (forall reqs a,
        Forall (fun rt => useragent_ip rt.1 = ip /\ prev rt.1 = None
                          /\ main rt.1 = None) reqs ->
        hold_kept (blocking_period cfg) (timestamp_of (hit_list cfg) n)
          (snd <$> reqs) = true ->
        (serve cfg reqs a).1.1 = (fun _ => http_reply cfg) <$> reqs)
  /\ (forall r t a,
        useragent_ip r = ip -> prev r = None -> main r = None ->
        blocking_period cfg <= t - timestamp_of (hit_list cfg) n ->
        access_checker cfg r t a
        = check_hit_stats cfg r t OK (hit_list cfg) (malloc a).2).
Proof.
  intros Hen Hwl Hn.
  assert (Hsome : is_Some (hit_list cfg)).
  { destruct (hit_list cfg); [eauto|discriminate]. }
  split; [|split].
  - intros r t a <- Hprev Hmain Ht. split.
    + apply access_checker_on_hold; [repeat split| | |]; assumption.
    + destruct (ntt_find_get _ _ _ Hn) as (m & Hm & _).
      apply (timestamp_of_node_upd_eq _ _ _ _ Hm).
  - intros reqs. revert cfg Hen Hwl Hn Hsome.
    induction reqs as [|[r t] reqs IH]; intros cfg Hen Hwl Hn Hsome a Hall Hkept.
    + reflexivity.
    + apply Forall_cons in Hall as [(Hip & Hprev & Hmain) Hall].
      cbn [fst snd] in Hip, Hprev, Hmain. cbn in Hkept.
      apply andb_true_iff in Hkept as [Ht Hkept]. apply Z.ltb_lt in Ht.
      rewrite serve_cons.
      rewrite (access_checker_on_hold cfg r t a n); subst ip;
        [|repeat split|..]; try assumption.
      destruct (ntt_find_get _ _ _ Hn) as (m & Hm & _).
      set (hl' := node_upd (set_timestamp t) (hit_list cfg) n) in *.
      specialize (IH (set_hit_list cfg hl')).
      destruct (serve (set_hit_list cfg hl') reqs (malloc a).2)
        as [[rets cfg'] a2] eqn:Hserve.
      cbn [fst snd fmap list_fmap]. f_equal.
      change rets with ((rets, cfg', a2).1.1). rewrite <- Hserve.
      apply IH; cbn [set_hit_list enabled hit_list blocking_period];
        try assumption.
      * subst hl'. rewrite <- Hwl. apply whitelist_lookups_ext.
        intros key. apply ntt_find_set_timestamp.
      * subst hl'. rewrite ntt_find_set_timestamp. exact Hn.
      * subst hl'. destruct (hit_list cfg); [eexists; reflexivity|].
        destruct Hsome; discriminate.
      * subst hl'. rewrite (timestamp_of_node_upd_eq _ _ _ _ Hm). exact Hkept.
  - intros r t a <- Hprev Hmain Ht.
    apply access_checker_not_on_hold; [repeat split; assumption|assumption|].
    rewrite Hn. cbn [on_hold]. apply Z.ltb_ge. exact Ht.
Qed.

Lemma hold_renewed_by_traffic_witness :
  enabled cfg_held <> 0
  /\ whitelist_lookups "1.2.3.4" (hit_list cfg_held) = false
  /\ ntt_find (hit_list cfg_held) "1.2.3.4" = Some (NodeRef 678 0)
  /\ (serve cfg_held [(req_x, 5); (req_x, 14); (req_x, 23)] []).1.1
     = (fun _ => http_reply cfg_held) <$> [(req_x, 5); (req_x, 14); (req_x, 23)]
  /\ access_checker cfg_held req_x 10 []
     = check_hit_stats cfg_held req_x 10 OK (hit_list cfg_held) (malloc []).2.
Proof.
  assert (H1 : enabled cfg_held <> 0) by (vm_compute; discriminate).
  assert (H2 : whitelist_lookups "1.2.3.4" (hit_list cfg_held) = false)
    by (vm_compute; reflexivity).
  assert (H3 : ntt_find (hit_list cfg_held) "1.2.3.4" = Some (NodeRef 678 0))
    by (vm_compute; reflexivity).
  split; [exact H1|]. split; [exact H2|]. split; [exact H3|].
  pose proof (hold_renewed_by_traffic cfg_held "1.2.3.4" (NodeRef 678 0)
                H1 H2 H3) as (_ & Hrun & Hlapse).
  split.
  - apply Hrun.
    + repeat constructor.
    + vm_compute. reflexivity.
  - apply Hlapse; first [reflexivity | vm_compute; discriminate].
Defined.

(** C3, as the code has it: with the item count below [SIZE_MAX],
    [ntt_insert] on a key that is present sets the node's timestamp, zeroes
    its count and returns that node, allocating nothing; on an absent key,
    when the node can be allocated, it links a node with count 0 behind the
    last node of the chain of the key's bucket, increments the item count
    and returns the new node; with the item count at [SIZE_MAX] it returns
    [NULL] and leaves the table alone. *)
Theorem ntt_insert_touch_or_append (s : ntt_t) (key : string) (t : Z)
    (a : allocator) :
  ntt_shape s -> 0 <= ntt_items s <= SIZE_MAX ->
  (ntt_items s = SIZE_MAX -> ntt_insert (Some s) key t a = (None, Some s, a))
  /\ (ntt_items s < SIZE_MAX ->
      forall p, ntt_find (Some s) key = Some p ->
      exists s',
        ntt_insert (Some s) key t a = (Some p, Some s', a)
        /\ node_get (Some s') p = Some (Node key t 0)
        /\ (forall q, q <> p -> node_get (Some s') q = node_get (Some s) q)
        /\ ntt_items s' = ntt_items s)
  /\ (ntt_items s < SIZE_MAX ->
      ntt_find (Some s) key = None ->
      forall node a', ntt_node_create key t a = (Some node, a') ->
      let h := Z.to_nat (ntt_hashcode s key) in
      let p := NodeRef h (length (ntt_bucket s h)) in
      exists s',
        ntt_insert (Some s) key t a = (Some p, Some s', a')
        /\ ntt_bucket s' h = (ntt_bucket s h ++ [Node key t 0])%list
        /\ (forall b, b <> h -> ntt_bucket s' b = ntt_bucket s b)
        /\ ntt_items s' = ntt_items s + 1
        /\ ntt_find (Some s') key = Some p).
Proof.
  intros Hshape Hitems. split; [|split].
  - apply ntt_insert_full.
  - intros Hlt p Hfind.
    rewrite (ntt_insert_touch s key t a p) by (assumption || lia).
    destruct (ntt_find_get _ _ _ Hfind) as (n & Hn & Hk).
    destruct (node_upd (set_count 0) (node_upd (set_timestamp t) (Some s) p) p)
      as [s'|] eqn:Hs'; [|discriminate].
    exists s'. split; [reflexivity|].
    rewrite <- Hs'. split; [|split].
    + rewrite (node_get_node_upd_eq _ _ _ (set_timestamp t n)).
      * unfold set_count, set_timestamp. cbn. rewrite Hk. reflexivity.
      * apply node_get_node_upd_eq, Hn.
    + intros q Hq. rewrite !node_get_node_upd_ne by congruence. reflexivity.
    + injection Hs' as <-. reflexivity.
  - intros Hlt Hfind node a' Hnode h p.
    rewrite (ntt_insert_new s key t a) by (assumption || lia).
    cbn zeta. rewrite Hnode.
    apply ntt_node_create_Some in Hnode. subst node.
    eexists. split; [reflexivity|].
    pose proof (ntt_hashcode_lt s key Hshape) as Hh. fold h in Hh.
    split; [|split; [|split]].
    + rewrite ntt_bucket_insert, decide_True by auto. reflexivity.
    + intros b Hb. rewrite ntt_bucket_insert, decide_False; [reflexivity|].
      intros [Heq _]. apply Hb. symmetry. exact Heq.
    + cbn [ntt_items]. unfold size_t_wrap, SIZE_MAX in *.
      apply Z.mod_small. lia.
    + pose proof (ntt_find_insert_eq s key t a p Hshape) as Heq.
      rewrite (ntt_insert_new s key t a) in Heq by (assumption || lia).
      cbn zeta in Heq.
      destruct (ntt_node_create key t a) as [[node|] a1] eqn:Hnode.
      * apply ntt_node_create_Some in Hnode. subst node.
        apply Heq. reflexivity.
      * destruct (ntt_node_create_cases key t a) as [[a2 H]|[a2 H]];
          rewrite H in *; [discriminate|].
        rewrite ntt_find_walk, (ntt_hashcode_same_size _ s) by reflexivity.
        fold h. rewrite ntt_bucket_insert, decide_True by auto.
        rewrite ntt_chain_walk_app.
        rewrite ntt_find_walk in Hfind. fold h in Hfind.
        destruct (ntt_chain_walk key (ntt_bucket s h) 0); [discriminate|].
        cbn. rewrite String.eqb_refl. reflexivity.
Qed.

Lemma ntt_insert_touch_or_append_witness :
  ntt_shape ntt_53_a /\ 0 <= ntt_items ntt_53_a <= SIZE_MAX
  /\ ntt_find (Some ntt_53_a) "a" = Some (NodeRef 44 0)
  /\ ntt_find (Some ntt_53_a) "0E" = None
  /\ (exists s',
        ntt_insert (Some ntt_53_a) "0E" 7 [] = (Some (NodeRef 44 1), Some s', [])
        /\ ntt_bucket s' 44 = [Node "a" 0 0; Node "0E" 7 0]
        /\ (forall b, b <> 44%nat -> ntt_bucket s' b = ntt_bucket ntt_53_a b)
        /\ ntt_items s' = 2
        /\ ntt_find (Some s') "0E" = Some (NodeRef 44 1)).
Proof.
  split; [apply ntt_53_a_inv|].
  split; [cbn; unfold SIZE_MAX; lia|].
  split; [reflexivity|]. split; [reflexivity|].
  refine (proj2 (proj2 (ntt_insert_touch_or_append ntt_53_a "0E" 7 []
                          (proj1 ntt_53_a_inv) _)) _ _ (Node "0E" 7 0) [] _).
  - cbn. unfold SIZE_MAX. lia.
  - cbn. unfold SIZE_MAX. lia.
  - reflexivity.
  - reflexivity.
Defined.

(** C3 as the specification words it fails where it says "head": in a
    bucket that already holds ["a"], the node of the colliding key ["0E"]
    is linked at depth 1, behind ["a"], which stays the head of the chain.
    The two provisos of the statement above are needed as well: with the
    item count at [SIZE_MAX] a key that is present is not touched, and with
    no memory for the node an absent key gets no entry. *)
Lemma ntt_insert_not_at_head :
  let hl :=
    Some (Ntt 53 2
            (<[44%nat := [Node "a" 0 0; Node "0E" 7 0]]> (replicate 53 []))) in
  let full := Ntt 53 SIZE_MAX (ntt_tbl ntt_53_a) in
  ntt_find (Some ntt_53_a) "0E" = None
  /\ ntt_insert (Some ntt_53_a) "0E" 7 [] = (Some (NodeRef 44 1), hl, [])
  /\ node_get hl (NodeRef 44 0) = Some (Node "a" 0 0)
  /\ node_get hl (NodeRef 44 1) = Some (Node "0E" 7 0)
  /\ ~ (forall s key t a p hl a',
          ntt_inv s -> ntt_find (Some s) key = None ->
          ntt_insert (Some s) key t a = (Some p, hl, a') ->
          ref_depth p = 0%nat)
  /\ ntt_find (Some full) "a" = Some (NodeRef 44 0)
  /\ ntt_insert (Some full) "a" 7 [] = (None, Some full, [])
  /\ ntt_insert (Some ntt_53_a) "0E" 7 [false]
     = (None, Some (Ntt 53 2 (ntt_tbl ntt_53_a)), []).
Proof.
  intros hl full. repeat (split; [reflexivity|]).
  split; [|repeat split; reflexivity].
  intros H.
  specialize (H ntt_53_a "0E" 7 [] (NodeRef 44 1) hl [] ntt_53_a_inv
                eq_refl eq_refl).
  discriminate H.
Qed.







(** C7: a lookup returns a node that has the key looked up, so after two
    different keys were inserted the lookup of the second never returns the
    node of the first, in whatever buckets the keys fall; and [ntt_insert]
    and [ntt_delete] keep the invariant that no two nodes have the same key
    and every node hangs from the bucket its key hashes to ([ntt_find]
    writes nothing). *)
Theorem ntt_no_key_aliasing (s : ntt_t) :
  ntt_inv s ->
  (forall k1 k2 t1 t2 a p1 p2,
      k1 <> k2 ->
      let r1 := ntt_insert (Some s) k1 t1 a in
      let r2 := ntt_insert r1.1.2 k2 t2 r1.2 in
      r1.1.1 = Some p1 -> r2.1.1 = Some p2 ->
      ntt_find r2.1.2 k2 = Some p2 /\ ntt_find r2.1.2 k1 = Some p1
      /\ p2 <> p1
      /\ node_key <$> node_get r2.1.2 p2 = Some k2
      /\ node_key <$> node_get r2.1.2 p1 = Some k1)
  /\ (forall key p, ntt_find (Some s) key = Some p ->
        node_key <$> node_get (Some s) p = Some key)
  /\ (forall key t a,
        exists s', (ntt_insert (Some s) key t a).1.2 = Some s' /\ ntt_inv s')
  /\ (forall key,
        exists s', (ntt_delete (Some s) key).2 = Some s' /\ ntt_inv s').
Proof.
  intros Hinv.
  assert (Hkey : forall hl key p, ntt_find hl key = Some p ->
                   node_key <$> node_get hl p = Some key).
  { intros hl key p Hp. destruct (ntt_find_get _ _ _ Hp) as (n & -> & <-).
    reflexivity. }
  split; [|split; [|split]].
  - intros k1 k2 t1 t2 a p1 p2 Hne r1 r2 H1 H2.
    destruct (ntt_insert_shape s k1 t1 a (proj1 Hinv)) as (s1 & Hs1 & Hshape1 & _).
    fold r1 in Hs1.
    assert (Hf2 : ntt_find r2.1.2 k2 = Some p2).
    { subst r2. rewrite Hs1 in *. apply ntt_find_insert_eq; assumption. }
    assert (Hf1 : ntt_find r2.1.2 k1 = Some p1).
    { subst r2. rewrite ntt_find_insert_ne by congruence.
      apply ntt_find_insert_eq; [apply Hinv|exact H1]. }
    pose proof (Hkey _ _ _ Hf1) as Hk1. pose proof (Hkey _ _ _ Hf2) as Hk2.
    repeat split; try assumption.
    intros ->. congruence.
  - intros key p. apply Hkey.
  - intros key t a. apply ntt_insert_inv, Hinv.
  - intros key. apply ntt_delete_inv, Hinv.
Qed.

Lemma ntt_no_key_aliasing_witness :
  ntt_inv ntt_53
  /\ let r2 := ntt_insert (Some ntt_53_a) "0E" 1 [] in
     ntt_find r2.1.2 "0E" = Some (NodeRef 44 1)
     /\ ntt_find r2.1.2 "a" = Some (NodeRef 44 0)
     /\ NodeRef 44 1 <> NodeRef 44 0
     /\ node_key <$> node_get r2.1.2 (NodeRef 44 1) = Some "0E"
     /\ node_key <$> node_get r2.1.2 (NodeRef 44 0) = Some "a".
Proof.
  split; [exact ntt_53_inv|].
  apply (proj1 (ntt_no_key_aliasing ntt_53 ntt_53_inv) "a" "0E" 0 1 []
           (NodeRef 44 0) (NodeRef 44 1)).
  - discriminate.
  - reflexivity.
  - reflexivity.
Defined.

(** C8: [ntt_create] takes as table size the smallest prime of
    [ntt_prime_list] that is at least the requested size, and the last
    prime 4294967291 when the request is larger than every prime of the
    list; a request of 50 gives 53 buckets. *)
Theorem ntt_create_size (size : Z) (a : allocator) (s : ntt_t)
    (a' : allocator) :
  ntt_create size a = (Some s, a') ->
  In (ntt_size s) ntt_prime_list
  /\ (size <= 4294967291 ->
      size <= ntt_size s
      /\ forall q, In q ntt_prime_list -> size <= q -> ntt_size s <= q)
  /\ (4294967291 < size -> ntt_size s = 4294967291)
  /\ (size = 50 -> ntt_size s = 53).
Proof.
  intros Hs. apply ntt_create_Some in Hs. subst s. cbn [ntt_size].
  destruct (ntt_prime_scan_spec ntt_num_primes 0 size) as (_ & Hr & Hlow & Hexit).
  specialize (Hexit ltac:(unfold ntt_num_primes; lia)).
  set (r := ntt_prime_scan ntt_num_primes 0 size) in *.
  assert (Hprev : forall j, S j = r -> nth j ntt_prime_list 0 < size)
    by (intros j Hj; apply Hlow; lia).
  clearbody r. clear Hlow.
  do 28 (destruct r as [|r];
         [ try (pose proof (Hprev _ eq_refl) as Hp; cbn in Hp);
           clear Hprev; cbn in Hexit; cbn [nth ntt_prime_list];
           (split; [in_prime_list|]);
           (split; [intros Hmax; split; [lia|];
                    intros q Hq Hle; cbn in Hq;
                    repeat (destruct Hq as [<-|Hq]; [lia|]); contradiction
                   |split; intros; lia])
         | ]).
  cbn in Hr. lia.
Qed.

Lemma ntt_create_size_witness :
  ntt_create 50 [] = (Some ntt_53, [])
  /\ In (ntt_size ntt_53) ntt_prime_list
  /\ (50 <= 4294967291 ->
      50 <= ntt_size ntt_53
      /\ forall q, In q ntt_prime_list -> 50 <= q -> ntt_size ntt_53 <= q)
  /\ (4294967291 < 50 -> ntt_size ntt_53 = 4294967291)
  /\ (50 = 50 -> ntt_size ntt_53 = 53).
Proof.
  split; [reflexivity|].
  apply (ntt_create_size 50 [] ntt_53 []). reflexivity.
Defined.

(** C9, as the code has it: with no table ([cfg->hit_list == NULL]) every
    request passes and nothing is allocated.  In a hit check whose key is
    absent, an [ntt_insert] that fails (no memory, or the item count at
    [SIZE_MAX]) leaves the verdict and every chain as they were: the key is
    not tracked.  The verdict of a hit check is the same for every outcome
    of the allocations.  So a request of a client that is not on hold and
    has neither its page key nor its site key in the table passes whatever
    the allocator does, and with a full table it also leaves the table as
    it was.  The failures outside the hit checks do not open: a failed
    [strdup] makes [is_whitelisted] answer 0, a pattern whose match data
    cannot be allocated is skipped by [is_uri_whitelisted], and a failed
    [ntt_insert] in the [DOSWhitelist] handler leaves the address
    unlisted. *)
Theorem failures_fail_open :
  (forall cfg r t a,
      hit_list cfg = None -> access_checker cfg r t a = (OK, None, a))
  /\ (forall cfg ip key interval count t ret hl a,
        ntt_find hl key = None ->
        (ntt_insert hl key t a).1.1 = None ->
        let res := hit_check cfg ip key interval count t ret hl a in
        res.1.1 = ret
        /\ (forall q, node_get res.1.2 q = node_get hl q)
        /\ (forall k, ntt_find res.1.2 k = ntt_find hl k))
  /\ (forall cfg ip key interval count t ret hl a a',
        (hit_check cfg ip key interval count t ret hl a).1.1
        = (hit_check cfg ip key interval count t ret hl a').1.1)
  /\ (forall cfg r t a,
        let hl := hit_list cfg in
        let page_key := snprintf 2048 (useragent_ip r ++ "_" ++ uri r) in
        let site_key := snprintf 2048 (useragent_ip r ++ "_SITE") in
        on_hold cfg hl (ntt_find hl (useragent_ip r)) t = false ->
        ntt_find hl page_key = None ->
        ntt_find hl site_key = None ->
        (page_key <> site_key ->
         (access_checker cfg r t a).1.1 = OK)
        /\ (forall s, hl = Some s -> ntt_items s = SIZE_MAX ->
            (access_checker cfg r t a).1 = (OK, hl)))
  /\ (forall ip cfg a,
        (malloc a).1 = false ->
        is_whitelisted ip cfg a = (false, (malloc a).2))
  /\ (forall uri re next a,
        (malloc a).1 = false ->
        uri_whitelist_loop uri (re :: next) a
        = uri_whitelist_loop uri next (malloc a).2)
  /\ (forall cfg ip now a,
        let entry := snprintf 128 ("WHITELIST_" ++ ip) in
        ntt_find (hit_list cfg) entry = None ->
        (ntt_insert (hit_list cfg) entry now a).1.1 = None ->
        forall k,
          ntt_find (hit_list (whitelist cfg ip now a).1) k
          = ntt_find (hit_list cfg) k).
Proof.
  split; [|split; [|split; [|split; [|split; [|split]]]]].
  - intros cfg r t a Hnone. rewrite access_checker_unchecked by auto.
    rewrite Hnone. reflexivity.
  - intros cfg ip key interval count t ret hl a Hfind Hfail res. subst res.
    rewrite (hit_check_absent _ _ _ _ _ _ _ _ _ Hfind). cbn [fst snd].
    split; [reflexivity|]. apply ntt_insert_failed; assumption.
  - intros cfg ip key interval count t ret hl a a'.
    destruct (ntt_find hl key) as [n|] eqn:Hfind.
    + rewrite !(hit_check_found _ _ _ _ _ _ _ _ _ _ Hfind).
      destruct (_ && _); reflexivity.
    + rewrite !(hit_check_absent _ _ _ _ _ _ _ _ _ Hfind). reflexivity.
  - intros cfg r t a hl page_key site_key Hhold Hpage Hsite.
    assert (Hstats : forall a1,
               let res := check_hit_stats cfg r t OK hl a1 in
               (page_key <> site_key -> res.1.1 = OK)
               /\ (forall s, hl = Some s -> ntt_items s = SIZE_MAX ->
                   res.1 = (OK, hl))).
    { intros a1. cbn zeta. rewrite check_hit_stats_unfold. cbn zeta.
      fold page_key site_key.
      destruct (is_uri_whitelisted (uri r) cfg a1) as [[] a2]; cbn [fst snd];
        [split; reflexivity|].
      rewrite (hit_check_absent _ _ _ _ _ _ _ _ _ Hpage). cbn [fst snd].
      split.
      - intros Hne. rewrite hit_check_absent; [reflexivity|].
        rewrite ntt_find_insert_ne by exact Hne. exact Hsite.
      - intros s Hs Hfull. rewrite Hs in *.
        rewrite (ntt_insert_full s page_key) by exact Hfull. cbn [fst snd].
        rewrite (hit_check_absent _ _ _ _ _ _ _ _ _ Hsite).
        rewrite (ntt_insert_full s site_key) by exact Hfull. reflexivity. }
    unfold access_checker. fold hl.
    destruct (negb _ && _ && _ && _).
    + alloc_simpl. rewrite is_whitelisted_unfold. cbn [fst snd].
      destruct (_ && whitelist_lookups _ _); [split; reflexivity|].
      rewrite Hhold. apply Hstats.
    + split; reflexivity.
  - intros ip cfg a Hfail. rewrite is_whitelisted_unfold, Hfail. reflexivity.
  - intros uri re next a Hfail. cbn [uri_whitelist_loop]. alloc_simpl.
    rewrite Hfail. reflexivity.
  - intros cfg ip now a entry Hfind Hfail k.
    assert (Hw : hit_list (whitelist cfg ip now a).1
                 = (ntt_insert (hit_list cfg) entry now a).1.2).
    { unfold whitelist. alloc_simpl. fold entry.
      destruct (ntt_insert (hit_list cfg) entry now a) as [[p hl] a1].
      reflexivity. }
    rewrite Hw. apply ntt_insert_failed; assumption.
Qed.

Lemma failures_fail_open_witness :
  let hl := hit_list cfg_2_1 in
  on_hold cfg_2_1 hl (ntt_find hl "1.2.3.4") 0 = false
  /\ ntt_find hl "1.2.3.4_/x" = None
  /\ ntt_find hl "1.2.3.4_SITE" = None
  /\ "1.2.3.4_/x" <> "1.2.3.4_SITE"
  /\ (access_checker cfg_2_1 req_x 0 [true; false; false]).1.1 = OK.
Proof.
  intros hl.
  assert (H1 : on_hold cfg_2_1 hl (ntt_find hl "1.2.3.4") 0 = false)
    by (vm_compute; reflexivity).
  assert (H2 : ntt_find hl "1.2.3.4_/x" = None) by (vm_compute; reflexivity).
  assert (H3 : ntt_find hl "1.2.3.4_SITE" = None) by (vm_compute; reflexivity).
  assert (H4 : "1.2.3.4_/x" <> "1.2.3.4_SITE") by discriminate.
  repeat (split; [assumption|]).
  exact (proj1 (proj1 (proj2 (proj2 (proj2 failures_fail_open))) cfg_2_1 req_x 0
                  [true; false; false] H1 H2 H3) H4).
Defined.

(** C9 as the specification words it, "all failure paths fail open", fails
    on the allocations outside the hit checks.  The client 1.2.3.4 is on the
    IP whitelist of [cfg_wl] through the entry 1.2.*.*; a request of it that
    passes when the [strdup] of [is_whitelisted] succeeds is denied, on the
    same table, when that [strdup] fails, and four requests in a row end in
    a denial when it fails each time.  In the same way four requests for a
    whitelisted path end in a denial when the match data cannot be
    allocated, and the client is denied like any other when the node of its
    whitelist entry could not be allocated by the [DOSWhitelist] handler. *)
Lemma alloc_failure_denies_whitelisted :
  let four := [(req_x, 0); (req_x, 0); (req_x, 0); (req_x, 0)] in
  let four_static :=
    [(req_static, 0); (req_static, 0); (req_static, 0); (req_static, 0)] in
  whitelist_lookups "1.2.3.4" (hit_list cfg_wl_counted) = true
  /\ (access_checker cfg_wl_counted req_x 0 []).1.1 = OK
  /\ (access_checker cfg_wl_counted req_x 0 [false]).1.1 = HTTP_FORBIDDEN
  /\ (serve cfg_wl four []).1.1 = [OK; OK; OK; OK]
  /\ (serve cfg_wl four [false; true; true; true; true; false; false; false]).1.1
     = [OK; OK; OK; HTTP_FORBIDDEN]
  /\ (serve cfg_uri four_static []).1.1 = [OK; OK; OK; OK]
  /\ (serve cfg_uri four_static
        [true; false; true; true; true; true;
         true; false; true; false; true; false]).1.1
     = [OK; OK; OK; HTTP_FORBIDDEN]
  /\ (serve (whitelist cfg_2_1 "1.2.*.*" 0 [false]).1 four []).1.1
     = [OK; OK; OK; HTTP_FORBIDDEN]
  /\ ~ (forall cfg r t a,
          (access_checker cfg r t []).1.1 = OK ->
          (access_checker cfg r t a).1.1 = OK).
Proof.
  intros four four_static.
  repeat (split; [vm_compute; reflexivity|]).
  intros H. specialize (H cfg_wl_counted req_x 0 [false]).
  assert (H1 : (access_checker cfg_wl_counted req_x 0 []).1.1 = OK)
    by (vm_compute; reflexivity).
  specialize (H H1). vm_compute in H. discriminate H.
Qed.

(** C10: when the key is absent and [ntt_node_create] returns [NULL],
    [ntt_insert] has already incremented [ntt->items]: it returns [NULL],
    the chains are what they were and the item count is one more, so it
    exceeds the number of nodes reachable from the buckets. *)
Theorem ntt_insert_failed_alloc_counts (s : ntt_t) (key : string) (t : Z)
    (a a' : allocator) :
  0 <= ntt_items s < SIZE_MAX ->
  ntt_entries s <= ntt_items s ->
  ntt_find (Some s) key = None ->
  ntt_node_create key t a = (None, a') ->
  exists s',
    ntt_insert (Some s) key t a = (None, Some s', a')
    /\ ntt_items s' = ntt_items s + 1
    /\ ntt_tbl s' = ntt_tbl s
    /\ ntt_entries s' < ntt_items s'.
Proof.
  intros Hitems Hentries Hfind Hnode.
  rewrite (ntt_insert_new s key t a) by (assumption || lia).
  cbn zeta. rewrite Hnode. eexists. split; [reflexivity|].
  assert (Hwrap : size_t_wrap (ntt_items s + 1) = ntt_items s + 1).
  { unfold size_t_wrap, SIZE_MAX in *. apply Z.mod_small. lia. }
  cbn [ntt_items ntt_tbl]. unfold ntt_entries in *. cbn [ntt_tbl].
  rewrite Hwrap. repeat split; lia.
Qed.

Lemma ntt_insert_failed_alloc_counts_witness :
  0 <= ntt_items ntt_53_a < SIZE_MAX
  /\ ntt_entries ntt_53_a <= ntt_items ntt_53_a
  /\ exists s',
       ntt_insert (Some ntt_53_a) "0E" 7 [true; false] = (None, Some s', [])
       /\ ntt_items s' = ntt_items ntt_53_a + 1
       /\ ntt_tbl s' = ntt_tbl ntt_53_a
       /\ ntt_entries s' < ntt_items s'.
Proof.
  split; [cbn; unfold SIZE_MAX; lia|].
  split; [vm_compute; discriminate|].
  apply (ntt_insert_failed_alloc_counts ntt_53_a "0E" 7 [true; false] []).
  - cbn. unfold SIZE_MAX. lia.
  - vm_compute. discriminate.
  - reflexivity.
  - reflexivity.
Defined.

(** * Further properties of the code *)

(** * Further properties of the table *)

Section delete.
Implicit Types (s : ntt_t) (key : string) (chain : list ntt_node).

Lemma ntt_delete_absent s key :
  ntt_find (Some s) key = None -> ntt_delete (Some s) key = (-5, Some s).
Proof.
  rewrite ntt_find_walk. unfold ntt_delete.
  destruct (ntt_chain_walk key _ 0); [discriminate|reflexivity].
Qed.

Lemma ntt_delete_present s key p :
  ntt_find (Some s) key = Some p ->
  ntt_delete (Some s) key
  = (0, Some (Ntt (ntt_size s) (size_t_wrap (ntt_items s - 1))
                (<[ref_bucket p :=
                     delete (ref_depth p) (ntt_bucket s (ref_bucket p))]>
                   (ntt_tbl s)))).
Proof.
  rewrite ntt_find_walk. unfold ntt_delete.
  destruct (ntt_chain_walk key _ 0); [|discriminate].
  intros [= <-]. reflexivity.
Qed.

(** The walk over a chain from which a node with another key was
    unlinked: the same node is found, one place earlier when it was behind
    the unlinked one. *)
Lemma ntt_chain_walk_delete key chain d n :
  chain !! d = Some n -> node_key n <> key ->
  ntt_chain_walk key (delete d chain) 0
  = (fun i => if decide (i < d)%nat then i else pred i)
    <$> ntt_chain_walk key chain 0.
Proof.
  revert d. induction chain as [|m chain IH]; intros [|d]; try discriminate.
  - cbn. intros [= ->] Hne.
    destruct (String.eqb_spec key (node_key n)) as [->|_]; [congruence|].
    rewrite (ntt_chain_walk_shift _ _ 1).
    destruct (ntt_chain_walk key chain 0); reflexivity.
  - intros Hd Hne. change (chain !! d = Some n) in Hd.
    change (delete (S d) (m :: chain)) with (m :: delete d chain).
    cbn [ntt_chain_walk].
    destruct (String.eqb_spec key (node_key m)) as [_|_]; [reflexivity|].
    rewrite (ntt_chain_walk_shift _ (delete d chain) 1),
      (ntt_chain_walk_shift _ chain 1).
    rewrite (IH d Hd Hne).
    destruct (ntt_chain_walk key chain 0) as [i|] eqn:Hw; cbn; [|reflexivity].
    assert (i <> d).
    { intros ->. destruct (ntt_chain_walk_Some _ _ _ Hw) as [(m' & Hm & Hkm) _].
      congruence. }
    f_equal. destruct (decide (i < d)%nat), (decide (S i < S d)%nat); lia.
Qed.

(** Unlinking the node of [key] leaves the node a lookup of another key
    lands on as it was. *)
Lemma ntt_delete_other s key p k :
  ntt_shape s ->
  ntt_find (Some s) key = Some p -> k <> key ->
  ntt_find (ntt_delete (Some s) key).2 k
    ≫= node_get (ntt_delete (Some s) key).2
  = ntt_find (Some s) k ≫= node_get (Some s).
Proof.
  intros Hshape Hfind Hne. rewrite (ntt_delete_present _ _ _ Hfind).
  cbn [snd]. destruct (ntt_find_get _ _ _ Hfind) as (n & Hn & Hk).
  pose proof (ntt_find_bucket _ _ _ Hfind) as Hb.
  pose proof (ntt_hashcode_lt s key Hshape) as Hlt. rewrite <- Hb in Hlt.
  destruct p as [b d]. cbn [ref_bucket ref_depth] in *.
  change (ntt_bucket s b !! d = Some n) in Hn.
  rewrite !ntt_find_walk.
  rewrite (ntt_hashcode_same_size _ s) by reflexivity.
  set (h := Z.to_nat (ntt_hashcode s k)).
  rewrite ntt_bucket_insert.
  assert (Hget : forall i,
             node_get (Some (Ntt (ntt_size s) (size_t_wrap (ntt_items s - 1))
                               (<[b := delete d (ntt_bucket s b)]> (ntt_tbl s))))
               (NodeRef h i)
             = node_get (Some s)
                 (if decide (h = b /\ (d <= i)%nat) then NodeRef b (S i)
                  else NodeRef h i)).
  { intros i. apply node_get_unlink. }
  destruct (decide (b = h /\ _)) as [[<- _]|Hh].
  - rewrite (ntt_chain_walk_delete k _ _ n Hn) by congruence.
    destruct (ntt_chain_walk k (ntt_bucket s b) 0) as [i|] eqn:Hw;
      [|reflexivity].
    cbn [fmap option_fmap option_map mbind option_bind].
    rewrite Hget.
    assert (i <> d).
    { intros ->. destruct (ntt_chain_walk_Some _ _ _ Hw) as [(m & Hm & Hkm) _].
      congruence. }
    destruct (decide (i < d)%nat) as [Hi|Hi].
    + rewrite decide_False by lia. reflexivity.
    + rewrite decide_True by (split; [reflexivity|lia]).
      replace (S (pred i)) with i by lia. reflexivity.
  - destruct (ntt_chain_walk k (ntt_bucket s h) 0) as [i|]; [|reflexivity].
    cbn [fmap option_fmap option_map mbind option_bind].
    rewrite Hget. rewrite decide_False; [reflexivity|].
    intros [Heq _]. apply Hh. split; [congruence|exact Hlt].
Qed.

(** After the node of [key] was unlinked, no node has the key. *)
Lemma ntt_find_delete s key :
  ntt_unique_keys s ->
  ntt_find (ntt_delete (Some s) key).2 key = None.
Proof.
  intros Huniq. destruct (ntt_find (Some s) key) as [[b d]|] eqn:Hfind.
  - rewrite (ntt_delete_present _ _ _ Hfind). cbn [snd ref_bucket ref_depth].
    pose proof (ntt_find_bucket _ _ _ Hfind) as Hb. cbn in Hb.
    destruct (ntt_find_get _ _ _ Hfind) as (n & Hn & Hk).
    rewrite ntt_find_walk, (ntt_hashcode_same_size _ s) by reflexivity.
    rewrite <- Hb, ntt_bucket_insert.
    destruct (decide _) as [_|Hout].
    + destruct (ntt_chain_walk key (delete d (ntt_bucket s b)) 0) as [i|] eqn:Hw;
        [|reflexivity].
      exfalso. destruct (ntt_chain_walk_Some _ _ _ Hw) as [(m & Hm & Hkm) _].
      rewrite list_lookup_delete in Hm.
      destruct (decide (i < d)%nat) as [Hi|Hi].
      * assert (NodeRef b i = NodeRef b d) as [=]; [|lia].
        apply (Huniq _ _ m n); [exact Hm|exact Hn|congruence].
      * assert (NodeRef b (S i) = NodeRef b d) as [=]; [|lia].
        apply (Huniq _ _ m n); [exact Hm|exact Hn|congruence].
    + rewrite ntt_find_walk, <- Hb in Hfind.
      unfold ntt_bucket in *. rewrite lookup_ge_None_2 in Hfind by lia.
      discriminate.
  - rewrite (ntt_delete_absent _ _ Hfind). exact Hfind.
Qed.

(** [ntt_delete] takes one from the item count and from the number of
    nodes. *)
Lemma ntt_delete_items s key p :
  ntt_items_ok s ->
  ntt_find (Some s) key = Some p ->
  exists s', (ntt_delete (Some s) key).2 = Some s'
             /\ ntt_items s' = ntt_items s - 1
             /\ ntt_entries s' = ntt_entries s - 1
             /\ ntt_items_ok s'.
Proof.
  intros [Hrange Hle] Hfind. rewrite (ntt_delete_present _ _ _ Hfind).
  cbn [snd]. eexists. split; [reflexivity|].
  destruct (ntt_find_get _ _ _ Hfind) as (n & Hn & _). cbn in Hn.
  unfold ntt_bucket in *.
  destruct (ntt_tbl s !! ref_bucket p) as [chain|] eqn:Hchain;
    [|cbn in Hn; first [discriminate | rewrite lookup_nil in Hn; discriminate]].
  cbn [default] in *. unfold id, ntt_items_ok, ntt_entries in *.
  cbn [ntt_items ntt_tbl].
  pose proof (concat_insert_length _ _ _ (delete (ref_depth p) chain) Hchain)
    as Hlen.
  rewrite length_delete in Hlen by eauto.
  apply lookup_lt_Some in Hn.
  assert (Hwrap : size_t_wrap (ntt_items s - 1) = ntt_items s - 1).
  { unfold size_t_wrap, SIZE_MAX in *. apply Z.mod_small. lia. }
  rewrite Hwrap. unfold SIZE_MAX in *. repeat split; lia.
Qed.
End delete.

Section table_extras.
Implicit Types (s : ntt_t) (hl : option ntt_t) (key : string)
  (a : allocator).

Lemma ntt_53_a0E_insert :
  ntt_insert (Some ntt_53_a) "0E" 7 [] = (Some (NodeRef 44 1), Some ntt_53_a0E, []).
Proof. reflexivity. Qed.

Lemma ntt_53_a0E_inv : ntt_inv ntt_53_a0E.
Proof.
  destruct (ntt_insert_inv ntt_53_a "0E" 7 [] ntt_53_a_inv) as (s' & Hs' & Hinv).
  rewrite ntt_53_a0E_insert in Hs'. injection Hs' as <-. exact Hinv.
Qed.

Lemma ntt_53_a0E_items_ok : ntt_items_ok ntt_53_a0E.
Proof. repeat split; vm_compute; discriminate. Qed.

(** Writing through a pointer what the node already holds changes
    nothing. *)
Lemma node_upd_id (f : ntt_node -> ntt_node) s n m :
  node_get (Some s) n = Some m -> f m = m ->
  node_upd f (Some s) n = Some s.
Proof.
  intros Hm Hf. unfold node_upd. destruct s as [size items tbl].
  cbn [ntt_size ntt_items ntt_tbl]. do 2 f_equal.
  cbn in Hm. unfold ntt_bucket in Hm. cbn [ntt_tbl] in Hm.
  destruct (tbl !! ref_bucket n) as [chain|] eqn:Hchain;
    [|cbn in Hm; first [discriminate | rewrite lookup_nil in Hm; discriminate]].
  cbn [default] in Hm. unfold id in Hm.
  apply list_eq. intros i. rewrite list_lookup_alter.
  destruct (decide (ref_bucket n = i)) as [<-|]; [|reflexivity].
  rewrite Hchain. cbn. f_equal.
  apply list_eq. intros j. rewrite list_lookup_alter.
  destruct (decide (ref_depth n = j)) as [<-|]; [|reflexivity].
  rewrite Hm. cbn. rewrite Hf. reflexivity.
Qed.
End table_extras.

(** X1: [ntt_delete] of a key that is absent returns -5 and leaves the
    table as it is.  For a key that is present, in a table that satisfies
    the invariant, it returns 0; afterwards the key is absent, the item
    count and the number of nodes are one less, and a lookup of any other
    key lands on the node it landed on before. *)
Theorem ntt_delete_unlinks (s : ntt_t) (key : string) :
  ntt_inv s -> ntt_items_ok s ->
  (ntt_find (Some s) key = None -> ntt_delete (Some s) key = (-5, Some s))
  /\ (forall p, ntt_find (Some s) key = Some p ->
      exists s',
        ntt_delete (Some s) key = (0, Some s')
        /\ ntt_find (Some s') key = None
        /\ ntt_items s' = ntt_items s - 1
        /\ ntt_entries s' = ntt_entries s - 1
        /\ (forall k, k <> key ->
              ntt_find (Some s') k ≫= node_get (Some s')
              = ntt_find (Some s) k ≫= node_get (Some s))).
Proof.
  intros (Hshape & Hhash & Huniq) Hitems. split.
  - apply ntt_delete_absent.
  - intros p Hfind.
    destruct (ntt_delete_items s key p Hitems Hfind)
      as (s' & Hs' & Hi & He & _).
    pose proof (ntt_find_delete s key Huniq) as Hgone.
    pose proof (fun k => ntt_delete_other s key p k Hshape Hfind) as Hother.
    rewrite (ntt_delete_present _ _ _ Hfind) in *. cbn [snd] in *.
    injection Hs' as Hs'. rewrite Hs' in *.
    exists s'. repeat split; assumption.
Qed.

Lemma ntt_delete_unlinks_witness :
  ntt_inv ntt_53_a0E /\ ntt_items_ok ntt_53_a0E
  /\ ntt_find (Some ntt_53_a0E) "a" = Some (NodeRef 44 0)
  /\ exists s',
       ntt_delete (Some ntt_53_a0E) "a" = (0, Some s')
       /\ ntt_find (Some s') "a" = None
       /\ ntt_items s' = ntt_items ntt_53_a0E - 1
       /\ ntt_entries s' = ntt_entries ntt_53_a0E - 1
       /\ (forall k, k <> "a" ->
             ntt_find (Some s') k ≫= node_get (Some s')
             = ntt_find (Some ntt_53_a0E) k ≫= node_get (Some ntt_53_a0E)).
Proof.
  split; [exact ntt_53_a0E_inv|]. split; [exact ntt_53_a0E_items_ok|].
  split; [reflexivity|].
  apply (proj2 (ntt_delete_unlinks ntt_53_a0E "a" ntt_53_a0E_inv
                  ntt_53_a0E_items_ok) (NodeRef 44 0)).
  reflexivity.
Defined.

(** X2: inserting a key that is absent and deleting it again gives back
    the table as it was, item count included, when the node could be
    allocated and the item count was below [SIZE_MAX]. *)
Theorem ntt_delete_insert (s : ntt_t) (key : string) (t : Z)
    (a : allocator) :
  ntt_shape s -> 0 <= ntt_items s < SIZE_MAX ->
  ntt_find (Some s) key = None ->
  (ntt_insert (Some s) key t a).1.1 <> None ->
  ntt_delete (ntt_insert (Some s) key t a).1.2 key = (0, Some s).
Proof.
  intros Hshape Hitems Hfind Hok.
  pose proof (ntt_find_insert_eq s key t a) as Hfound.
  rewrite (ntt_insert_new s key t a) in * by (assumption || lia).
  cbn zeta in *.
  destruct (ntt_node_create key t a) as [[node|] a1]; cbn [fst snd] in *;
    [|congruence].
  specialize (Hfound _ Hshape eq_refl).
  rewrite (ntt_delete_present _ _ _ Hfound).
  cbn [ref_bucket ref_depth ntt_size ntt_items ntt_tbl].
  set (h := Z.to_nat (ntt_hashcode s key)) in *.
  pose proof (ntt_hashcode_lt s key Hshape) as Hlt. fold h in Hlt.
  rewrite ntt_bucket_insert, decide_True by auto.
  rewrite (delete_middle (ntt_bucket s h) [] node), app_nil_r.
  rewrite list_insert_insert_eq.
  destruct (lookup_lt_is_Some_2 _ _ Hlt) as [chain Hchain].
  unfold ntt_bucket. rewrite Hchain. cbn [default]. unfold id.
  rewrite (list_insert_id _ _ _ Hchain).
  assert (Hwrap : size_t_wrap (size_t_wrap (ntt_items s + 1) - 1)
                  = ntt_items s).
  { unfold size_t_wrap, SIZE_MAX in *.
    rewrite (Z.mod_small (ntt_items s + 1)) by lia.
    rewrite Z.mod_small by lia. lia. }
  rewrite Hwrap. destruct s. reflexivity.
Qed.

Lemma ntt_delete_insert_witness :
  ntt_shape ntt_53_a /\ 0 <= ntt_items ntt_53_a < SIZE_MAX
  /\ ntt_find (Some ntt_53_a) "0E" = None
  /\ (ntt_insert (Some ntt_53_a) "0E" 7 []).1.1 <> None
  /\ ntt_delete (ntt_insert (Some ntt_53_a) "0E" 7 []).1.2 "0E"
     = (0, Some ntt_53_a).
Proof.
  assert (H1 : 0 <= ntt_items ntt_53_a < SIZE_MAX)
    by (split; vm_compute; congruence).
  assert (H2 : (ntt_insert (Some ntt_53_a) "0E" 7 []).1.1 <> None)
    by (vm_compute; discriminate).
  split; [apply ntt_53_a_inv|]. split; [exact H1|]. split; [reflexivity|].
  split; [exact H2|].
  apply (ntt_delete_insert ntt_53_a "0E" 7 [] (proj1 ntt_53_a_inv) H1 eq_refl H2).
Defined.

(** X3: a second [ntt_insert] of the same key returns the node the first
    one returned, allocates nothing and leaves the item count alone; the
    node then has the new timestamp and count 0, and with the timestamp of
    the first call the table is left exactly as it was.  The item count
    must not have reached [SIZE_MAX] with the first call: the second would
    be refused. *)
Theorem ntt_insert_twice (s : ntt_t) (key : string) (t t' : Z)
    (a : allocator) (p : node_ref) (s1 : ntt_t) (a1 : allocator) :
  ntt_shape s ->
  ntt_insert (Some s) key t a = (Some p, Some s1, a1) ->
  ntt_items s1 <> SIZE_MAX ->
  (exists s2,
      ntt_insert (Some s1) key t' a1 = (Some p, Some s2, a1)
      /\ node_get (Some s2) p = Some (Node key t' 0)
      /\ ntt_items s2 = ntt_items s1
      /\ (forall q, q <> p -> node_get (Some s2) q = node_get (Some s1) q))
  /\ ntt_insert (Some s1) key t a1 = (Some p, Some s1, a1).
Proof.
  intros Hshape Hins Hroom.
  assert (Hfind : ntt_find (Some s1) key = Some p).
  { pose proof (ntt_find_insert_eq s key t a p Hshape) as H.
    rewrite Hins in H. apply H. reflexivity. }
  assert (Hnode : node_get (Some s1) p = Some (Node key t 0)).
  { destruct (Z.eq_dec (ntt_items s) SIZE_MAX) as [Hfull|Hfull].
    { rewrite ntt_insert_full in Hins by assumption. discriminate. }
    destruct (ntt_find (Some s) key) as [p0|] eqn:Hf0.
    - rewrite (ntt_insert_touch _ _ _ _ _ Hfull Hf0) in Hins.
      destruct (ntt_find_get _ _ _ Hf0) as (n & Hn & Hk).
      assert (p0 = p) as -> by congruence.
      assert (Hs1 : Some s1 = node_upd (set_count 0)
                              (node_upd (set_timestamp t) (Some s) p) p)
        by congruence.
      rewrite Hs1.
      rewrite (node_get_node_upd_eq _ _ _ (set_timestamp t n)).
      + unfold set_count, set_timestamp. cbn. rewrite Hk. reflexivity.
      + apply node_get_node_upd_eq, Hn.
    - rewrite (ntt_insert_new _ _ _ _ Hfull Hf0) in Hins. cbn zeta in Hins.
      destruct (ntt_node_create key t a) as [[node|] a2] eqn:Hnode;
        [|discriminate].
      apply ntt_node_create_Some in Hnode. subst node.
      injection Hins as <- <- <-.
      rewrite node_get_append by (apply ntt_hashcode_lt, Hshape).
      rewrite decide_True by reflexivity. reflexivity. }
  assert (Htouch : forall u,
             ntt_insert (Some s1) key u a1
             = (Some p,
                node_upd (set_count 0) (node_upd (set_timestamp u) (Some s1) p) p,
                a1)).
  { intros u. apply ntt_insert_touch; assumption. }
  split.
  - rewrite Htouch.
    destruct (node_upd (set_count 0) (node_upd (set_timestamp t') (Some s1) p) p)
      as [s2|] eqn:Hs2; [|discriminate].
    exists s2. split; [reflexivity|]. rewrite <- Hs2.
    split; [|split].
    + rewrite (node_get_node_upd_eq _ _ _ (set_timestamp t' (Node key t 0))).
      * reflexivity.
      * apply node_get_node_upd_eq, Hnode.
    + injection Hs2 as <-. reflexivity.
    + intros q Hq. rewrite !node_get_node_upd_ne by congruence. reflexivity.
  - rewrite Htouch.
    rewrite (node_upd_id (set_timestamp t) s1 p _ Hnode eq_refl).
    rewrite (node_upd_id (set_count 0) s1 p _ Hnode eq_refl). reflexivity.
Qed.

Lemma ntt_insert_twice_witness :
  ntt_shape ntt_53
  /\ ntt_insert (Some ntt_53) "a" 0 [] = (Some (NodeRef 44 0), Some ntt_53_a, [])
  /\ ntt_items ntt_53_a <> SIZE_MAX
  /\ ntt_insert (Some ntt_53_a) "a" 0 [] = (Some (NodeRef 44 0), Some ntt_53_a, []).
Proof.
  assert (H : ntt_items ntt_53_a <> SIZE_MAX) by (vm_compute; discriminate).
  split; [apply ntt_53_inv|]. split; [reflexivity|]. split; [exact H|].
  apply (proj2 (ntt_insert_twice ntt_53 "a" 0 0 [] (NodeRef 44 0) ntt_53_a []
                  (proj1 ntt_53_inv) eq_refl H)).
Defined.

(** X4: [ntt_create] returns [NULL] exactly when one of its two
    allocations fails.  The table it returns otherwise is empty: it
    satisfies the invariant, its item count is 0, no key is found in it,
    deleting any key returns -5, and the hash code of every key is an index
    into its bucket array. *)
Theorem ntt_create_empty :
  (forall size a,
      (ntt_create size a).1 = None
      <-> (malloc a).1 = false \/ (malloc (malloc a).2).1 = false)
  /\ (forall size a s a',
        ntt_create size a = (Some s, a') ->
        ntt_inv s /\ ntt_items_ok s /\ ntt_items s = 0 /\ ntt_entries s = 0
        /\ forall key,
             ntt_find (Some s) key = None
             /\ ntt_delete (Some s) key = (-5, Some s)
             /\ 0 <= ntt_hashcode s key < ntt_size s
             /\ (Z.to_nat (ntt_hashcode s key) < length (ntt_tbl s))%nat).
Proof.
  split.
  - intros size a. unfold ntt_create. alloc_simpl.
    destruct (malloc a) as [[] a1]; cbn [negb fst snd]; alloc_simpl.
    + destruct (malloc a1) as [[] a2]; cbn [negb fst snd]; alloc_simpl.
      * split; [discriminate|]. intros [|]; discriminate.
      * split; auto.
    + split; auto.
  - intros size a s a' Hs.
    destruct (ntt_create_inv _ _ _ _ Hs) as (Hinv & Hi & He & Hfind).
    split; [exact Hinv|]. split.
    { unfold ntt_items_ok, SIZE_MAX. rewrite Hi, He. lia. }
    split; [exact Hi|]. split; [exact He|].
    intros key. split; [apply Hfind|]. split.
    { apply ntt_delete_absent, Hfind. }
    split.
    + unfold ntt_hashcode. apply Z.mod_pos_bound. apply Hinv.
    + apply ntt_hashcode_lt, Hinv.
Qed.

Lemma ntt_create_empty_witness :
  ntt_create 50 [] = (Some ntt_53, [])
  /\ ntt_inv ntt_53 /\ ntt_items_ok ntt_53 /\ ntt_items ntt_53 = 0
  /\ ntt_entries ntt_53 = 0
  /\ forall key,
       ntt_find (Some ntt_53) key = None
       /\ ntt_delete (Some ntt_53) key = (-5, Some ntt_53)
       /\ 0 <= ntt_hashcode ntt_53 key < ntt_size ntt_53
       /\ (Z.to_nat (ntt_hashcode ntt_53 key) < length (ntt_tbl ntt_53))%nat.
Proof.
  split; [reflexivity|].
  apply (proj2 ntt_create_empty 50 [] ntt_53 []). reflexivity.
Defined.

(** X5: through [ntt_insert] and [ntt_delete] the item count stays a
    [size_t] that is not below the number of nodes.  [ntt_delete] keeps the
    difference between the two, and [ntt_insert] adds one to it exactly
    when it went for a new node and could not allocate it. *)
Theorem ntt_items_account (s : ntt_t) (key : string) (t : Z)
    (a : allocator) :
  ntt_shape s -> ntt_items_ok s ->
  (exists s',
      (ntt_insert (Some s) key t a).1.2 = Some s' /\ ntt_items_ok s'
      /\ ntt_items s' - ntt_entries s'
         = ntt_items s - ntt_entries s
           + (if negb (ntt_items s =? SIZE_MAX)
                 && negb (non_null (ntt_find (Some s) key))
                 && negb (non_null (ntt_insert (Some s) key t a).1.1)
              then 1 else 0))
  /\ (exists s',
        (ntt_delete (Some s) key).2 = Some s' /\ ntt_items_ok s'
        /\ ntt_items s' - ntt_entries s' = ntt_items s - ntt_entries s).
Proof.
  intros Hshape Hok. split.
  - destruct Hok as [Hrange Hle].
    destruct (Z.eq_dec (ntt_items s) SIZE_MAX) as [Hfull|Hfull].
    { rewrite ntt_insert_full by assumption.
      rewrite (proj2 (Z.eqb_eq _ _) Hfull). cbn.
      exists s. repeat split; try assumption; lia. }
    rewrite (proj2 (Z.eqb_neq _ _) Hfull). cbn [negb andb].
    assert (Hwrap : size_t_wrap (ntt_items s + 1) = ntt_items s + 1).
    { unfold size_t_wrap, SIZE_MAX in *. apply Z.mod_small. lia. }
    destruct (ntt_find (Some s) key) as [p0|] eqn:Hfind; cbn [non_null negb andb].
    { rewrite (ntt_insert_touch _ _ _ _ _ Hfull Hfind). cbn [fst snd].
      destruct (node_upd (set_timestamp t) (Some s) p0) as [s1|] eqn:H1;
        [|discriminate].
      destruct (node_upd (set_count 0) (Some s1) p0) as [s2|] eqn:H2;
        [|discriminate].
      apply ntt_entries_node_upd in H1 as [He1 Hi1].
      apply ntt_entries_node_upd in H2 as [He2 Hi2].
      exists s2. split; [reflexivity|]. unfold ntt_items_ok.
      rewrite He2, Hi2, He1, Hi1. repeat split; try assumption; lia. }
    rewrite (ntt_insert_new _ _ _ _ Hfull Hfind). cbn zeta.
    destruct (ntt_node_create key t a) as [[node|] a1];
      cbn [fst snd non_null negb];
      (eexists; split; [reflexivity|]); unfold ntt_items_ok, ntt_entries in *;
      cbn [ntt_items ntt_tbl]; rewrite Hwrap.
    + pose proof (ntt_hashcode_lt s key Hshape) as Hlt.
      destruct (lookup_lt_is_Some_2 _ _ Hlt) as [chain Hchain].
      pose proof (concat_insert_length _ _ _
                    (ntt_bucket s (Z.to_nat (ntt_hashcode s key)) ++ [node])
                    Hchain) as Hlen.
      unfold ntt_bucket in Hlen. rewrite Hchain in Hlen. cbn [default] in Hlen.
      rewrite length_app in Hlen. cbn [length] in Hlen.
      unfold ntt_bucket. rewrite Hchain. cbn [default].
      unfold id, SIZE_MAX in *. repeat split; lia.
    + unfold SIZE_MAX in *. repeat split; lia.
  - destruct (ntt_find (Some s) key) as [p|] eqn:Hfind.
    + destruct (ntt_delete_items s key p Hok Hfind) as (s' & Hs' & Hi & He & Hok').
      exists s'. repeat split; try assumption; try apply Hok'. lia.
    + rewrite (ntt_delete_absent _ _ Hfind). exists s.
      repeat split; try apply Hok. 
Qed.

Lemma ntt_items_account_witness :
  ntt_shape ntt_53_a /\ ntt_items_ok ntt_53_a
  /\ exists s',
       (ntt_insert (Some ntt_53_a) "0E" 7 [false]).1.2 = Some s'
       /\ ntt_items_ok s'
       /\ ntt_items s' - ntt_entries s'
          = ntt_items ntt_53_a - ntt_entries ntt_53_a + 1.
Proof.
  assert (H : ntt_items_ok ntt_53_a) by (repeat split; vm_compute; discriminate).
  split; [apply ntt_53_a_inv|]. split; [exact H|].
  exact (proj1 (ntt_items_account ntt_53_a "0E" 7 [false]
                  (proj1 ntt_53_a_inv) H)).
Defined.

(** * Further properties of the access checker *)

Section requests.
Implicit Types (cfg : evasive_config) (r : request_rec) (t : Z)
  (a : allocator) (hl : option ntt_t) (s : ntt_t) (n p q : node_ref)
  (key k ip : string).

(** [ntt_insert] leaves every node where it is; the node of the key is
    the only one it writes. *)
Lemma ntt_insert_node_get hl key t a q m :
  node_get hl q = Some m ->
  exists m',
    node_get (ntt_insert hl key t a).1.2 q = Some m'
    /\ node_key m' = node_key m
    /\ (m' = m \/ (ntt_find hl key = Some q /\ m' = Node (node_key m) t 0)).
Proof.
  intros Hm. destruct hl as [s|]; [|discriminate].
  destruct (Z.eq_dec (ntt_items s) SIZE_MAX) as [Hfull|Hfull].
  { rewrite ntt_insert_full by assumption. eauto. }
  destruct (ntt_find (Some s) key) as [p0|] eqn:Hfind.
  { rewrite (ntt_insert_touch _ _ _ _ _ Hfull Hfind). cbn [fst snd].
    rewrite !node_get_node_upd.
    destruct (decide (p0 = q)) as [->|]; rewrite Hm; cbn.
    - eexists. split; [reflexivity|]. split; [reflexivity|]. right.
      split; reflexivity.
    - eauto. }
  rewrite (ntt_insert_new _ _ _ _ Hfull Hfind). cbn zeta.
  destruct (ntt_node_create key t a) as [[node|] a1]; cbn [fst snd];
    [|exists m; auto].
  exists m. split; [|auto].
  unfold node_get in *. rewrite ntt_bucket_insert.
  destruct (decide _) as [[Hb _]|_]; [|exact Hm].
  rewrite Hb. apply lookup_app_l_Some. exact Hm.
Qed.

(** A key that is found stays found, at the same place, through
    [ntt_insert]. *)
Lemma ntt_find_insert_mono hl key t a k p :
  ntt_find hl k = Some p ->
  ntt_find (ntt_insert hl key t a).1.2 k = Some p.
Proof.
  intros Hk. destruct (String.eqb_spec key k) as [->|Hne].
  - destruct hl as [s|]; [|discriminate].
    destruct (Z.eq_dec (ntt_items s) SIZE_MAX) as [Hfull|Hfull].
    { rewrite ntt_insert_full by assumption. exact Hk. }
    rewrite (ntt_insert_touch _ _ _ _ _ Hfull Hk). cbn [fst snd].
    rewrite ntt_find_set_count, ntt_find_set_timestamp. exact Hk.
  - rewrite ntt_find_insert_ne by exact Hne. exact Hk.
Qed.

Lemma stamp_and_count_find t hl n k :
  ntt_find (stamp_and_count t hl n) k = ntt_find hl k.
Proof.
  unfold stamp_and_count.
  rewrite ntt_find_set_count, ntt_find_set_timestamp. reflexivity.
Qed.

Lemma stamp_and_count_key t hl n q m :
  node_get hl q = Some m ->
  exists m', node_get (stamp_and_count t hl n) q = Some m'
             /\ node_key m' = node_key m.
Proof.
  intros Hm. unfold stamp_and_count. rewrite !node_get_node_upd.
  destruct (decide (n = q)); rewrite Hm; cbn; eauto.
Qed.

(** The table after a hit check, whichever way it went. *)
Lemma hit_check_table cfg ip key interval count t ret hl a :
  exists hl0,
    (hit_check cfg ip key interval count t ret hl a).1.2 = hl0
    /\ ((exists k, hl0 = (ntt_insert hl k t a).1.2)
        \/ (exists n k, hl0 = stamp_and_count t (ntt_insert hl k t a).1.2 n)
        \/ (exists n, hl0 = stamp_and_count t hl n)
        \/ (exists n, hl0 = stamp_and_count t (node_upd (set_count 0) hl n) n)).
Proof.
  eexists. split; [reflexivity|].
  destruct (ntt_find hl key) as [n|] eqn:Hfind.
  - rewrite (hit_check_found _ _ _ _ _ _ _ _ _ _ Hfind).
    destruct (_ && _); cbn [fst snd]; [eauto 6|].
    destruct (_ <=? _); eauto 6.
  - rewrite (hit_check_absent _ _ _ _ _ _ _ _ _ Hfind). cbn [fst snd]. eauto.
Qed.

Lemma hit_check_find_mono cfg ip key interval count t ret hl a k p :
  ntt_find hl k = Some p ->
  ntt_find (hit_check cfg ip key interval count t ret hl a).1.2 k = Some p.
Proof.
  intros Hk.
  destruct (hit_check_table cfg ip key interval count t ret hl a)
    as (hl0 & -> & [(k0 & ->)|[(n & k0 & ->)|[(n & ->)|(n & ->)]]]).
  - apply ntt_find_insert_mono, Hk.
  - rewrite stamp_and_count_find. apply ntt_find_insert_mono, Hk.
  - rewrite stamp_and_count_find. exact Hk.
  - rewrite stamp_and_count_find, ntt_find_set_count. exact Hk.
Qed.

Lemma hit_check_node_key cfg ip key interval count t ret hl a q m :
  node_get hl q = Some m ->
  exists m',
    node_get (hit_check cfg ip key interval count t ret hl a).1.2 q = Some m'
    /\ node_key m' = node_key m.
Proof.
  intros Hm.
  destruct (hit_check_table cfg ip key interval count t ret hl a)
    as (hl0 & -> & [(k0 & ->)|[(n & k0 & ->)|[(n & ->)|(n & ->)]]]).
  - destruct (ntt_insert_node_get hl k0 t a q m Hm) as (m' & H & Hk & _). eauto.
  - destruct (ntt_insert_node_get hl k0 t a q m Hm) as (m1 & H1 & Hk1 & _).
    destruct (stamp_and_count_key t _ n q m1 H1) as (m2 & H2 & Hk2).
    exists m2. split; [exact H2|congruence].
  - apply stamp_and_count_key, Hm.
  - assert (H0 : exists m0, node_get (node_upd (set_count 0) hl n) q = Some m0
                            /\ node_key m0 = node_key m).
    { rewrite node_get_node_upd. destruct (decide (n = q)); rewrite Hm; cbn; eauto. }
    destruct H0 as (m0 & H0 & Hk0).
    destruct (stamp_and_count_key t _ n q m0 H0) as (m2 & H2 & Hk2).
    exists m2. split; [exact H2|congruence].
Qed.

Lemma ntt_inv_set_timestamp t s n s' :
  ntt_inv s -> node_upd (set_timestamp t) (Some s) n = Some s' -> ntt_inv s'.
Proof. apply ntt_inv_node_upd. reflexivity. Qed.

Lemma ntt_inv_set_count c s n s' :
  ntt_inv s -> node_upd (set_count c) (Some s) n = Some s' -> ntt_inv s'.
Proof. apply ntt_inv_node_upd. reflexivity. Qed.

Lemma stamp_and_count_inv t s n :
  ntt_inv s -> ntt_items_ok s ->
  exists s', stamp_and_count t (Some s) n = Some s' /\ ntt_inv s'
             /\ ntt_items_ok s' /\ ntt_items s' = ntt_items s.
Proof.
  intros Hinv Hok. unfold stamp_and_count.
  destruct (node_upd (set_timestamp t) (Some s) n) as [s1|] eqn:H1;
    [|discriminate].
  set (c := size_t_wrap _).
  destruct (node_upd (set_count c) (Some s1) n) as [s2|] eqn:H2;
    [|discriminate].
  exists s2. split; [reflexivity|].
  pose proof (ntt_inv_set_timestamp _ _ _ _ Hinv H1) as Hinv1.
  pose proof (ntt_inv_set_count _ _ _ _ Hinv1 H2) as Hinv2.
  apply ntt_entries_node_upd in H1 as [He1 Hi1].
  apply ntt_entries_node_upd in H2 as [He2 Hi2].
  split; [exact Hinv2|]. unfold ntt_items_ok in *.
  rewrite He2, Hi2, He1, Hi1. auto.
Qed.

Lemma ntt_insert_wf s key t a :
  ntt_inv s -> ntt_items_ok s ->
  exists s', (ntt_insert (Some s) key t a).1.2 = Some s' /\ ntt_inv s'
             /\ ntt_items_ok s'.
Proof.
  intros Hinv Hok.
  destruct (ntt_insert_inv s key t a Hinv) as (s1 & H1 & Hinv1).
  destruct (ntt_insert_items_ok s key t a (proj1 Hinv) Hok) as (s2 & H2 & Hok2).
  exists s1. rewrite H1 in H2. injection H2 as <-. auto.
Qed.

Lemma hit_check_wf cfg ip key interval count t ret s a :
  ntt_inv s -> ntt_items_ok s ->
  exists s',
    (hit_check cfg ip key interval count t ret (Some s) a).1.2 = Some s'
    /\ ntt_inv s' /\ ntt_items_ok s'.
Proof.
  intros Hinv Hok.
  destruct (hit_check_table cfg ip key interval count t ret (Some s) a)
    as (hl0 & -> & [(k0 & ->)|[(n & k0 & ->)|[(n & ->)|(n & ->)]]]).
  - apply ntt_insert_wf; assumption.
  - destruct (ntt_insert_wf s k0 t a Hinv Hok) as (s1 & -> & Hinv1 & Hok1).
    destruct (stamp_and_count_inv t s1 n Hinv1 Hok1) as (s2 & H2 & ? & ? & _).
    eauto.
  - destruct (stamp_and_count_inv t s n Hinv Hok) as (s2 & H2 & ? & ? & _).
    eauto.
  - destruct (node_upd (set_count 0) (Some s) n) as [s1|] eqn:H1;
      [|discriminate].
    pose proof (ntt_inv_set_count _ _ _ _ Hinv H1) as Hinv1.
    apply ntt_entries_node_upd in H1 as [He1 Hi1].
    assert (Hok1 : ntt_items_ok s1).
    { unfold ntt_items_ok in *. rewrite He1, Hi1. exact Hok. }
    destruct (stamp_and_count_inv t s1 n Hinv1 Hok1) as (s2 & H2 & ? & ? & _).
    eauto.
Qed.

(** The table after [access_checker]: untouched, or the hold entry
    stamped, or what the two hit checks left. *)
Lemma access_checker_table cfg r t a :
  (access_checker cfg r t a).1.2 = hit_list cfg
  \/ (exists n, (access_checker cfg r t a).1.2
                = node_upd (set_timestamp t) (hit_list cfg) n)
  \/ (exists a1 a2 ret1,
        (access_checker cfg r t a).1.2
        = (hit_check cfg (useragent_ip r)
             (snprintf 2048 (useragent_ip r ++ "_SITE"))
             (site_interval cfg) (site_count cfg) t ret1
             (hit_check cfg (useragent_ip r)
                (snprintf 2048 (useragent_ip r ++ "_" ++ uri r))
                (page_interval cfg) (page_count cfg) t OK (hit_list cfg) a1).1.2
             a2).1.2).
Proof.
  unfold access_checker.
  destruct (negb _ && _ && _ && _); [|auto].
  alloc_simpl.
  destruct (is_whitelisted (useragent_ip r) cfg a) as [[] a1]; cbn [fst snd];
    [auto|].
  destruct (on_hold _ _ _ _).
  - destruct (ntt_find (hit_list cfg) (useragent_ip r)); cbn; eauto.
  - rewrite check_hit_stats_unfold. cbn zeta.
    destruct (is_uri_whitelisted (uri r) cfg a1) as [[] a2]; cbn [fst snd];
      [auto|].
    right. right. eauto.
Qed.
End requests.

Lemma access_checker_wf (cfg : evasive_config) (s : ntt_t) (r : request_rec)
    (t : Z) (a : allocator) :
  hit_list cfg = Some s -> ntt_inv s -> ntt_items_ok s ->
  exists s', (access_checker cfg r t a).1.2 = Some s'
             /\ ntt_inv s' /\ ntt_items_ok s'.
Proof.
  intros Hs Hinv Hok.
  destruct (access_checker_table cfg r t a)
    as [->|[(n & ->)|(a1 & a2 & ret1 & ->)]]; rewrite Hs.
  - eauto.
  - destruct (node_upd (set_timestamp t) (Some s) n) as [s1|] eqn:H1;
      [|discriminate].
    pose proof (ntt_inv_set_timestamp _ _ _ _ Hinv H1) as Hinv1.
    apply ntt_entries_node_upd in H1 as [He1 Hi1].
    exists s1. repeat split; try apply Hinv1.
    all: unfold ntt_items_ok in *; rewrite ?He1, ?Hi1; apply Hok.
  - destruct (hit_check_wf cfg (useragent_ip r)
                (snprintf 2048 (useragent_ip r ++ "_" ++ uri r))
                (page_interval cfg) (page_count cfg) t OK s a1 Hinv Hok)
      as (s1 & -> & Hinv1 & Hok1).
    apply hit_check_wf; assumption.
Qed.

Lemma serve_wf (cfg : evasive_config) (s : ntt_t)
    (reqs : list (request_rec * Z)) (a : allocator) :
  hit_list cfg = Some s -> ntt_inv s -> ntt_items_ok s ->
  exists s', hit_list (serve cfg reqs a).1.2 = Some s'
             /\ ntt_inv s' /\ ntt_items_ok s'.
Proof.
  revert cfg s a.
  induction reqs as [|[r t] reqs IH]; intros cfg s a Hs Hinv Hok.
  - cbn. eauto.
  - rewrite serve_cons.
    destruct (access_checker_wf cfg s r t a Hs Hinv Hok)
      as (s1 & Hs1 & Hinv1 & Hok1).
    destruct (access_checker cfg r t a) as [[ret hl] a1]. cbn [fst snd] in Hs1.
    subst hl.
    specialize (IH (set_hit_list cfg (Some s1)) s1 a1 eq_refl Hinv1 Hok1).
    destruct (serve (set_hit_list cfg (Some s1)) reqs a1) as [[rets cfg'] a2].
    exact IH.
Qed.

(** X6: request handling keeps the table well formed.  From a table
    that satisfies the invariant and whose item count is not below the
    number of nodes, [access_checker] leaves such a table again, for every
    request, time and allocator, and so does any run of requests. *)
Theorem access_checker_keeps_invariant (cfg : evasive_config) (s : ntt_t) :
  hit_list cfg = Some s -> ntt_inv s -> ntt_items_ok s ->
  (forall r t a,
      exists s', (access_checker cfg r t a).1.2 = Some s'
                 /\ ntt_inv s' /\ ntt_items_ok s')
  /\ (forall reqs a,
        exists s', hit_list (serve cfg reqs a).1.2 = Some s'
                   /\ ntt_inv s' /\ ntt_items_ok s').
Proof.
  intros Hs Hinv Hok. split.
  - intros r t a. apply (access_checker_wf cfg s); assumption.
  - intros reqs a. apply (serve_wf cfg s); assumption.
Qed.

(** X7: request handling never removes or moves an entry: a key that
    [ntt_find] finds before [access_checker] is found at the same place
    afterwards, and the node at any place keeps its key. *)
Theorem access_checker_keeps_entries (cfg : evasive_config) (r : request_rec)
    (t : Z) (a : allocator) :
  (forall k p,
      ntt_find (hit_list cfg) k = Some p ->
      ntt_find (access_checker cfg r t a).1.2 k = Some p)
  /\ (forall q m,
        node_get (hit_list cfg) q = Some m ->
        exists m', node_get (access_checker cfg r t a).1.2 q = Some m'
                   /\ node_key m' = node_key m).
Proof.
  split.
  - intros k p Hk.
    destruct (access_checker_table cfg r t a)
      as [->|[(n & ->)|(a1 & a2 & ret1 & ->)]].
    + exact Hk.
    + rewrite ntt_find_set_timestamp. exact Hk.
    + apply hit_check_find_mono, hit_check_find_mono, Hk.
  - intros q m Hm.
    destruct (access_checker_table cfg r t a)
      as [->|[(n & ->)|(a1 & a2 & ret1 & ->)]].
    + eauto.
    + rewrite node_get_node_upd. destruct (decide (n = q)); rewrite Hm; cbn; eauto.
    + destruct (hit_check_node_key cfg (useragent_ip r)
                  (snprintf 2048 (useragent_ip r ++ "_" ++ uri r))
                  (page_interval cfg) (page_count cfg) t OK (hit_list cfg) a1
                  q m Hm) as (m1 & H1 & Hk1).
      destruct (hit_check_node_key cfg (useragent_ip r)
                  (snprintf 2048 (useragent_ip r ++ "_SITE"))
                  (site_interval cfg) (site_count cfg) t ret1 _ a2
                  q m1 H1) as (m2 & H2 & Hk2).
      exists m2. split; [exact H2|congruence].
Qed.

Lemma cfg_2_1_hit_list : hit_list cfg_2_1 = Some ntt_6151.
Proof. vm_compute. reflexivity. Qed.

Lemma ntt_6151_inv : ntt_inv ntt_6151 /\ ntt_items_ok ntt_6151.
Proof.
  assert (H : ntt_create 3097 [] = (Some ntt_6151, [])) by (vm_compute; reflexivity).
  destruct (ntt_create_inv _ _ _ _ H) as (Hinv & Hi & He & _).
  split; [exact Hinv|]. unfold ntt_items_ok, SIZE_MAX. rewrite Hi, He. lia.
Qed.

Lemma access_checker_keeps_invariant_witness :
  hit_list cfg_2_1 = Some ntt_6151 /\ ntt_inv ntt_6151
  /\ ntt_items_ok ntt_6151
  /\ exists s',
       hit_list
         (serve cfg_2_1 [(req_x, 0); (req_x, 0); (req_x, 0); (req_x, 0)]
            [true; false]).1.2 = Some s'
       /\ ntt_inv s' /\ ntt_items_ok s'.
Proof.
  split; [exact cfg_2_1_hit_list|]. split; [apply ntt_6151_inv|].
  split; [apply ntt_6151_inv|].
  apply (proj2 (access_checker_keeps_invariant cfg_2_1 ntt_6151
                  cfg_2_1_hit_list (proj1 ntt_6151_inv) (proj2 ntt_6151_inv))).
Defined.

Lemma access_checker_keeps_entries_witness :
  ntt_find (hit_list cfg_held) "1.2.3.4_/x" = Some (NodeRef 1366 0)
  /\ ntt_find (access_checker cfg_held req_x 20 []).1.2 "1.2.3.4_/x"
     = Some (NodeRef 1366 0).
Proof.
  assert (H : ntt_find (hit_list cfg_held) "1.2.3.4_/x" = Some (NodeRef 1366 0))
    by (vm_compute; reflexivity).
  split; [exact H|].
  exact (proj1 (access_checker_keeps_entries cfg_held req_x 20 []) _ _ H).
Defined.

Lemma hit_check_verdict (cfg : evasive_config) (ip key : string)
    (interval count t ret : Z) (hl : option ntt_t) (a : allocator) :
  (hit_check cfg ip key interval count t ret hl a).1.1 = ret
  \/ (hit_check cfg ip key interval count t ret hl a).1.1 = http_reply cfg.
Proof.
  destruct (ntt_find hl key) as [n|] eqn:Hfind.
  - rewrite (hit_check_found _ _ _ _ _ _ _ _ _ _ Hfind).
    destruct (_ && _); auto.
  - rewrite (hit_check_absent _ _ _ _ _ _ _ _ _ Hfind). auto.
Qed.

(** X8: [access_checker] answers [OK] or the configured [http_reply],
    nothing else; and a request that is not checked (module disabled,
    subrequest, internal redirect, or no table) gets [OK] with the table
    and the allocator untouched. *)
Theorem access_checker_verdicts (cfg : evasive_config) (r : request_rec)
    (t : Z) (a : allocator) :
  ((access_checker cfg r t a).1.1 = OK
   \/ (access_checker cfg r t a).1.1 = http_reply cfg)
  /\ (enabled cfg = 0 \/ is_Some (prev r) \/ is_Some (main r)
      \/ hit_list cfg = None ->
      access_checker cfg r t a = (OK, hit_list cfg, a)).
Proof.
  split; [|apply access_checker_unchecked].
  unfold access_checker.
  destruct (negb _ && _ && _ && _); [|auto].
  alloc_simpl.
  destruct (is_whitelisted (useragent_ip r) cfg a) as [[] a1]; cbn [fst snd];
    [auto|].
  destruct (on_hold _ _ _ _); [auto|].
  rewrite check_hit_stats_unfold. cbn zeta.
  destruct (is_uri_whitelisted (uri r) cfg a1) as [[] a2]; cbn [fst snd];
    [auto|].
  set (page := hit_check _ _ _ (page_interval cfg) _ _ _ _ _).
  destruct (hit_check_verdict cfg (useragent_ip r)
              (snprintf 2048 (useragent_ip r ++ "_SITE"))
              (site_interval cfg) (site_count cfg) t page.1.1 page.1.2 page.2)
    as [->| ->]; [|auto].
  apply hit_check_verdict.
Qed.

Lemma access_checker_verdicts_witness :
  is_Some (main (Request "1.2.3.4" "/x" None (Some req_x)))
  /\ access_checker cfg_held (Request "1.2.3.4" "/x" None (Some req_x)) 1 []
     = (OK, hit_list cfg_held, []).
Proof.
  assert (H : is_Some (main (Request "1.2.3.4" "/x" None (Some req_x))))
    by (eexists; reflexivity).
  split; [exact H|].
  apply (proj2 (access_checker_verdicts cfg_held
                  (Request "1.2.3.4" "/x" None (Some req_x)) 1 [])).
  right. right. left. exact H.
Defined.

Section escalation.
Implicit Types (cfg : evasive_config) (r : request_rec) (t : Z)
  (a : allocator) (hl : option ntt_t) (s : ntt_t) (n p q : node_ref)
  (key k ip : string).









End escalation.




(** * The directives *)

(** X10: the blocking period is 0 until [DOSBlockingPeriod] is given:
    [create_dir_conf] does not set the field, and no other directive
    handler writes it, while [DOSBlockingPeriod] with a value that is not
    positive sets the default of 10.  With a blocking period that is not
    positive the hold test never denies (time not running backwards): a
    checked request of a client that is not whitelisted always goes to the
    hit statistics. *)
Theorem blocking_period_unset_no_hold :
  (forall a, blocking_period (create_dir_conf a).1 = 0)
  /\ (forall cfg v n a re ip now,
        blocking_period (get_enabled cfg v) = blocking_period cfg
        /\ blocking_period (get_hash_tbl_size cfg n a).1 = blocking_period cfg
        /\ blocking_period (get_page_count cfg n) = blocking_period cfg
        /\ blocking_period (get_site_count cfg n) = blocking_period cfg
        /\ blocking_period (get_page_interval cfg n) = blocking_period cfg
        /\ blocking_period (get_site_interval cfg n) = blocking_period cfg
        /\ blocking_period (get_http_reply cfg n) = blocking_period cfg
        /\ blocking_period (whitelist cfg ip now a).1 = blocking_period cfg
        /\ blocking_period (whitelist_uri cfg re a).1 = blocking_period cfg)
  /\ (forall cfg n,
        blocking_period (get_blocking_period cfg n)
        = if n <=? 0 then DEFAULT_BLOCKING_PERIOD else to_int n)
  /\ (forall cfg r t a,
        blocking_period cfg <= 0 ->
        (forall n, ntt_find (hit_list cfg) (useragent_ip r) = Some n ->
                   timestamp_of (hit_list cfg) n <= t) ->
        checked cfg r ->
        whitelist_lookups (useragent_ip r) (hit_list cfg) = false ->
        access_checker cfg r t a
        = check_hit_stats cfg r t OK (hit_list cfg) (malloc a).2).
Proof.
  split; [|split; [|split]].
  - intros a. unfold create_dir_conf. alloc_simpl. reflexivity.
  - intros cfg v n a re ip now. repeat split.
    + unfold get_hash_tbl_size. alloc_simpl. reflexivity.
    + unfold whitelist. alloc_simpl.
      destruct (ntt_insert _ _ _ _) as [[p hl] a1]. reflexivity.
    + unfold whitelist_uri. alloc_simpl.
      destruct (malloc a) as [[] a1]; reflexivity.
  - reflexivity.
  - intros cfg r t a Hperiod Htime Hc Hwl.
    apply access_checker_not_on_hold; [exact Hc|exact Hwl|].
    destruct (ntt_find (hit_list cfg) (useragent_ip r)) as [n|] eqn:Hn;
      [|reflexivity].
    cbn [on_hold]. apply Z.ltb_ge. specialize (Htime n eq_refl). lia.
Qed.

Lemma blocking_period_unset_no_hold_witness :
  blocking_period cfg_unset_denied <= 0
  /\ ntt_find (hit_list cfg_unset_denied) "1.2.3.4" = Some (NodeRef 678 0)
  /\ (serve cfg_unset [(req_x, 0); (req_x, 0); (req_x, 0); (req_x, 0)] []).1.1
     = [OK; OK; OK; HTTP_FORBIDDEN]
  /\ access_checker cfg_unset_denied req_y 0 []
     = check_hit_stats cfg_unset_denied req_y 0 OK (hit_list cfg_unset_denied)
         (malloc []).2
  /\ (access_checker cfg_unset_denied req_y 0 []).1.1 = OK.
Proof.
  assert (H1 : blocking_period cfg_unset_denied <= 0)
    by (vm_compute; discriminate).
  assert (H2 : ntt_find (hit_list cfg_unset_denied) "1.2.3.4"
               = Some (NodeRef 678 0)) by (vm_compute; reflexivity).
  assert (H3 : forall n,
             ntt_find (hit_list cfg_unset_denied) (useragent_ip req_y) = Some n ->
             timestamp_of (hit_list cfg_unset_denied) n <= 0).
  { intros n Hn. assert (n = NodeRef 678 0) as ->.
    { apply (inj Some). rewrite <- Hn. symmetry. exact H2. }
    vm_compute. discriminate. }
  assert (H4 : checked cfg_unset_denied req_y).
  { split; [vm_compute; discriminate|]. split; [reflexivity|].
    split; [reflexivity|]. vm_compute. eexists. reflexivity. }
  assert (H5 : whitelist_lookups (useragent_ip req_y)
                 (hit_list cfg_unset_denied) = false)
    by (vm_compute; reflexivity).
  split; [exact H1|]. split; [exact H2|].
  split; [vm_compute; reflexivity|].
  split.
  - exact (proj2 (proj2 (proj2 blocking_period_unset_no_hold))
             cfg_unset_denied req_y 0 [] H1 H3 H4 H5).
  - vm_compute. reflexivity.
Defined.

(** X11: [DOSHashTableSize] makes a new table and drops the one the
    configuration had: whatever was in it is gone, the addresses whitelisted
    by an earlier [DOSWhitelist] included.  When the new table cannot be
    allocated the configuration is left without a table, and every request
    passes unchecked. *)
Theorem hash_tbl_size_drops_table (cfg : evasive_config) (n : Z)
    (a : allocator) :
  let cfg' := (get_hash_tbl_size cfg n a).1 in
  hash_table_size cfg' = (if n <=? 0 then DEFAULT_HASH_TBL_SIZE else n)
  /\ hit_list cfg' = (ntt_create (hash_table_size cfg') a).1
  /\ (forall key, ntt_find (hit_list cfg') key = None)
  /\ (forall ip, whitelist_lookups ip (hit_list cfg') = false)
  /\ (hit_list cfg' = None
      <-> (malloc a).1 = false \/ (malloc (malloc a).2).1 = false)
  /\ (hit_list cfg' = None ->
      forall r t a', access_checker cfg' r t a' = (OK, None, a')).
Proof.
  intros cfg'.
  assert (Hsize : hash_table_size cfg'
                  = (if n <=? 0 then DEFAULT_HASH_TBL_SIZE else n)).
  { subst cfg'. unfold get_hash_tbl_size. alloc_simpl. reflexivity. }
  assert (Hhl : hit_list cfg' = (ntt_create (hash_table_size cfg') a).1).
  { rewrite Hsize. subst cfg'. unfold get_hash_tbl_size. alloc_simpl.
    reflexivity. }
  assert (Hfind : forall key, ntt_find (hit_list cfg') key = None).
  { intros key. rewrite Hhl.
    destruct (ntt_create (hash_table_size cfg') a) as [[s|] a1] eqn:Hs;
      [|reflexivity].
    apply (ntt_create_inv _ _ _ _ Hs). }
  split; [exact Hsize|]. split; [exact Hhl|]. split; [exact Hfind|].
  split; [|split].
  - intros ip. unfold whitelist_lookups. cbn zeta. rewrite !Hfind. reflexivity.
  - rewrite Hhl. unfold ntt_create. alloc_simpl.
    destruct (malloc a) as [[] a1]; cbn [negb fst snd]; alloc_simpl.
    + destruct (malloc a1) as [[] a2]; cbn [negb fst snd]; alloc_simpl.
      * split; [discriminate|]. intros [|]; discriminate.
      * split; auto.
    + split; auto.
  - intros Hnone r t a'.
    rewrite (access_checker_unchecked cfg' r t a') by auto.
    rewrite Hnone. reflexivity.
Qed.

(** * The two whitelists *)

Lemma uri_whitelist_loop_sound (uri : string) (node : list pcre2_code)
    (a : allocator) :
  (uri_whitelist_loop uri node a).1 = true ->
  Exists (fun re => 0 <= re uri) node.
Proof.
  revert a. induction node as [|re next IH]; intros a; cbn [uri_whitelist_loop].
  - alloc_simpl. discriminate.
  - alloc_simpl. destruct (malloc a) as [[] a1]; cbn [negb fst snd].
    + destruct (0 <=? re uri) eqn:Hre.
      * intros _. apply Exists_cons_hd. apply Z.leb_le, Hre.
      * intros H. apply Exists_cons_tl, (IH a1), H.
    + intros H. apply Exists_cons_tl, (IH a1), H.
Qed.

Lemma uri_whitelist_loop_complete (uri : string) (node : list pcre2_code)
    (a : allocator) :
  Forall (fun ok => ok = true) a ->
  (uri_whitelist_loop uri node a).1
  = existsb (fun re => 0 <=? re uri) node.
Proof.
  revert a. induction node as [|re next IH]; intros a Ha;
    cbn [uri_whitelist_loop existsb].
  - reflexivity.
  - alloc_simpl. destruct (malloc_all_true a Ha) as [Hm Ha'].
    rewrite Hm. cbn [negb].
    destruct (0 <=? re uri); [reflexivity|]. apply IH, Ha'.
Qed.

(** X12: [is_uri_whitelisted] answers 1 only when a pattern of the list
    matches the URI, whatever the allocations do, and, when every
    allocation succeeds, exactly when one does.  [DOSWhitelistUri] puts its
    pattern in front of the list and changes nothing else (a failed
    [malloc] of the node leaves the configuration as it was), so a URI the
    new pattern matches is whitelisted from then on, with the one
    allocation of the first match, and the URIs that were whitelisted
    before still are. *)
Theorem uri_whitelist_matches :
  (forall uri cfg a,
      (is_uri_whitelisted uri cfg a).1 = true ->
      Exists (fun re => 0 <= re uri) (uri_whitelist cfg))
  /\ (forall uri cfg a,
        Forall (fun ok => ok = true) a ->
        (is_uri_whitelisted uri cfg a).1
        = existsb (fun re => 0 <=? re uri) (uri_whitelist cfg))
  /\ (forall cfg re a,
        (malloc a).1 = false -> whitelist_uri cfg re a = (cfg, (malloc a).2))
  /\ (forall cfg re a,
        (malloc a).1 = true ->
        let cfg' := (whitelist_uri cfg re a).1 in
        uri_whitelist cfg' = re :: uri_whitelist cfg
        /\ hit_list cfg' = hit_list cfg
        /\ (forall uri a',
              0 <= re uri -> (malloc a').1 = true ->
              is_uri_whitelisted uri cfg' a' = (true, (malloc a').2))
        /\ (forall uri a',
              Forall (fun ok => ok = true) a' ->
              (is_uri_whitelisted uri cfg a').1 = true ->
              (is_uri_whitelisted uri cfg' a').1 = true)).
Proof.
  split; [|split; [|split]].
  - intros uri cfg a. apply uri_whitelist_loop_sound.
  - intros uri cfg a. apply uri_whitelist_loop_complete.
  - intros cfg re a Hm. unfold whitelist_uri. alloc_simpl. rewrite Hm.
    reflexivity.
  - intros cfg re a Hm cfg'.
    assert (Hlist : uri_whitelist cfg' = re :: uri_whitelist cfg).
    { subst cfg'. unfold whitelist_uri. alloc_simpl. rewrite Hm. reflexivity. }
    split; [exact Hlist|]. split; [|split].
    + subst cfg'. unfold whitelist_uri. alloc_simpl. rewrite Hm. reflexivity.
    + intros uri a' Hre Ha'. unfold is_uri_whitelisted. rewrite Hlist.
      cbn [uri_whitelist_loop]. alloc_simpl. rewrite Ha'. cbn [negb].
      rewrite (proj2 (Z.leb_le _ _) Hre). reflexivity.
    + intros uri a' Ha' Hold. unfold is_uri_whitelisted in *.
      rewrite uri_whitelist_loop_complete in * by exact Ha'.
      rewrite Hlist. cbn [existsb]. rewrite Hold. apply orb_true_r.
Qed.

Lemma uri_whitelist_matches_witness :
  (malloc [true]).1 = true
  /\ 0 <= re_static "/static/a"
  /\ is_uri_whitelisted "/static/a" (whitelist_uri cfg_2_1 re_static [true]).1 []
     = (true, []).
Proof.
  assert (H1 : (malloc [true]).1 = true) by reflexivity.
  assert (H2 : 0 <= re_static "/static/a") by (vm_compute; discriminate).
  split; [exact H1|]. split; [exact H2|].
  exact (proj1 (proj2 (proj2 (proj2 (proj2 (proj2 uri_whitelist_matches))
                                cfg_2_1 re_static [true] H1)))
           "/static/a" [] H2 eq_refl).
Defined.

Section whitelist_directive.
Implicit Types (cfg : evasive_config) (r : request_rec) (t : Z)
  (a : allocator) (hl : option ntt_t) (s : ntt_t) (ip : string).

Lemma whitelist_hit_list cfg ip now a :
  hit_list (whitelist cfg ip now a).1
  = (ntt_insert (hit_list cfg) (snprintf 128 ("WHITELIST_" ++ ip)) now a).1.2.
Proof.
  unfold whitelist. alloc_simpl.
  destruct (ntt_insert _ _ _ _) as [[p hl] a1]. reflexivity.
Qed.

Lemma whitelist_lookups_mono ip hl hl' :
  (forall k p, ntt_find hl k = Some p -> ntt_find hl' k = Some p) ->
  whitelist_lookups ip hl = true -> whitelist_lookups ip hl' = true.
Proof.
  intros Hmono. rewrite !whitelist_lookups_orb. cbn zeta.
  assert (H : forall k, non_null (ntt_find hl k) = true ->
                        non_null (ntt_find hl' k) = true).
  { intros k. destruct (ntt_find hl k) as [p|] eqn:Hk; [|discriminate].
    rewrite (Hmono _ _ Hk). reflexivity. }
  rewrite !orb_true_iff. intros [[[Hk|Hk]|Hk]|Hk]; apply H in Hk; auto.
Qed.

Lemma serve_find_mono cfg reqs a k p :
  ntt_find (hit_list cfg) k = Some p ->
  ntt_find (hit_list (serve cfg reqs a).1.2) k = Some p.
Proof.
  revert cfg a. induction reqs as [|[r t] reqs IH]; intros cfg a Hk.
  - exact Hk.
  - rewrite serve_cons.
    assert (H1 : ntt_find (access_checker cfg r t a).1.2 k = Some p).
    { destruct (access_checker_table cfg r t a)
        as [->|[(n & ->)|(a1 & a2 & ret1 & ->)]].
      - exact Hk.
      - rewrite ntt_find_set_timestamp. exact Hk.
      - apply hit_check_find_mono, hit_check_find_mono, Hk. }
    destruct (access_checker cfg r t a) as [[ret hl] a1]. cbn [fst snd] in H1.
    specialize (IH (set_hit_list cfg hl) a1 H1).
    destruct (serve (set_hit_list cfg hl) reqs a1) as [[rets cfg'] a2].
    exact IH.
Qed.
End whitelist_directive.

(** X13: [DOSWhitelist] takes effect and lasts.  When its [ntt_insert]
    returns a node, the address given is whitelisted afterwards
    ([is_whitelisted] answers 1 when its [strdup] succeeds), it still is
    after any run of requests, whatever the allocations did meanwhile, and
    a request from it passes without a change to the table.  An address
    that was whitelisted before the directive stays whitelisted.  For the
    wildcard form of two leading octets, every dotted quad that starts with
    them is whitelisted. *)
Theorem whitelist_directive_lasts (cfg : evasive_config) (s : ntt_t)
    (ip : string) (now : Z) (a : allocator) :
  hit_list cfg = Some s -> ntt_shape s ->
  (ntt_insert (hit_list cfg) (snprintf 128 ("WHITELIST_" ++ ip)) now a).1.1
  <> None ->
  let cfg' := (whitelist cfg ip now a).1 in
  whitelist_lookups ip (hit_list cfg') = true
  /\ (forall ip', whitelist_lookups ip' (hit_list cfg) = true ->
                  whitelist_lookups ip' (hit_list cfg') = true)
  /\ (forall reqs a1 a2,
        (malloc a2).1 = true ->
        let cfg'' := (serve cfg' reqs a1).1.2 in
        (is_whitelisted ip cfg'' a2).1 = true
        /\ forall r t, useragent_ip r = ip ->
             (access_checker cfg'' r t a2).1 = (OK, hit_list cfg''))
  /\ (forall o0 o1 o2 o3,
        ip = o0 ++ "." ++ o1 ++ ".*.*" ->
        octet_ok o0 = true -> octet_ok o1 = true -> octet_ok o2 = true ->
        octet_ok o3 = true ->
        whitelist_lookups (o0 ++ "." ++ o1 ++ "." ++ o2 ++ "." ++ o3)
          (hit_list cfg') = true).
Proof.
  intros Hs Hshape Hins cfg'.
  set (entry := snprintf 128 ("WHITELIST_" ++ ip)) in *.
  assert (Hhl : hit_list cfg' = (ntt_insert (hit_list cfg) entry now a).1.2)
    by apply whitelist_hit_list.
  assert (Hfound : non_null (ntt_find (hit_list cfg') entry) = true).
  { rewrite Hhl, Hs in *.
    destruct (ntt_insert (Some s) entry now a).1.1 as [p|] eqn:Hp;
      [|congruence].
    rewrite (ntt_find_insert_eq s entry now a p Hshape Hp). reflexivity. }
  assert (Hwl : whitelist_lookups ip (hit_list cfg') = true).
  { rewrite whitelist_lookups_orb. cbn zeta. fold entry. rewrite Hfound.
    reflexivity. }
  split; [exact Hwl|]. split; [|split].
  - intros ip'. apply whitelist_lookups_mono. intros k p Hk. rewrite Hhl.
    apply ntt_find_insert_mono, Hk.
  - intros reqs a1 a2 Ha2 cfg''.
    assert (Hwl'' : (is_whitelisted ip cfg'' a2).1 = true).
    { rewrite is_whitelisted_unfold. cbn [fst]. rewrite Ha2. cbn [andb].
      revert Hwl. apply whitelist_lookups_mono. intros k p.
      apply serve_find_mono. }
    split; [exact Hwl''|].
    intros r t Hip. rewrite <- Hip in Hwl''.
    destruct (access_checker_whitelisted cfg'' r t a2 Hwl'') as (a' & -> & _).
    reflexivity.
  - intros o0 o1 o2 o3 Hip H0 H1 H2 H3.
    rewrite whitelist_lookups_orb. cbn zeta.
    rewrite (octet_loop_dotted_quad o0 o1 o2 o3 H0 H1 H2 H3).
    cbn [nth]. unfold entry in Hfound. rewrite Hip in Hfound.
    rewrite Hfound. rewrite orb_true_r. reflexivity.
Qed.

Lemma whitelist_directive_lasts_witness :
  hit_list cfg_2_1 = Some ntt_6151 /\ ntt_shape ntt_6151
  /\ (ntt_insert (hit_list cfg_2_1) (snprintf 128 ("WHITELIST_" ++ "1.2.*.*"))
        0 []).1.1 <> None
  /\ whitelist_lookups "1.2.3.4" (hit_list (whitelist cfg_2_1 "1.2.*.*" 0 []).1)
     = true.
Proof.
  assert (H : (ntt_insert (hit_list cfg_2_1)
                 (snprintf 128 ("WHITELIST_" ++ "1.2.*.*")) 0 []).1.1 <> None)
    by (vm_compute; discriminate).
  split; [exact cfg_2_1_hit_list|]. split; [apply ntt_6151_inv|].
  split; [exact H|].
  exact (proj2 (proj2 (proj2 (whitelist_directive_lasts cfg_2_1 ntt_6151
                                "1.2.*.*" 0 [] cfg_2_1_hit_list
                                (proj1 (proj1 ntt_6151_inv)) H)))
           "1" "2" "3" "4" eq_refl eq_refl eq_refl eq_refl eq_refl).
Defined.

(** * The threshold of a hit check *)

Section threshold.
Implicit Types (cfg : evasive_config) (t : Z) (a : allocator)
  (hl : option ntt_t) (s : ntt_t) (n p : node_ref) (key ip : string).

Lemma hit_checks_cons m cfg ip key interval count t hl a :
  hit_checks (S m) cfg ip key interval count t hl a
  = let h := hit_check cfg ip key interval count t OK hl a in
    let rest := hit_checks m cfg ip key interval count t h.1.2 h.2 in
    (h.1.1 :: rest.1.1, rest.1.2, rest.2).
Proof.
  cbn [hit_checks]. alloc_simpl.
  destruct (hit_check cfg ip key interval count t OK hl a) as [[ret hl1] a1].
  cbn [fst snd]. alloc_simpl.
  destruct (hit_checks m cfg ip key interval count t hl1 a1) as [[rets hl2] a2].
  reflexivity.
Qed.

(** The node a successful [ntt_insert] of an absent key returns. *)
Lemma ntt_insert_fresh_node s key t a p :
  ntt_shape s -> ntt_find (Some s) key = None ->
  (ntt_insert (Some s) key t a).1.1 = Some p ->
  node_get (ntt_insert (Some s) key t a).1.2 p = Some (Node key t 0).
Proof.
  intros Hshape Hfind.
  destruct (Z.eq_dec (ntt_items s) SIZE_MAX) as [Hfull|Hfull].
  { rewrite ntt_insert_full by assumption. discriminate. }
  rewrite (ntt_insert_new _ _ _ _ Hfull Hfind). cbn zeta.
  destruct (ntt_node_create key t a) as [[node|] a1] eqn:Hnode;
    cbn [fst snd]; [|discriminate].
  apply ntt_node_create_Some in Hnode. subst node. intros [= <-].
  rewrite node_get_append by (apply ntt_hashcode_lt, Hshape).
  rewrite decide_True by reflexivity. reflexivity.
Qed.

(** [ntt_insert] of another key leaves the node of [key] as it is. *)
Lemma ntt_insert_other_node hl key ip t a n :
  key <> ip -> ntt_find hl key = Some n ->
  node_get (ntt_insert hl ip t a).1.2 n = node_get hl n.
Proof.
  intros Hne Hn. destruct (ntt_find_get _ _ _ Hn) as (m & Hm & Hk).
  destruct (ntt_insert_node_get hl ip t a n m Hm)
    as (m' & Hm' & _ & [->|[Hip _]]).
  - congruence.
  - destruct (ntt_find_get _ _ _ Hip) as (m0 & Hm0 & Hk0). congruence.
Qed.

(** Checks of a key that is in the table, stamped with the time of the
    checks and counted [c]: the check number [i] (from 0) is denied exactly
    when the threshold is not above [c + i]. *)
Lemma hit_checks_found m cfg ip key interval count t :
  key <> ip -> 0 < interval ->
  forall hl a n c,
    ntt_find hl key = Some n -> timestamp_of hl n = t ->
    count_of hl n = c -> 0 <= c -> c + Z.of_nat m <= SIZE_MAX ->
    (hit_checks m cfg ip key interval count t hl a).1.1
    = (fun i => if count <=? c + Z.of_nat i then http_reply cfg else OK)
        <$> seq 0 m.
Proof.
  intros Hne Hint. induction m as [|m IH]; intros hl a n c Hn Hts Hc Hc0 Hmax.
  - reflexivity.
  - rewrite hit_checks_cons. cbn zeta. cbn [fst snd seq fmap list_fmap].
    rewrite <- fmap_S_seq, <- list_fmap_compose.
    rewrite (hit_check_found _ _ _ _ _ _ _ _ _ _ Hn), Hts, Hc.
    replace (t - t) with 0 by lia.
    rewrite (proj2 (Z.ltb_lt 0 interval) Hint),
      (proj2 (Z.leb_gt interval 0)) by lia.
    cbn [andb]. rewrite Z.add_0_r.
    destruct (ntt_find_get _ _ _ Hn) as (node & Hnode & Hkey).
    assert (Hnc : node_count node = c).
    { unfold count_of in Hc. rewrite Hnode in Hc. exact Hc. }
    assert (Hwrap : size_t_wrap (c + 1) = c + 1).
    { unfold size_t_wrap, SIZE_MAX in *. apply Z.mod_small. lia. }
    destruct (count <=? c) eqn:Hle; cbn [fst snd].
    + f_equal.
      assert (Hnode' : node_get (ntt_insert hl ip t a).1.2 n = Some node).
      { rewrite (ntt_insert_other_node _ _ _ _ _ _ Hne Hn). exact Hnode. }
      destruct (stamp_and_count_spec t _ n _ Hnode') as (Hc' & Hts' & _ & Hf').
      rewrite (IH _ _ n (c + 1)).
      * apply list_fmap_ext. intros _ i _. unfold compose.
        rewrite Nat2Z.inj_succ.
        replace (c + Z.succ (Z.of_nat i)) with (c + 1 + Z.of_nat i) by lia.
        reflexivity.
      * rewrite Hf'. apply ntt_find_insert_mono, Hn.
      * exact Hts'.
      * rewrite Hc', Hnc. exact Hwrap.
      * lia.
      * lia.
    + f_equal.
      destruct (stamp_and_count_spec t _ n _ Hnode) as (Hc' & Hts' & _ & Hf').
      rewrite (IH _ _ n (c + 1)).
      * apply list_fmap_ext. intros _ i _. unfold compose.
        rewrite Nat2Z.inj_succ.
        replace (c + Z.succ (Z.of_nat i)) with (c + 1 + Z.of_nat i) by lia.
        reflexivity.
      * rewrite Hf'. exact Hn.
      * exact Hts'.
      * rewrite Hc', Hnc. exact Hwrap.
      * lia.
      * lia.
Qed.
End threshold.

(** X14: the threshold of a hit check, for every count.  Checks of a key
    that is not yet in the table, all within the same second, the first of
    them getting its node: the check number [i] (counted from 0) passes
    exactly when [i <= count], whatever the later allocations do.  So
    [count + 1] checks pass before the first denial, one more than the
    count configured, and every check after that is denied. *)
Theorem hit_check_threshold (cfg : evasive_config) (ip key : string)
    (interval count t : Z) (s : ntt_t) (a : allocator) (m : nat) :
  ntt_shape s -> ntt_find (Some s) key = None -> key <> ip ->
  0 < interval -> 0 <= count -> Z.of_nat m <= SIZE_MAX ->
  (ntt_insert (Some s) key t a).1.1 <> None ->
  (hit_checks m cfg ip key interval count t (Some s) a).1.1
  = (fun i => if Z.of_nat i <=? count then OK else http_reply cfg)
      <$> seq 0 m.
Proof.
  intros Hshape Hfind Hne Hint Hcount Hm Hins.
  destruct m as [|m]; [reflexivity|].
  rewrite hit_checks_cons. cbn zeta. cbn [fst snd seq fmap list_fmap].
  rewrite <- fmap_S_seq, <- list_fmap_compose.
  rewrite (hit_check_absent _ _ _ _ _ _ _ _ _ Hfind). cbn [fst snd].
  change (Z.of_nat 0) with 0.
  rewrite (proj2 (Z.leb_le 0 count)) by lia. f_equal.
  destruct (ntt_insert (Some s) key t a).1.1 as [p|] eqn:Hp; [|congruence].
  pose proof (ntt_find_insert_eq s key t a p Hshape Hp) as Hfound.
  pose proof (ntt_insert_fresh_node s key t a p Hshape Hfind Hp) as Hnode.
  rewrite (hit_checks_found m cfg ip key interval count t Hne Hint _ _ p 0
             Hfound).
  - apply list_fmap_ext. intros _ i _. unfold compose.
    rewrite Nat2Z.inj_succ.
    destruct (Z.leb_spec count (0 + Z.of_nat i));
      destruct (Z.leb_spec (Z.succ (Z.of_nat i)) count); (reflexivity || lia).
  - unfold timestamp_of. rewrite Hnode. reflexivity.
  - unfold count_of. rewrite Hnode. reflexivity.
  - lia.
  - lia.
Qed.

Lemma hit_check_threshold_witness :
  ntt_shape ntt_53 /\ ntt_find (Some ntt_53) "1.2.3.4_/x" = None
  /\ "1.2.3.4_/x" <> "1.2.3.4" /\ 0 < 1 /\ 0 <= 2
  /\ Z.of_nat 5 <= SIZE_MAX
  /\ (ntt_insert (Some ntt_53) "1.2.3.4_/x" 0 []).1.1 <> None
  /\ (hit_checks 5 cfg_2_1 "1.2.3.4" "1.2.3.4_/x" 1 2 0 (Some ntt_53) []).1.1
     = [OK; OK; OK; HTTP_FORBIDDEN; HTTP_FORBIDDEN].
Proof.
  assert (H1 : ntt_find (Some ntt_53) "1.2.3.4_/x" = None)
    by (vm_compute; reflexivity).
  assert (H2 : "1.2.3.4_/x" <> "1.2.3.4") by discriminate.
  assert (H3 : 0 < 1) by lia.
  assert (H4 : 0 <= 2) by lia.
  assert (H5 : Z.of_nat 5 <= SIZE_MAX) by (vm_compute; discriminate).
  assert (H6 : (ntt_insert (Some ntt_53) "1.2.3.4_/x" 0 []).1.1 <> None)
    by (vm_compute; discriminate).
  split; [apply ntt_53_inv|]. split; [exact H1|]. split; [exact H2|].
  split; [exact H3|]. split; [exact H4|]. split; [exact H5|].
  split; [exact H6|].
  exact (hit_check_threshold cfg_2_1 "1.2.3.4" "1.2.3.4_/x" 1 2 0 ntt_53 [] 5
           (proj1 ntt_53_inv) H1 H2 H3 H4 H5 H6).
Defined.

(** * The cursor *)

Section cursor.
Variable s : ntt_t.
Hypothesis Hshape : ntt_shape s.
Hypothesis Hsize : ntt_size s <= SIZE_MAX.

Lemma node_next_spec (b d : nat) :
  node_next (Some s) (NodeRef b d)
  = if decide (S d < length (ntt_bucket s b))%nat
    then Some (NodeRef b (S d)) else None.
Proof.
  unfold node_next. cbn [node_get ref_bucket ref_depth].
  destruct (decide _) as [Hlt|Hge].
  - destruct (lookup_lt_is_Some_2 _ _ Hlt) as [n ->]. reflexivity.
  - rewrite lookup_ge_None_2 by lia. reflexivity.
Qed.

Lemma bucket_head_spec (b : nat) :
  bucket_head (Some s) b
  = if decide (ntt_bucket s b = []) then None else Some (NodeRef b 0).
Proof.
  unfold bucket_head. cbn [node_get ref_bucket ref_depth].
  destruct (ntt_bucket s b) as [|n chain]; reflexivity.
Qed.

Lemma refs_bucket_cons (b d : nat) :
  (d < length (ntt_bucket s b))%nat ->
  refs_bucket s b d = NodeRef b d :: refs_bucket s b (S d).
Proof.
  intros Hd. unfold refs_bucket.
  replace (length (ntt_bucket s b) - d)%nat
    with (S (length (ntt_bucket s b) - S d)) by lia.
  reflexivity.
Qed.

Lemma refs_bucket_end (b d : nat) :
  (length (ntt_bucket s b) <= d)%nat -> refs_bucket s b d = [].
Proof.
  intros Hd. unfold refs_bucket.
  replace (length (ntt_bucket s b) - d)%nat with 0%nat by lia. reflexivity.
Qed.

Lemma refs_from_cons (i : nat) :
  (i < length (ntt_tbl s))%nat ->
  refs_from s i = (refs_bucket s i 0 ++ refs_from s (S i))%list.
Proof.
  intros Hi. unfold refs_from.
  replace (length (ntt_tbl s) - i)%nat
    with (S (length (ntt_tbl s) - S i)) by lia.
  reflexivity.
Qed.

Lemma refs_from_end (i : nat) :
  (length (ntt_tbl s) <= i)%nat -> refs_from s i = [].
Proof.
  intros Hi. unfold refs_from.
  replace (length (ntt_tbl s) - i)%nat with 0%nat by lia. reflexivity.
Qed.

(** The scan of [c_ntt_next] from bucket [i]: it stops on the head of the
    first bucket that is not empty, with the cursor behind it, or runs to
    the end of the bucket array. *)
Lemma c_ntt_scan_spec (k i : nat) :
  (i + k = length (ntt_tbl s))%nat ->
  ((forall j, (i <= j)%nat -> ntt_bucket s j = [])
   /\ c_ntt_scan k s (Z.of_nat i) = (None, Cursor (ntt_size s) None))
  \/ (exists j,
        (i <= j < length (ntt_tbl s))%nat
        /\ (forall j', (i <= j' < j)%nat -> ntt_bucket s j' = [])
        /\ ntt_bucket s j <> []
        /\ c_ntt_scan k s (Z.of_nat i)
           = (Some (NodeRef j 0),
              Cursor (Z.of_nat (S j)) (node_next (Some s) (NodeRef j 0)))).
Proof.
  destruct Hshape as [Hpos Hlen].
  revert i. induction k as [|k IH]; intros i Hik.
  - left. split.
    + intros j Hj. unfold ntt_bucket. rewrite lookup_ge_None_2 by lia.
      reflexivity.
    + cbn [c_ntt_scan]. f_equal. f_equal. lia.
  - cbn [c_ntt_scan].
    rewrite (proj2 (Z.ltb_lt _ _)) by lia.
    rewrite Nat2Z.id.
    assert (Hwrap : size_t_wrap (Z.of_nat i + 1) = Z.of_nat (S i)).
    { unfold size_t_wrap, SIZE_MAX in *. rewrite Z.mod_small; lia. }
    rewrite Hwrap, bucket_head_spec.
    destruct (decide (ntt_bucket s i = [])) as [Hempty|Hfull].
    + destruct (IH (S i) ltac:(lia)) as [[Hall Hscan]|(j & Hj & Hbefore & Hne & Hscan)].
      * left. split; [|exact Hscan].
        intros j Hj. destruct (decide (j = i)) as [->|]; [exact Hempty|].
        apply Hall. lia.
      * right. exists j. split; [lia|]. split; [|split; [exact Hne|exact Hscan]].
        intros j' Hj'. destruct (decide (j' = i)) as [->|]; [exact Hempty|].
        apply Hbefore. lia.
    + right. exists i. split; [lia|]. split; [intros j' Hj'; lia|].
      split; [exact Hfull|reflexivity].
Qed.

Lemma refs_from_skip (i j : nat) :
  (i <= j)%nat -> (forall j', (i <= j' < j)%nat -> ntt_bucket s j' = []) ->
  refs_from s i = refs_from s j.
Proof.
  intros Hij. induction Hij as [|j Hij IH]; intros Hempty; [reflexivity|].
  rewrite IH by (intros j' Hj'; apply Hempty; lia).
  destruct (decide (j < length (ntt_tbl s))%nat) as [Hlt|Hge].
  - rewrite (refs_from_cons j Hlt).
    rewrite (refs_bucket_end j 0); [reflexivity|].
    rewrite (Hempty j) by lia. cbn. lia.
  - rewrite !refs_from_end by lia. reflexivity.
Qed.

(** The walk from a node of bucket [b], the cursor behind it. *)
Lemma c_ntt_walk_chain (b : nat) :
  (b < length (ntt_tbl s))%nat ->
  (forall fuel,
      let scan := c_ntt_scan (length (ntt_tbl s) - S b) s (Z.of_nat (S b)) in
      (length (refs_from s (S b)) <= fuel)%nat ->
      c_ntt_walk fuel (Some s) scan.2 scan.1 = refs_from s (S b)) ->
  forall k d fuel,
    (d + S k = length (ntt_bucket s b))%nat ->
    (length (refs_bucket s b d ++ refs_from s (S b)) <= fuel)%nat ->
    c_ntt_walk fuel (Some s)
      (Cursor (Z.of_nat (S b)) (node_next (Some s) (NodeRef b d)))
      (Some (NodeRef b d))
    = (refs_bucket s b d ++ refs_from s (S b))%list.
Proof.
  intros Hb Hrest. induction k as [|k IH]; intros d fuel Hd Hfuel.
  - rewrite (refs_bucket_cons b d) in * by lia.
    rewrite (refs_bucket_end b (S d)) in * by lia.
    cbn [app length] in *.
    destruct fuel as [|fuel]; [lia|]. cbn [c_ntt_walk].
    rewrite node_next_spec, decide_False by lia.
    cbn [c_ntt_next iter_next iter_index].
    replace (Z.to_nat (ntt_size s - Z.of_nat (S b)))
      with (length (ntt_tbl s) - S b)%nat
      by (destruct Hshape as [_ ->]; lia).
    specialize (Hrest fuel). cbn zeta in Hrest.
    destruct (c_ntt_scan _ s _) as [next c]. cbn [fst snd] in Hrest.
    rewrite Hrest by lia. reflexivity.
  - rewrite (refs_bucket_cons b d) in * by lia.
    cbn [app length] in *.
    destruct fuel as [|fuel]; [lia|]. cbn [c_ntt_walk].
    rewrite node_next_spec, decide_True by lia.
    cbn [c_ntt_next iter_next iter_index].
    rewrite IH by lia. reflexivity.
Qed.

(** The walk from the scan that starts at bucket [i]. *)
Lemma c_ntt_walk_scan (k i fuel : nat) :
  (i + k = length (ntt_tbl s))%nat ->
  (length (refs_from s i) <= fuel)%nat ->
  c_ntt_walk fuel (Some s) (c_ntt_scan k s (Z.of_nat i)).2
    (c_ntt_scan k s (Z.of_nat i)).1
  = refs_from s i.
Proof.
  revert i fuel. induction k as [k IH] using lt_wf_ind. intros i fuel Hik Hfuel.
  destruct (c_ntt_scan_spec k i Hik)
    as [[Hall ->]|(j & Hj & Hbefore & Hne & ->)]; cbn [fst snd].
  - rewrite (refs_from_skip i (length (ntt_tbl s)))
      by (lia || (intros j' Hj'; apply Hall; lia)).
    rewrite refs_from_end by lia.
    destruct fuel; reflexivity.
  - rewrite (refs_from_skip i j) in * by (lia || exact Hbefore).
    rewrite (refs_from_cons j) in * by lia.
    destruct (ntt_bucket s j) as [|n chain] eqn:Hchain; [congruence|].
    apply (c_ntt_walk_chain j ltac:(lia)) with (k := length chain).
    + intros fuel' scan. subst scan.
      apply IH; lia.
    + rewrite Hchain. cbn. lia.
    + exact Hfuel.
Qed.

Lemma refs_bucket_elem (b d : nat) (q : node_ref) :
  q ∈ refs_bucket s b d
  <-> ref_bucket q = b /\ (d <= ref_depth q < length (ntt_bucket s b))%nat.
Proof.
  unfold refs_bucket. rewrite list_elem_of_fmap. split.
  - intros (x & -> & Hx). apply elem_of_seq in Hx. cbn. lia.
  - intros [Hb Hd]. exists (ref_depth q). split.
    + destruct q. cbn in *. congruence.
    + apply elem_of_seq. lia.
Qed.

Lemma refs_from_elem (i : nat) (q : node_ref) :
  q ∈ refs_from s i
  <-> (i <= ref_bucket q)%nat /\ is_Some (node_get (Some s) q).
Proof.
  unfold refs_from. rewrite list_elem_of_In, in_flat_map. split.
  - intros (b & Hb & Hq). apply list_elem_of_In, elem_of_seq in Hb.
    apply list_elem_of_In, refs_bucket_elem in Hq as [<- Hd].
    split; [lia|]. apply lookup_lt_is_Some. lia.
  - intros [Hi Hq]. cbn [node_get] in Hq. apply lookup_lt_is_Some in Hq.
    exists (ref_bucket q). split.
    + apply list_elem_of_In, elem_of_seq. split; [lia|].
      assert (ref_bucket q < length (ntt_tbl s))%nat; [|lia].
      destruct (decide (ref_bucket q < length (ntt_tbl s))%nat); [assumption|].
      unfold ntt_bucket in Hq. rewrite lookup_ge_None_2 in Hq by lia.
      cbn in Hq. lia.
    + apply list_elem_of_In, refs_bucket_elem. split; [reflexivity|lia].
Qed.

Lemma refs_from_length (i : nat) :
  length (refs_from s i) = length (concat (drop i (ntt_tbl s))).
Proof.
  remember (length (ntt_tbl s) - i)%nat as k eqn:Hk.
  revert i Hk. induction k as [|k IH]; intros i Hk.
  - rewrite refs_from_end, drop_ge by lia. reflexivity.
  - rewrite refs_from_cons by lia. rewrite length_app, (IH (S i)) by lia.
    destruct (lookup_lt_is_Some_2 (ntt_tbl s) i ltac:(lia)) as [chain Hchain].
    rewrite (drop_S _ _ _ Hchain). cbn [concat]. rewrite length_app.
    unfold refs_bucket, ntt_bucket. rewrite Hchain. cbn [default].
    rewrite length_fmap, length_seq. unfold id. lia.
Qed.
End cursor.

Lemma refs_from_NoDup (s : ntt_t) (i : nat) : NoDup (refs_from s i).
Proof.
  remember (length (ntt_tbl s) - i)%nat as k eqn:Hk.
  revert i Hk. induction k as [|k IH]; intros i Hk.
  - rewrite refs_from_end by lia. constructor.
  - rewrite refs_from_cons by lia. apply NoDup_app. split; [|split].
    + unfold refs_bucket. apply NoDup_fmap_2; [|apply NoDup_seq].
      intros x y [= ->]. reflexivity.
    + intros q Hq Hq'. apply refs_bucket_elem in Hq as [Hb _].
      apply refs_from_elem in Hq' as [Hb' _]. lia.
    + apply IH. lia.
Qed.

(** X15: the cursor enumerates the table.  Started with [c_ntt_first]
    and advanced with [c_ntt_next] until it returns [NULL], as [ntt_destroy]
    does, it returns every node of the table exactly once, bucket by bucket
    in the order of the bucket array and each chain from its head on, and
    then [NULL]: as many calls as the table has nodes are enough. *)
Theorem cursor_enumerates (s : ntt_t) (fuel : nat) :
  ntt_shape s -> ntt_size s <= SIZE_MAX ->
  (length (concat (ntt_tbl s)) <= fuel)%nat ->
  c_ntt_walk fuel (Some s) (c_ntt_first (Some s)).2 (c_ntt_first (Some s)).1
  = refs_from s 0
  /\ (forall q, q ∈ refs_from s 0 <-> is_Some (node_get (Some s) q))
  /\ NoDup (refs_from s 0)
  /\ length (refs_from s 0) = length (concat (ntt_tbl s)).
Proof.
  intros Hshape Hsize Hfuel.
  assert (Hlen : length (refs_from s 0) = length (concat (ntt_tbl s))).
  { rewrite refs_from_length. reflexivity. }
  split; [|split; [|split]].
  - unfold c_ntt_first. cbn [c_ntt_next iter_next iter_index].
    rewrite Z.sub_0_r.
    replace (Z.to_nat (ntt_size s)) with (length (ntt_tbl s))
      by (destruct Hshape as [_ ->]; reflexivity).
    apply (c_ntt_walk_scan s Hshape Hsize (length (ntt_tbl s)) 0 fuel);
      [reflexivity|lia].
  - intros q. rewrite refs_from_elem. split; [tauto|].
    intros H. split; [lia|exact H].
  - apply refs_from_NoDup.
  - exact Hlen.
Qed.

Lemma cursor_enumerates_witness :
  ntt_shape ntt_53_a0E /\ ntt_size ntt_53_a0E <= SIZE_MAX
  /\ (length (concat (ntt_tbl ntt_53_a0E)) <= 2)%nat
  /\ c_ntt_walk 2 (Some ntt_53_a0E) (c_ntt_first (Some ntt_53_a0E)).2
       (c_ntt_first (Some ntt_53_a0E)).1
     = [NodeRef 44 0; NodeRef 44 1].
Proof.
  assert (H1 : ntt_size ntt_53_a0E <= SIZE_MAX) by (vm_compute; discriminate).
  assert (H2 : (length (concat (ntt_tbl ntt_53_a0E)) <= 2)%nat)
    by (vm_compute; lia).
  split; [apply ntt_53_a0E_inv|]. split; [exact H1|]. split; [exact H2|].
  exact (proj1 (cursor_enumerates ntt_53_a0E 2 (proj1 ntt_53_a0E_inv) H1 H2)).
Defined.

(** * The destructor *)

Section destroy.
Implicit Types (s : ntt_t) (b d : nat) (n : ntt_node).

Lemma concat_lookup_length (tbl : list (list ntt_node)) b chain :
  tbl !! b = Some chain -> (length chain <= length (concat tbl))%nat.
Proof.
  intros H. pose proof (concat_insert_length tbl b chain [] H) as Hlen.
  cbn [length] in Hlen. lia.
Qed.

Lemma ntt_tbl_empty s :
  (forall j, ntt_bucket s j = []) ->
  ntt_tbl s = replicate (length (ntt_tbl s)) [].
Proof.
  intros Hall. apply list_eq. intros j.
  destruct (decide (j < length (ntt_tbl s))%nat) as [Hlt|Hge].
  - rewrite lookup_replicate_2 by exact Hlt.
    destruct (lookup_lt_is_Some_2 _ _ Hlt) as [chain Hchain].
    specialize (Hall j). unfold ntt_bucket in Hall. rewrite Hchain in Hall.
    cbn in Hall. rewrite Hchain. f_equal. exact Hall.
  - rewrite !lookup_ge_None_2; [reflexivity| |lia].
    rewrite length_replicate. lia.
Qed.

Lemma concat_replicate_nil (k : nat) :
  concat (replicate k ([] : list ntt_node)) = [].
Proof. induction k as [|k IH]; [reflexivity|exact IH]. Qed.

(** The head of a bucket is the node [ntt_find] returns for its key. *)
Lemma ntt_find_head s b n chain :
  ntt_hashed s -> ntt_bucket s b = n :: chain ->
  ntt_find (Some s) (node_key n) = Some (NodeRef b 0).
Proof.
  intros Hhashed Hb.
  assert (Hget : node_get (Some s) (NodeRef b 0) = Some n).
  { cbn [node_get ref_bucket ref_depth]. rewrite Hb. reflexivity. }
  pose proof (Hhashed _ _ Hget) as Hh. cbn [ref_bucket] in Hh.
  unfold ntt_find. rewrite <- Hh, Hb. cbn [ntt_chain_walk].
  rewrite String.eqb_refl. reflexivity.
Qed.

(** The table after the head of bucket [b] was unlinked. *)
Lemma ntt_unlink_head s b n chain items :
  ntt_shape s -> ntt_hashed s -> ntt_bucket s b = n :: chain ->
  let s' := Ntt (ntt_size s) items (<[b := chain]> (ntt_tbl s)) in
  ntt_shape s' /\ ntt_hashed s'
  /\ (forall j, ntt_bucket s' j = if decide (j = b) then chain
                                  else ntt_bucket s j)
  /\ S (length (concat (ntt_tbl s'))) = length (concat (ntt_tbl s)).
Proof.
  intros Hshape Hhashed Hb s'.
  assert (Hlt : (b < length (ntt_tbl s))%nat).
  { destruct (decide (b < length (ntt_tbl s))%nat); [assumption|].
    unfold ntt_bucket in Hb. rewrite lookup_ge_None_2 in Hb by lia.
    discriminate. }
  assert (Hbucket : forall j, ntt_bucket s' j
                              = if decide (j = b) then chain
                                else ntt_bucket s j).
  { intros j. subst s'. rewrite ntt_bucket_insert.
    destruct (decide (b = j /\ _)) as [[-> _]|Hn].
    - rewrite decide_True by reflexivity. reflexivity.
    - rewrite decide_False; [reflexivity|]. intros ->. apply Hn. auto. }
  split; [|split; [|split]].
  - destruct Hshape as [Hpos Hlen]. split; [exact Hpos|].
    subst s'. cbn [ntt_tbl ntt_size]. rewrite length_insert. exact Hlen.
  - intros [j d] m Hm. cbn [node_get ref_bucket ref_depth] in *.
    rewrite Hbucket in Hm.
    assert (Hcode : forall key, ntt_hashcode s' key = ntt_hashcode s key)
      by reflexivity.
    rewrite Hcode.
    destruct (decide (j = b)) as [->|Hne].
    + apply (Hhashed (NodeRef b (S d)) m).
      cbn [node_get ref_bucket ref_depth]. rewrite Hb. exact Hm.
    + apply (Hhashed (NodeRef j d) m). exact Hm.
  - exact Hbucket.
  - destruct (lookup_lt_is_Some_2 _ _ Hlt) as [c Hc].
    pose proof (concat_insert_length (ntt_tbl s) b c chain Hc) as Hlen.
    unfold ntt_bucket in Hb. rewrite Hc in Hb. cbn in Hb. subst c.
    subst s'. cbn [ntt_tbl length] in *. lia.
Qed.

(** The loop of [ntt_destroy] when [node] is the head of its bucket, the
    first bucket that is not empty, and the cursor is behind it: every
    [ntt_delete] unlinks the head, and what comes next is the head
    again. *)
Lemma ntt_destroy_loop_head (N : nat) :
  forall s b fuel,
    ntt_shape s -> ntt_size s <= SIZE_MAX -> ntt_hashed s ->
    length (concat (ntt_tbl s)) = N ->
    Z.of_nat N <= ntt_items s <= SIZE_MAX ->
    (forall j, (j < b)%nat -> ntt_bucket s j = []) ->
    ntt_bucket s b <> [] ->
    (N < fuel)%nat ->
    ntt_destroy_loop fuel (Some s)
      (Cursor (Z.of_nat (S b)) (node_next (Some s) (NodeRef b 0)))
      (Some (NodeRef b 0))
    = (replicate N 0,
       Some (Ntt (ntt_size s) (ntt_items s - Z.of_nat N)
               (replicate (length (ntt_tbl s)) [])),
       None).
Proof.
  induction N as [|N IH];
    intros s b fuel Hshape Hsize Hhashed HN Hitems Hbefore Hne Hfuel.
  { exfalso. destruct (ntt_bucket s b) as [|n chain] eqn:Hb; [congruence|].
    unfold ntt_bucket in Hb.
    destruct (ntt_tbl s !! b) as [c|] eqn:Hc; [|discriminate].
    cbn in Hb. subst c. apply concat_lookup_length in Hc. cbn in Hc. lia. }
  destruct (ntt_bucket s b) as [|n chain] eqn:Hb; [congruence|]. clear Hne.
  destruct fuel as [|fuel]; [lia|].
  assert (Hlt : (b < length (ntt_tbl s))%nat).
  { destruct (decide (b < length (ntt_tbl s))%nat); [assumption|].
    unfold ntt_bucket in Hb. rewrite lookup_ge_None_2 in Hb by lia.
    discriminate. }
  pose proof (ntt_find_head s b n chain Hhashed Hb) as Hfind.
  assert (Hkey : key_of (Some s) (NodeRef b 0) = node_key n).
  { unfold key_of. cbn [node_get ref_bucket ref_depth]. rewrite Hb.
    reflexivity. }
  assert (Hwrap : size_t_wrap (ntt_items s - 1) = ntt_items s - 1).
  { unfold size_t_wrap, SIZE_MAX in *. apply Z.mod_small. lia. }
  pose proof (ntt_delete_present s (node_key n) _ Hfind) as Hdel.
  cbn [ref_bucket ref_depth] in Hdel. rewrite Hb, Hwrap in Hdel.
  cbn [delete list_delete] in Hdel.
  destruct (ntt_unlink_head s b n chain (ntt_items s - 1) Hshape Hhashed Hb)
    as (Hshape' & Hhashed' & Hbucket' & Hlen').
  set (s' := Ntt (ntt_size s) (ntt_items s - 1) (<[b := chain]> (ntt_tbl s)))
    in *.
  assert (Hresult : forall b',
             (forall j, (j < b')%nat -> ntt_bucket s' j = []) ->
             ntt_bucket s' b' <> [] ->
             ntt_destroy_loop fuel (Some s')
               (Cursor (Z.of_nat (S b')) (node_next (Some s') (NodeRef b' 0)))
               (Some (NodeRef b' 0))
             = (replicate N 0,
                Some (Ntt (ntt_size s) (ntt_items s - Z.of_nat (S N))
                        (replicate (length (ntt_tbl s)) [])),
                None)).
  { intros b' Hbefore' Hne'.
    rewrite (IH s' b' fuel Hshape' Hsize Hhashed'); try assumption; try lia.
    - subst s'. cbn [ntt_size ntt_items ntt_tbl]. rewrite length_insert.
      replace (ntt_items s - 1 - Z.of_nat N)
        with (ntt_items s - Z.of_nat (S N)) by lia.
      reflexivity.
    - subst s'. cbn [ntt_items]. lia. }
  cbn [ntt_destroy_loop]. rewrite Hkey, Hfind, Hdel. fold s'.
  rewrite (node_next_spec s b 0), Hb.
  destruct chain as [|m chain'].
  - (* the chain ends here: the cursor goes to the next bucket *)
    rewrite decide_False by (cbn; lia).
    cbn [c_ntt_next iter_next iter_index].
    replace (Z.to_nat (ntt_size s - Z.of_nat (S b)))
      with (length (ntt_tbl s) - S b)%nat
      by (destruct Hshape as [_ ->]; lia).
    destruct (c_ntt_scan_spec s Hshape Hsize (length (ntt_tbl s) - S b) (S b)
                ltac:(lia))
      as [[Hall ->]|(j & Hj & Hmid & Hnej & ->)];
      cbn [iter_next iter_index fmap option_fmap option_map].
    + assert (Hempty : forall j, ntt_bucket s' j = []).
      { intros j. rewrite Hbucket'. destruct (decide (j = b)); [reflexivity|].
        destruct (decide (j < b)%nat); [apply Hbefore; assumption|].
        apply Hall. lia. }
      assert (HN0 : N = 0%nat).
      { rewrite (ntt_tbl_empty s' Hempty), concat_replicate_nil in Hlen'.
        cbn in Hlen'. lia. }
      subst N.
      assert (Hloop : forall c,
                 ntt_destroy_loop fuel (Some s') c None = ([], Some s', None))
        by (intros c; destruct fuel; reflexivity).
      rewrite Hloop. cbn [replicate]. do 3 f_equal.
      unfold s'. f_equal.
      change (<[b := []]> (ntt_tbl s)) with (ntt_tbl s').
      rewrite (ntt_tbl_empty s' Hempty). subst s'. cbn [ntt_tbl].
      rewrite length_insert. reflexivity.
    + assert (Hjb : j <> b) by lia.
      unfold ref_after_delete at 2. cbn [ref_bucket ref_depth].
      rewrite decide_False by lia.
      assert (Hnext : ref_after_delete (Some (NodeRef b 0))
                        <$> node_next (Some s) (NodeRef j 0)
                      = node_next (Some s') (NodeRef j 0)).
      { rewrite (node_next_spec s j 0), (node_next_spec s' j 0), Hbucket'.
        rewrite (decide_False (P := j = b)) by exact Hjb.
        destruct (decide _); [|reflexivity].
        cbn [fmap option_fmap option_map ref_after_delete ref_bucket
               ref_depth].
        rewrite decide_False by lia. reflexivity. }
      rewrite Hnext, Hresult.
      * reflexivity.
      * intros j' Hj'. rewrite Hbucket'.
        destruct (decide (j' = b)); [reflexivity|].
        destruct (decide (j' < b)%nat); [apply Hbefore; assumption|].
        apply Hmid. lia.
      * rewrite Hbucket', decide_False by exact Hjb. exact Hnej.
  - (* the chain goes on: the node behind the head becomes the head *)
    rewrite decide_True by (cbn; lia).
    cbn [c_ntt_next iter_next iter_index fmap option_fmap option_map].
    unfold ref_after_delete at 2. cbn [ref_bucket ref_depth].
    rewrite decide_True by (split; [reflexivity|lia]). cbn [pred].
    assert (Hnext : ref_after_delete (Some (NodeRef b 0))
                      <$> node_next (Some s) (NodeRef b 1)
                    = node_next (Some s') (NodeRef b 0)).
    { rewrite (node_next_spec s b 1), (node_next_spec s' b 0), Hbucket', Hb.
      rewrite (decide_True (P := b = b)) by reflexivity.
      destruct (decide (2 < length (n :: m :: chain'))%nat) as [H2|H2];
        cbn [length] in H2.
      - rewrite decide_True by (cbn [length]; lia).
        cbn [fmap option_fmap option_map ref_after_delete ref_bucket
               ref_depth].
        rewrite decide_True by (split; [reflexivity|lia]). reflexivity.
      - rewrite decide_False by (cbn [length]; lia). reflexivity. }
    rewrite Hnext, Hresult.
    + reflexivity.
    + intros j Hj. rewrite Hbucket', decide_False by lia.
      apply Hbefore, Hj.
    + rewrite Hbucket', decide_True by reflexivity. discriminate.
Qed.
End destroy.

(** X16: [ntt_destroy] empties the table.  On a table whose nodes hang
    from the buckets their keys hash to, the loop deletes every node:
    each [ntt_delete] finds its key and returns 0, there are as many of
    them as the table has nodes, the loop ends with [node == NULL], and
    every bucket is empty when the bucket array is freed; what is left of
    the item count is what failed allocations had added to it.  For a
    [NULL] table the function returns -1. *)
Theorem ntt_destroy_empties (s : ntt_t) :
  ntt_shape s -> ntt_hashed s -> ntt_size s <= SIZE_MAX ->
  ntt_items_ok s ->
  ntt_destroy (Some s)
  = (0, replicate (Z.to_nat (ntt_entries s)) 0,
     Some (Ntt (ntt_size s) (ntt_items s - ntt_entries s)
             (replicate (length (ntt_tbl s)) [])))
  /\ (ntt_destroy_loop (S (Z.to_nat (ntt_entries s))) (Some s)
        (c_ntt_first (Some s)).2 (c_ntt_first (Some s)).1).2 = None
  /\ ntt_destroy None = (-1, [], None).
Proof.
  intros Hshape Hhashed Hsize [Hrange Hle].
  assert (Hloop :
    ntt_destroy_loop (S (Z.to_nat (ntt_entries s))) (Some s)
      (c_ntt_first (Some s)).2 (c_ntt_first (Some s)).1
    = (replicate (Z.to_nat (ntt_entries s)) 0,
       Some (Ntt (ntt_size s) (ntt_items s - ntt_entries s)
               (replicate (length (ntt_tbl s)) [])),
       None)).
  { unfold c_ntt_first. cbn [c_ntt_next iter_next iter_index].
    rewrite Z.sub_0_r.
    replace (Z.to_nat (ntt_size s)) with (length (ntt_tbl s))
      by (destruct Hshape as [_ ->]; reflexivity).
    unfold ntt_entries in *. rewrite Nat2Z.id.
    change (c_ntt_scan (length (ntt_tbl s)) s 0)
      with (c_ntt_scan (length (ntt_tbl s)) s (Z.of_nat 0)).
    destruct (c_ntt_scan_spec s Hshape Hsize (length (ntt_tbl s)) 0 eq_refl)
      as [[Hall ->]|(j & Hj & Hbefore & Hne & ->)]; cbn [fst snd].
    - assert (Hempty : forall j, ntt_bucket s j = [])
        by (intros j; apply Hall; lia).
      assert (Hc : length (concat (ntt_tbl s)) = 0%nat).
      { rewrite (ntt_tbl_empty s Hempty), concat_replicate_nil. reflexivity. }
      rewrite Hc. cbn [replicate ntt_destroy_loop]. change (Z.of_nat 0) with 0.
      rewrite Z.sub_0_r, <- (ntt_tbl_empty s Hempty). destruct s. reflexivity.
    - rewrite (ntt_destroy_loop_head (length (concat (ntt_tbl s))) s j);
        try assumption; try reflexivity; try lia.
      intros j' Hj'. apply Hbefore. lia. }
  split; [|split; [|reflexivity]].
  - unfold ntt_destroy.
    destruct (c_ntt_first (Some s)) as [node c]. cbn [fst snd] in Hloop.
    rewrite Hloop. reflexivity.
  - rewrite Hloop. reflexivity.
Qed.

Lemma ntt_destroy_empties_witness :
  ntt_shape ntt_53_a0E /\ ntt_hashed ntt_53_a0E
  /\ ntt_size ntt_53_a0E <= SIZE_MAX /\ ntt_items_ok ntt_53_a0E
  /\ ntt_destroy (Some ntt_53_a0E) = (0, [0; 0], Some ntt_53).
Proof.
  assert (H1 : ntt_size ntt_53_a0E <= SIZE_MAX) by (vm_compute; discriminate).
  split; [apply ntt_53_a0E_inv|]. split; [apply ntt_53_a0E_inv|].
  split; [exact H1|]. split; [exact ntt_53_a0E_items_ok|].
  exact (proj1 (ntt_destroy_empties ntt_53_a0E (proj1 ntt_53_a0E_inv)
                  (proj1 (proj2 ntt_53_a0E_inv)) H1 ntt_53_a0E_items_ok)).
Defined.

